(** * RLHF data generation pipeline: state extraction, reward model,
      data quality gate, episode manager, scenario generator, expert policy.

    A shallow embedding of the Python package [rlhf_data_collection].

    - Python values of the kinds the package handles (None, bool, int,
      float, str, list, dict with string keys) are the inductive [value].
    - A dict is an association list with unique keys in insertion order,
      which is the order Python iterates it in.
    - Arithmetic is written once over a class [Number] of the operations
      Python uses on floats.  It is instantiated with exact rationals
      ([QNumber]) and with IEEE binary64 ([FloatNumber], the arithmetic
      Python really runs).  An integer that meets a float is converted
      with [nofZ], which in binary64 rounds to the nearest float as
      [float(int)] does; an int in the data that is too large for a float
      raises as in Python ([int_to_num]).
    - A raised exception is [None] in [exc]; every handler of the package is
      [except Exception], so the exception's identity is not kept.
    - Log messages built with f-strings keep their template and arguments
      ([message]) instead of the rendered text. *)

From Stdlib Require Import ZArith QArith Qabs Qminmax List String Ascii Bool Lia Lqa.
From Stdlib Require Import DecimalString Qround.
From Stdlib Require Import PrimFloat Uint63 SpecFloat FloatOps FloatAxioms.
Import ListNotations.
Open Scope string_scope.
Open Scope list_scope.
Open Scope Z_scope.

Set Implicit Arguments.
Set Warnings "-register-all".

(* ================================================================== *)
(** * Exceptions *)

Module Exc.

Definition exc (A : Type) : Type := option A.
Definition ret {A} (a : A) : exc A := Some a.
Definition raise {A} : exc A := None.
Definition bind {A B} (c : exc A) (k : A -> exc B) : exc B :=
  match c with Some a => k a | None => None end.

(** [try: c except: h] *)
Definition try_except {A} (c : exc A) (h : A) : A :=
  match c with Some a => a | None => h end.

Fixpoint mapM {A B} (f : A -> exc B) (l : list A) : exc (list B) :=
  match l with
  | [] => Some []
  | a :: l' =>
      match f a with
      | None => None
      | Some b => match mapM f l' with None => None | Some bs => Some (b :: bs) end
      end
  end.

Fixpoint foldM {A S} (f : S -> A -> exc S) (l : list A) (s : S) : exc S :=
  match l with
  | [] => Some s
  | a :: l' => match f s a with None => None | Some s' => foldM f l' s' end
  end.

(** A computation that appends findings to a list and may raise part-way:
    the findings appended before the exception stay appended. *)
Definition logexc (E A : Type) : Type := (list E * option A)%type.
Definition lret {E A} (a : A) : logexc E A := ([], Some a).
Definition lraise {E A} : logexc E A := ([], None).
Definition ltell {E} (e : E) : logexc E unit := ([e], Some tt).
Definition llift {E A} (c : exc A) : logexc E A := ([], c).
Definition lbind {E A B} (c : logexc E A) (k : A -> logexc E B) : logexc E B :=
  match c with
  | (l, None) => (l, None)
  | (l, Some a) => let (l', r) := k a in (l ++ l', r)
  end.
Fixpoint lforeach {E A} (f : A -> logexc E unit) (l : list A) : logexc E unit :=
  match l with
  | [] => lret tt
  | a :: l' => lbind (f a) (fun _ => lforeach f l')
  end.
(** [try: c except Exception as e: log.append(h)] *)
Definition lcatch {E A} (c : logexc E A) (h : E) : list E :=
  match c with
  | (l, Some _) => l
  | (l, None) => l ++ [h]
  end.

End Exc.
Import Exc.

Declare Scope exc_scope.
Delimit Scope exc_scope with exc.
Notation "x <- c ;; k" := (bind c (fun x => k))
  (at level 61, c at next level, right associativity) : exc_scope.
Notation "' p <- c ;; k" := (bind c (fun p => k))
  (at level 61, p pattern, c at next level, right associativity) : exc_scope.
Declare Scope log_scope.
Delimit Scope log_scope with log.
Notation "x <- c ;; k" := (lbind c (fun x => k))
  (at level 61, c at next level, right associativity) : log_scope.
Notation "c ;;; k" := (lbind c (fun _ => k))
  (at level 61, right associativity) : log_scope.

(* ================================================================== *)
(** * Numbers *)

(** The operations on Python floats (and on numpy's float64) that the
    package uses. *)
Class Number (T : Type) : Type := {
  nofZ : Z -> T;              (* float(int) *)
  nadd : T -> T -> T;
  nsub : T -> T -> T;
  nmul : T -> T -> T;
  ndiv : T -> T -> T;         (* the quotient where the divisor is not zero *)
  nabs : T -> T;
  neqb : T -> T -> bool;      (* == *)
  nltb : T -> T -> bool;      (* <  *)
  nleb : T -> T -> bool;      (* <= *)
  nisfinite : T -> bool;      (* np.isfinite *)
  nsqrt : T -> T              (* np.sqrt *)
}.

(** What the package takes from libraries and from the Python run time and
    is not arithmetic on floats. *)
Inductive pykind : Type :=
  KNone | KBool | KInt | KFloat | KStr | KList | KDict | KDataPoint.

Class PyLib (T : Type) : Type := {
  np_sin : T -> T;
  np_pi : T;
  (** [datetime.fromisoformat(s)]: hour, minute and second of the parsed
      time, [None] when the string is rejected (ValueError). *)
  datetime_fromisoformat : string -> option (Z * Z * Z);
  (** [hasattr(obj, name)] for an attribute the object's class defines
      (a method, a dunder), which is not a dict key or a dataclass field. *)
  class_hasattr : pykind -> string -> bool;
  (** Whether the rest of a dotted path resolves to something that is not
      None, starting from such a class attribute. *)
  class_attr_path : pykind -> string -> list string -> bool
}.

Section Numbers.
Context {T : Type} {N : Number T}.

(** A decimal literal [num/den]; in binary64 the correctly rounded quotient
    of two small integers is the literal's value. *)
Definition lit (num : Z) (den : Z) : T := ndiv (nofZ num) (nofZ den).

Definition ngtb (a b : T) : bool := nltb b a.
Definition ngeb (a b : T) : bool := nleb b a.

(** Python's built-in [max(a, b)] and [min(a, b)] on two arguments. *)
Definition pymax (a b : T) : T := if ngtb b a then b else a.
Definition pymin (a b : T) : T := if nltb b a then b else a.

(** [np.clip(x, lo, hi)] = [np.minimum(np.maximum(x, lo), hi)] for bounds
    [lo], [hi] that are numbers; a NaN [x] comes back unchanged. *)
Definition np_clip (x lo hi : T) : T :=
  let m := if nltb x lo then lo else x in
  if nltb hi m then hi else m.

(** The built-in [sum(l)]: sequential accumulation from 0 (CPython up to
    3.11). *)
Definition nsum (l : list T) : T := fold_left nadd l (nofZ 0).

(** numpy's pairwise summation of a contiguous array of floats
    ([pairwise_sum] in numpy's umath loops): fewer than 8 items are added
    in sequence from 0; up to 128 items are added into 8 accumulators,
    which are then added as a tree, and the remainder in sequence; a
    longer array is split near the middle, at a multiple of 8. *)
Fixpoint add_blocks (blocks : nat) (r l : list T) : list T * list T :=
  match blocks with
  | O => (r, l)
  | S b =>
      add_blocks b
        (map (fun p => nadd (fst p) (snd p)) (combine r (firstn 8 l)))
        (skipn 8 l)
  end.

Definition sum_of_accumulators (r : list T) : T :=
  match r with
  | [r0; r1; r2; r3; r4; r5; r6; r7] =>
      nadd (nadd (nadd r0 r1) (nadd r2 r3)) (nadd (nadd r4 r5) (nadd r6 r7))
  | _ => nofZ 0
  end.

(** The case of 8 to 128 items. *)
Definition block_sum (l : list T) : T :=
  let n := List.length l in
  let '(r, rest) := add_blocks (n / 8 - 1) (firstn 8 l) (skipn 8 l) in
  fold_left nadd rest (sum_of_accumulators r).

(** [fuel] bounds the depth of the splitting; the length of the list is
    always enough ([pairwise_sum_rec_fuel]). *)
Fixpoint pairwise_sum_rec (fuel : nat) (l : list T) : T :=
  let n := List.length l in
  if (n <? 8)%nat then fold_left nadd l (nofZ 0)
  else if (n <=? 128)%nat then block_sum l
  else
    match fuel with
    | O => block_sum l
    | S fuel' =>
        let n2 := (n / 2 - (n / 2) mod 8)%nat in
        nadd (pairwise_sum_rec fuel' (firstn n2 l))
             (pairwise_sum_rec fuel' (skipn n2 l))
    end.

Definition pairwise_sum (l : list T) : T :=
  pairwise_sum_rec (List.length l) l.

(** [np.add.reduce] on a float array: the result starts at the identity
    0.0, to which the pairwise sum is added. *)
Definition np_sum (l : list T) : T := nadd (nofZ 0) (pairwise_sum l).

(** [np.mean] and [np.std] (population standard deviation) of a flat
    array of floats. *)
Definition np_mean (l : list T) : T :=
  ndiv (np_sum l) (nofZ (Z.of_nat (List.length l))).
Definition np_std (l : list T) : T :=
  let arrmean := np_mean l in
  nsqrt (np_mean (map (fun a => let x := nsub a arrmean in nmul x x) l)).

End Numbers.

(* ================================================================== *)
(** * Python values *)

Section Values.
Context {T : Type} {N : Number T}.

Inductive value : Type :=
| VNone
| VBool (b : bool)
| VInt (z : Z)
| VFloat (x : T)
| VStr (s : string)
| VList (l : list value)
| VDict (d : list (string * value)).

Definition dict : Type := list (string * value).

Definition kind_of (v : value) : pykind :=
  match v with
  | VNone => KNone | VBool _ => KBool | VInt _ => KInt | VFloat _ => KFloat
  | VStr _ => KStr | VList _ => KList | VDict _ => KDict
  end.

(** ** Dicts *)

Fixpoint lookup (k : string) (d : dict) : option value :=
  match d with
  | [] => None
  | (k', v) :: d' => if String.eqb k k' then Some v else lookup k d'
  end.

(** [k in d] *)
Definition has_key (k : string) (d : dict) : bool :=
  match lookup k d with Some _ => true | None => false end.

(** [d.get(k, default)] *)
Definition get (k : string) (default : value) (d : dict) : value :=
  match lookup k d with Some v => v | None => default end.

(** [d[k] = v] *)
Fixpoint dict_set (k : string) (v : value) (d : dict) : dict :=
  match d with
  | [] => [(k, v)]
  | (k', v') :: d' =>
      if String.eqb k k' then (k, v) :: d' else (k', v') :: dict_set k v d'
  end.

(** [d.update(other)] *)
Definition dict_update (d other : dict) : dict :=
  fold_left (fun acc kv => dict_set (fst kv) (snd kv) acc) other d.

Definition keys (d : dict) : list string := map fst d.
Definition values (d : dict) : list value := map snd d.

(** [v.get(k, default)]: AttributeError unless [v] is a dict. *)
Definition py_get (k : string) (default : value) (v : value) : exc value :=
  match v with
  | VDict d => ret (get k default d)
  | _ => raise
  end.

(** ** Numbers among the values *)

Definition bool_Z (b : bool) : Z := if b then 1 else 0.

(** [float(z)] for an int of the data that meets a float: OverflowError
    when the int is too large for a float. *)
Definition int_to_num (z : Z) : exc T :=
  if nisfinite (nofZ z) then ret (nofZ z) else raise.

(** The number a value stands for in arithmetic; TypeError otherwise.
    A bool is the integer 0 or 1. *)
Definition as_num (v : value) : exc T :=
  match v with
  | VBool b => ret (nofZ (bool_Z b))
  | VInt z => int_to_num z
  | VFloat x => ret x
  | _ => raise
  end.

Definition is_number (v : value) : bool :=
  match v with VBool _ | VInt _ | VFloat _ => true | _ => false end.

(** [isinstance(v, (int, float)) and np.isfinite(v)] *)
Definition is_finite_number (v : value) : bool :=
  match v with
  | VBool _ | VInt _ => true
  | VFloat x => nisfinite x
  | _ => false
  end.

(** [isinstance(v, (int, bool))] *)
Definition is_int_or_bool (v : value) : bool :=
  match v with VBool _ | VInt _ => true | _ => false end.

(** Truth value of a value in a condition. *)
Definition truthy (v : value) : bool :=
  match v with
  | VNone => false
  | VBool b => b
  | VInt z => negb (z =? 0)
  | VFloat x => negb (neqb x (nofZ 0))
  | VStr s => negb (String.eqb s "")
  | VList l => match l with [] => false | _ => true end
  | VDict d => match d with [] => false | _ => true end
  end.

(** ** Strings *)

Fixpoint chars (s : string) : list value :=
  match s with
  | EmptyString => []
  | String c s' => VStr (String c EmptyString) :: chars s'
  end.

Definition lower_ascii (c : ascii) : ascii :=
  let n := nat_of_ascii c in
  if (Nat.leb 65 n && Nat.leb n 90)%bool then ascii_of_nat (n + 32) else c.

(** [s.lower()] on the ASCII letters, which are the only ones the
    package's tables have keys for. *)
Fixpoint lower (s : string) : string :=
  match s with
  | EmptyString => EmptyString
  | String c s' => String (lower_ascii c) (lower s')
  end.

(** [s.replace('Z', '+00:00')] *)
Fixpoint replace_Z (s : string) : string :=
  match s with
  | EmptyString => EmptyString
  | String c s' =>
      if Ascii.eqb c "Z"%char then "+00:00" ++ replace_Z s'
      else String c (replace_Z s')
  end%string.

Fixpoint is_prefix (p s : string) : bool :=
  match p, s with
  | EmptyString, _ => true
  | String a p', String b s' => Ascii.eqb a b && is_prefix p' s'
  | String _ _, EmptyString => false
  end.

(** [p in s] for two strings *)
Fixpoint is_substring (p s : string) : bool :=
  is_prefix p s ||
  match s with
  | EmptyString => false
  | String _ s' => is_substring p s'
  end.

(** [s.split('.')] *)
Fixpoint split_dots_aux (cur : string) (s : string) : list string :=
  match s with
  | EmptyString => [cur]
  | String c s' =>
      if Ascii.eqb c "."%char then cur :: split_dots_aux EmptyString s'
      else split_dots_aux (cur ++ String c EmptyString)%string s'
  end.
Definition split_dots (s : string) : list string := split_dots_aux EmptyString s.

(** ** Generic operations *)

(** [len(v)]: TypeError on a value without a length. *)
Definition py_len (v : value) : exc Z :=
  match v with
  | VStr s => ret (Z.of_nat (String.length s))
  | VList l => ret (Z.of_nat (List.length l))
  | VDict d => ret (Z.of_nat (List.length d))
  | _ => raise
  end.

(** [for x in v]: the items iterated over; TypeError when not iterable. *)
Definition py_iter (v : value) : exc (list value) :=
  match v with
  | VStr s => ret (chars s)
  | VList l => ret l
  | VDict d => ret (map VStr (keys d))
  | _ => raise
  end.

(** [v[i]] for an index [i >= 0]: IndexError, KeyError or TypeError when
    there is no such item (a dict here has string keys only). *)
Definition py_index (v : value) (i : nat) : exc value :=
  match v with
  | VStr s => nth_error (chars s) i
  | VList l => nth_error l i
  | _ => raise
  end.

Definition num_of (v : value) : option (Z + T) :=
  match v with
  | VBool b => Some (inl (bool_Z b))
  | VInt z => Some (inl z)
  | VFloat x => Some (inr x)
  | _ => None
  end.

Definition num_eqb (a b : Z + T) : bool :=
  match a, b with
  | inl x, inl y => x =? y
  | inl x, inr y => neqb (nofZ x) y
  | inr x, inl y => neqb x (nofZ y)
  | inr x, inr y => neqb x y
  end.

Definition num_ltb (a b : Z + T) : bool :=
  match a, b with
  | inl x, inl y => x <? y
  | inl x, inr y => nltb (nofZ x) y
  | inr x, inl y => nltb x (nofZ y)
  | inr x, inr y => nltb x y
  end.

(** [a == b] *)
Fixpoint py_eq (a b : value) {struct a} : bool :=
  match a, b with
  | VNone, VNone => true
  | VStr s, VStr t => String.eqb s t
  | VList l, VList m =>
      (fix go (l m : list value) {struct l} : bool :=
         match l, m with
         | [], [] => true
         | x :: l', y :: m' => py_eq x y && go l' m'
         | _, _ => false
         end) l m
  | VDict d, VDict e =>
      Nat.eqb (List.length d) (List.length e) &&
      (fix go (d : list (string * value)) {struct d} : bool :=
         match d with
         | [] => true
         | (k, v) :: d' =>
             match lookup k e with
             | Some w => py_eq v w
             | None => false
             end && go d'
         end) d
  | _, _ =>
      match num_of a, num_of b with
      | Some x, Some y => num_eqb x y
      | _, _ => false
      end
  end.

(** Values that can be put in a set or used as a dict key. *)
Definition hashable (v : value) : bool :=
  match v with VList _ | VDict _ => false | _ => true end.

(** A set is the list of its members in the order they were first added. *)
Definition pyset : Type := list value.

(** [v in s] for a set or the keys of a dict: TypeError when [v] is
    unhashable. *)
Definition set_mem (v : value) (s : pyset) : exc bool :=
  if hashable v then ret (existsb (py_eq v) s) else raise.

(** [s.add(v)] *)
Definition set_add (v : value) (s : pyset) : exc pyset :=
  if hashable v then ret (if existsb (py_eq v) s then s else s ++ [v])
  else raise.

(** [k in v] for a string [k]: key of a dict, item of a list, substring of
    a string; TypeError otherwise. *)
Definition py_contains_str (k : string) (v : value) : exc bool :=
  match v with
  | VDict d => ret (has_key k d)
  | VList l => ret (existsb (py_eq (VStr k)) l)
  | VStr s => ret (is_substring k s)
  | _ => raise
  end.

(** ** Sorting *)

Section Sort.
Variable A : Type.
Variable ltb : A -> A -> bool.

(** Stable insertion: [x] goes before the first item that is greater. *)
Fixpoint insert_sorted (x : A) (l : list A) : list A :=
  match l with
  | [] => [x]
  | y :: l' => if ltb x y then x :: y :: l' else y :: insert_sorted x l'
  end.

Definition sort_by (l : list A) : list A :=
  fold_left (fun acc x => insert_sorted x acc) l [].
End Sort.

Definition all_strings (l : list value) : option (list string) :=
  mapM (fun v => match v with VStr s => Some s | _ => None end) l.

Definition all_numbers (l : list value) : option (list (Z + T)) :=
  mapM num_of l.

(** [sorted(s)] for a set [s]: strings in code-point order, numbers in
    numeric order; TypeError when two members cannot be compared. *)
Definition py_sorted (s : pyset) : exc (list value) :=
  match all_strings s with
  | Some _ =>
      ret (sort_by (fun a b => match a, b with
                               | VStr x, VStr y => String.ltb x y
                               | _, _ => false
                               end) s)
  | None =>
      match all_numbers s with
      | Some _ =>
          ret (sort_by (fun a b => match num_of a, num_of b with
                                   | Some x, Some y => num_ltb x y
                                   | _, _ => false
                                   end) s)
      | None => match s with
                | [] | [_] => ret s
                | _ => raise
                end
      end
  end.

(** Position of [v] in a list of distinct keys, as in
    [{k: i for i, k in enumerate(l)}] followed by a lookup. *)
Fixpoint index_of (v : value) (l : list value) : option nat :=
  match l with
  | [] => None
  | k :: l' => if py_eq v k then Some O
               else match index_of v l' with Some i => Some (S i) | None => None end
  end.

(** ** numpy arrays *)

(** [np.asarray(v)] for a reduction: the flattened numbers and the shape;
    an exception for entries that are not numbers and for ragged nesting. *)
Fixpoint shape_eqb (a b : list nat) : bool :=
  match a, b with
  | [], [] => true
  | x :: a', y :: b' => Nat.eqb x y && shape_eqb a' b'
  | _, _ => false
  end.

Fixpoint np_array (v : value) : exc (list T * list nat) :=
  match v with
  | VBool b => ret ([nofZ (bool_Z b)], [])
  | VInt z => bind (int_to_num z) (fun x => ret ([x], []))
  | VFloat x => ret ([x], [])
  | VList l =>
      let rows :=
        (fix go (l : list value) : exc (list T * option (list nat)) :=
           match l with
           | [] => ret ([], None)
           | x :: l' =>
               match np_array x, go l' with
               | Some (fx, sx), Some (fl, None) => ret (fx ++ fl, Some sx)
               | Some (fx, sx), Some (fl, Some sl) =>
                   if shape_eqb sx sl then ret (fx ++ fl, Some sx) else raise
               | _, _ => raise
               end
           end) l in
      match rows with
      | Some (f, Some s) => ret (f, List.length l :: s)
      | Some (f, None) => ret (f, [O])
      | None => raise
      end
  | _ => raise
  end.

End Values.

Arguments value T : clear implicits.
Arguments dict T : clear implicits.
Arguments pyset T : clear implicits.

(* ================================================================== *)
(** * State extractor  (rlhf_data_collector.py) *)

Section StateExtractor.
Context {T : Type} {N : Number T} {L : PyLib T}.
Local Open Scope exc_scope.

(** [self.state_space_config] *)
Variable state_space_config : dict T.

Definition F0 : value T := VFloat (nofZ 0).
Definition F1 : value T := VFloat (nofZ 1).

(** [self.state_space_config.get(group, {}).get(name, False)] as a
    condition. *)
Definition enabled (group name : string) : exc bool :=
  v <- py_get name (VBool false) (get group (VDict []) state_space_config) ;;
  ret (truthy v).

(** [if enabled: state[key] = body] *)
Definition when_enabled (group name key : string) (body : exc (value T))
    (st : dict T) : exc (dict T) :=
  b <- enabled group name ;;
  if b then (v <- body ;; ret (dict_set key v st)) else ret st.

(** [[f(x) for x in items]] *)
Definition per_item (items : value T) (f : value T -> exc (value T))
    : exc (value T) :=
  l <- py_iter items ;;
  r <- mapM f l ;;
  ret (VList r).

(** [[p.get(k1, d1), ...] if isinstance(p, dict) else [d1, ...]] *)
Definition fields_or_default (ks : list (string * value T)) (p : value T)
    : value T :=
  match p with
  | VDict d => VList (map (fun kd => get (fst kd) (snd kd) d) ks)
  | _ => VList (map snd ks)
  end.

Definition _get_empty_state : dict T :=
  [ ("satellite_positions", VList []);
    ("satellite_velocities", VList []);
    ("satellite_attitudes", VList []);
    ("missile_positions", VList []);
    ("missile_velocities", VList []);
    ("visibility_matrix", VList []);
    ("coverage_ratio", F0);
    ("mission_progress", F0);
    ("active_satellites", VInt 0);
    ("active_missiles", VInt 0);
    ("time_of_day", F0) ].

Definition _get_empty_satellite_state : dict T :=
  [ ("satellite_positions", VList []);
    ("satellite_velocities", VList []);
    ("satellite_attitudes", VList []);
    ("satellite_orbital_elements", VList []);
    ("satellite_power_states", VList []);
    ("satellite_payload_states", VList []) ].

Definition _get_empty_missile_state : dict T :=
  [ ("missile_positions", VList []);
    ("missile_velocities", VList []);
    ("missile_trajectory_predictions", VList []);
    ("missile_threat_levels", VList []);
    ("missile_flight_phases", VList []);
    ("missile_remaining_times", VList []) ].

Definition _encode_flight_phase (phase : value T) : exc (value T) :=
  match phase with
  | VStr s =>
      let p := lower s in
      ret (VInt (if String.eqb p "boost" then 1
                 else if String.eqb p "midcourse" then 2
                 else if String.eqb p "terminal" then 3
                 else if String.eqb p "in_flight" then 2
                 else if String.eqb p "impact" then 4
                 else 0))
  | _ => raise
  end.

Definition _encode_threat_level (threat_level : value T) : exc (value T) :=
  match threat_level with
  | VStr s =>
      let p := lower s in
      ret (VInt (if String.eqb p "low" then 1
                 else if String.eqb p "medium" then 2
                 else if String.eqb p "high" then 3
                 else if String.eqb p "critical" then 4
                 else 0))
  | _ => raise
  end.

Definition _encode_time_of_day (timestamp_str : value T) : T :=
  match timestamp_str with
  | VStr s =>
      match datetime_fromisoformat (replace_Z s) with
      | Some (h, m, sec) => ndiv (nofZ (h * 3600 + m * 60 + sec)) (nofZ 86400)
      | None => nofZ 0
      end
  | _ => nofZ 0
  end.

Definition _extract_satellite_states (satellites : value T) : exc (dict T) :=
  if negb (truthy satellites) then ret _get_empty_satellite_state else
  st <- when_enabled "satellite_states" "position" "satellite_positions"
          (per_item satellites (fun sat =>
             pos <- py_get "position" (VDict []) sat ;;
             ret (fields_or_default [("x", F0); ("y", F0); ("z", F0)] pos))) [] ;;
  st <- when_enabled "satellite_states" "velocity" "satellite_velocities"
          (per_item satellites (fun sat =>
             vel <- py_get "velocity" (VDict []) sat ;;
             ret (fields_or_default [("vx", F0); ("vy", F0); ("vz", F0)] vel))) st ;;
  st <- when_enabled "satellite_states" "attitude" "satellite_attitudes"
          (per_item satellites (fun sat =>
             att <- py_get "attitude" (VDict []) sat ;;
             ret (fields_or_default
                    [("q0", F1); ("q1", F0); ("q2", F0); ("q3", F0)] att))) st ;;
  st <- when_enabled "satellite_states" "orbital_elements"
          "satellite_orbital_elements"
          (per_item satellites (fun sat =>
             orb <- py_get "orbital_elements" (VDict []) sat ;;
             ret (fields_or_default
                    [("semi_major_axis", F0); ("eccentricity", F0);
                     ("inclination", F0); ("raan", F0);
                     ("arg_perigee", F0); ("mean_anomaly", F0)] orb))) st ;;
  st <- when_enabled "satellite_states" "power_status" "satellite_power_states"
          (per_item satellites (fun sat =>
             payload <- py_get "payload_status" (VDict []) sat ;;
             pw <- py_get "power_consumption" (VFloat (nofZ 80)) payload ;;
             op <- py_get "operational" (VBool true) payload ;;
             tmp <- py_get "temperature" (VFloat (nofZ 25)) payload ;;
             ret (VList [pw; if truthy op then F1 else F0; tmp]))) st ;;
  st <- when_enabled "satellite_states" "payload_status"
          "satellite_payload_states"
          (per_item satellites (fun sat =>
             payload <- py_get "payload_status" (VDict []) sat ;;
             op <- py_get "operational" (VBool true) payload ;;
             acc <- py_get "pointing_accuracy" (VFloat (lit 1 10)) payload ;;
             rng <- py_get "detection_range" (VFloat (nofZ 5000)) payload ;;
             ret (VList [if truthy op then F1 else F0; acc; rng]))) st ;;
  ret st.

(** [max(0.0, total_flight_time - flight_duration)]: the difference of two
    ints (or bools) is an int, and [max] returns it when it is above 0.0;
    otherwise the operands meet as floats. *)
Definition remaining_time (total_flight_time flight_duration : value T)
    : exc (value T) :=
  match num_of total_flight_time, num_of flight_duration with
  | Some (inl t), Some (inl d) =>
      ret (if 0 <? t - d then VInt (t - d) else F0)
  | Some _, Some _ =>
      t <- as_num total_flight_time ;;
      d <- as_num flight_duration ;;
      ret (VFloat (pymax (nofZ 0) (nsub t d)))
  | _, _ => raise
  end.

Definition _extract_missile_states (missiles : value T) : exc (dict T) :=
  if negb (truthy missiles) then ret _get_empty_missile_state else
  st <- when_enabled "missile_states" "position" "missile_positions"
          (per_item missiles (fun missile =>
             pos <- py_get "position" (VDict []) missile ;;
             ret (fields_or_default [("x", F0); ("y", F0); ("z", F0)] pos))) [] ;;
  st <- when_enabled "missile_states" "velocity" "missile_velocities"
          (per_item missiles (fun missile =>
             vel <- py_get "velocity" (VDict []) missile ;;
             ret (fields_or_default [("vx", F0); ("vy", F0); ("vz", F0)] vel))) st ;;
  st <- when_enabled "missile_states" "trajectory_prediction"
          "missile_trajectory_predictions"
          (per_item missiles (fun missile =>
             traj <- py_get "trajectory" (VDict []) missile ;;
             match traj with
             | VDict t =>
                 let launch_pos := get "launch_position" (VDict []) t in
                 let impact_pos := get "impact_position" (VDict []) t in
                 a <- py_get "lat" F0 launch_pos ;;
                 b <- py_get "lon" F0 launch_pos ;;
                 c <- py_get "lat" F0 impact_pos ;;
                 d <- py_get "lon" F0 impact_pos ;;
                 ret (VList [a; b; c; d; get "flight_time" F0 t;
                             get "max_altitude" F0 t])
             | _ => ret (VList [F0; F0; F0; F0; F0; F0])
             end)) st ;;
  st <- when_enabled "missile_states" "threat_level" "missile_threat_levels"
          (per_item missiles (fun missile =>
             threat_level <- py_get "threat_level" (VStr "unknown") missile ;;
             _encode_threat_level threat_level)) st ;;
  st <- when_enabled "missile_states" "flight_phase" "missile_flight_phases"
          (per_item missiles (fun missile =>
             fs <- py_get "flight_status" (VDict []) missile ;;
             phase <- py_get "status" (VStr "unknown") fs ;;
             _encode_flight_phase phase)) st ;;
  st <- when_enabled "missile_states" "remaining_time" "missile_remaining_times"
          (per_item missiles (fun missile =>
             flight_status <- py_get "flight_status" (VDict []) missile ;;
             flight_duration <- py_get "flight_duration" F0 flight_status ;;
             traj <- py_get "trajectory" (VDict []) missile ;;
             total_flight_time <- py_get "flight_time" (VFloat (nofZ 1800)) traj ;;
             remaining_time total_flight_time flight_duration)) st ;;
  ret st.

(** ** Visibility *)

Definition matrix : Type := list (list Z).

Fixpoint list_set {A} (i : nat) (a : A) (l : list A) : list A :=
  match l, i with
  | [], _ => []
  | _ :: l', O => a :: l'
  | x :: l', S i' => x :: list_set i' a l'
  end.

(** [m[i][j] = b] for indices inside the matrix *)
Definition matrix_set (i j : nat) (b : Z) (m : matrix) : matrix :=
  match nth_error m i with
  | Some row => list_set i (list_set j b row) m
  | None => m
  end.

Definition zsum (l : list Z) : Z := fold_left Z.add l 0.

Definition vis_ids (vis : value T) : exc (value T * value T) :=
  sat_id <- py_get "satellite_id" (VStr "") vis ;;
  missile_id <- py_get "missile_id" (VStr "") vis ;;
  ret (sat_id, missile_id).

Definition _create_visibility_matrix (visibility_data : value T)
    (num_satellites num_missiles : Z) : exc matrix :=
  if (num_satellites =? 0) || (num_missiles =? 0) then ret [] else
  let m0 : matrix :=
    repeat (repeat 0 (Z.to_nat num_missiles)) (Z.to_nat num_satellites) in
  items <- py_iter visibility_data ;;
  ids <- foldM (fun (acc : pyset T * pyset T) vis =>
                  '(sat_id, missile_id) <- vis_ids vis ;;
                  s <- (if truthy sat_id then set_add sat_id (fst acc)
                        else ret (fst acc)) ;;
                  m <- (if truthy missile_id then set_add missile_id (snd acc)
                        else ret (snd acc)) ;;
                  ret (s, m)) items ([], []) ;;
  satellite_ids <- py_sorted (fst ids) ;;
  missile_ids <- py_sorted (snd ids) ;;
  foldM (fun (m : matrix) vis =>
           '(sat_id, missile_id) <- vis_ids vis ;;
           has_visibility <- py_get "has_visibility" (VBool false) vis ;;
           known_sat <- set_mem sat_id satellite_ids ;;
           known <- (if known_sat then set_mem missile_id missile_ids
                     else ret false) ;;
           if known then
             match index_of sat_id satellite_ids,
                   index_of missile_id missile_ids with
             | Some sat_idx, Some missile_idx =>
                 if (Z.of_nat sat_idx <? num_satellites)
                    && (Z.of_nat missile_idx <? num_missiles)
                 then ret (matrix_set sat_idx missile_idx
                             (if truthy has_visibility then 1 else 0) m)
                 else ret m
             | _, _ => ret m
             end
           else ret m) items m0.

Definition matrix_value (m : matrix) : value T :=
  VList (map (fun row => VList (map (fun z => VInt z) row)) m).

Definition ints_value (l : list Z) : value T := VList (map (fun z => VInt z) l).

Definition covered_pairs (m : matrix) : Z := zsum (map zsum m).

Definition _extract_visibility_states (visibility_data : value T)
    (num_satellites num_missiles : Z) : exc (dict T) :=
  visibility_matrix <-
    _create_visibility_matrix visibility_data num_satellites num_missiles ;;
  let st := [("visibility_matrix", matrix_value visibility_matrix)] in
  match visibility_matrix with
  | row0 :: _ =>
      let total_pairs := num_satellites * num_missiles in
      let coverage_ratio :=
        if 0 <? total_pairs
        then ndiv (nofZ (covered_pairs visibility_matrix)) (nofZ total_pairs)
        else nofZ 0 in
      let st := dict_set "coverage_ratio" (VFloat coverage_ratio) st in
      let st := dict_set "satellite_coverage_counts"
                  (ints_value (map zsum visibility_matrix)) st in
      let missile_coverage :=
        if (0 <? Z.of_nat (List.length row0))
        then map (fun j => zsum (map (fun row => nth j row 0) visibility_matrix))
                 (seq 0 (List.length row0))
        else [] in
      ret (dict_set "missile_coverage_counts" (ints_value missile_coverage) st)
  | [] =>
      let st := dict_set "coverage_ratio" F0 st in
      let st := dict_set "satellite_coverage_counts" (VList []) st in
      ret (dict_set "missile_coverage_counts" (VList []) st)
  end.

(** ** Environment and mission *)

Definition _extract_environment_states (base_data : dict T) : exc (dict T) :=
  let st : dict T := [] in
  tod <- enabled "environment_states" "time_of_day" ;;
  let st := if tod
            then dict_set "time_of_day"
                   (VFloat (_encode_time_of_day
                              (get "collection_time" (VStr "") base_data))) st
            else st in
  let st := dict_set "simulation_progress"
              (get "simulation_progress" F0 base_data) st in
  sun <- enabled "environment_states" "sun_position" ;;
  st <- (if sun
         then time_of_day <- as_num (get "time_of_day" F0 st) ;;
              ret (dict_set "sun_elevation"
                     (VFloat (nmul (np_sin (nmul (nmul (nofZ 2) np_pi) time_of_day))
                                   (nofZ 90))) st)
         else ret st) ;;
  shadow <- enabled "environment_states" "earth_shadow" ;;
  st <- (if shadow
         then sun_elevation <- as_num (get "sun_elevation" F0 st) ;;
              ret (dict_set "earth_shadow"
                     (if nltb sun_elevation (nofZ 0) then F1 else F0) st)
         else ret st) ;;
  ret st.

Definition count_true (l : list bool) : Z :=
  Z.of_nat (List.length (filter (fun b => b) l)).

(** [any(f(v) for v in items)]: stops at the first true item. *)
Fixpoint anyM {A} (f : A -> exc bool) (l : list A) : exc bool :=
  match l with
  | [] => ret false
  | a :: l' => b <- f a ;; if b then ret true else anyM f l'
  end.

Definition _extract_mission_states (base_data : dict T)
    (satellites missiles : value T) : exc (dict T) :=
  n_sat <- py_len satellites ;;
  n_mis <- py_len missiles ;;
  let st : dict T :=
    [ ("active_satellites", VInt n_sat);
      ("active_missiles", VInt n_mis);
      ("mission_progress", get "simulation_progress" F0 base_data) ] in
  st <- when_enabled "mission_states" "tracking_assignments"
          "active_tracking_assignments"
          (items <- py_iter (get "visibility" (VList []) base_data) ;;
           seen <- mapM (fun v => h <- py_get "has_visibility" (VBool false) v ;;
                                  ret (truthy h)) items ;;
           ret (VInt (count_true seen))) st ;;
  st <- when_enabled "mission_states" "resource_utilization" "power_utilization"
          (total_satellites <- py_len satellites ;;
           if 0 <? total_satellites then
             sats <- py_iter satellites ;;
             powers <- mapM (fun sat =>
                               payload <- py_get "payload_status" (VDict []) sat ;;
                               p <- py_get "power_consumption" (VFloat (nofZ 80))
                                      payload ;;
                               as_num p) sats ;;
             let avg_power_utilization :=
               ndiv (nsum powers) (nmul (nofZ total_satellites) (nofZ 100)) in
             ret (VFloat (pymin (nofZ 1) avg_power_utilization))
           else ret F0) st ;;
  st <- when_enabled "mission_states" "coverage_gaps" "coverage_gap_ratio"
          (ms <- py_iter missiles ;;
           covered <- mapM (fun m =>
                        vs <- py_iter (get "visibility" (VList []) base_data) ;;
                        anyM (fun v =>
                                vid <- py_get "missile_id" VNone v ;;
                                mid <- py_get "missile_id" VNone m ;;
                                if py_eq vid mid
                                then h <- py_get "has_visibility" VNone v ;;
                                     ret (truthy h)
                                else ret false) vs) ms ;;
           let uncovered_missiles := count_true (map negb covered) in
           if truthy missiles then
             n <- py_len missiles ;;
             ret (VFloat (ndiv (nofZ uncovered_missiles) (nofZ n)))
           else ret F0) st ;;
  ret st.

(** The body of the [try] of [_extract_state_vector]. *)
Definition extract_state_body (base_data : dict T) : exc (dict T) :=
  let state : dict T := [] in
  let satellites := get "satellites" (VList []) base_data in
  let missiles := get "missiles" (VList []) base_data in
  let visibility_data := get "visibility" (VList []) base_data in
  s <- _extract_satellite_states satellites ;;
  let state := dict_update state s in
  s <- _extract_missile_states missiles ;;
  let state := dict_update state s in
  n_sat <- py_len satellites ;;
  n_mis <- py_len missiles ;;
  s <- _extract_visibility_states visibility_data n_sat n_mis ;;
  let state := dict_update state s in
  s <- _extract_environment_states base_data ;;
  let state := dict_update state s in
  s <- _extract_mission_states base_data satellites missiles ;;
  let state := dict_update state s in
  ret state.

Definition _extract_state_vector (base_data : dict T) : dict T :=
  try_except (extract_state_body base_data) _get_empty_state.

End StateExtractor.


(** ** Shapes of the extracted values *)

Section Shapes.
Context {T : Type}.

(** A matrix of [rows] rows of [cols] entries, each 0 or 1. *)
Definition binary_row (cols : nat) (row : list Z) : Prop :=
  List.length row = cols /\ Forall (fun z => z = 0 \/ z = 1) row.
Definition binary_matrix (rows cols : nat) (m : matrix) : Prop :=
  List.length m = rows /\ Forall (binary_row cols) m.


(** A list with [n] entries. *)
Definition list_of_length (n : nat) (v : value T) : Prop :=
  exists l, v = VList l /\ List.length l = n.

End Shapes.

(* ================================================================== *)
(** * Reward model  (reward_calculator.py) *)

Section RewardCalculator.
Context {T : Type} {N : Number T}.
Local Open Scope exc_scope.

(** [self.reward_config] *)
Variable reward_config : dict T.

(** [a / b]: ZeroDivisionError on a zero divisor. *)
Definition py_truediv (a b : T) : exc T :=
  if neqb b (nofZ 0) then raise else ret (ndiv a b).

(** [x == 0] for a value [x] *)
Definition is_zero (v : value T) : bool := py_eq v (VInt 0).

Definition len_num (v : value T) : exc T :=
  n <- py_len v ;; ret (nofZ n).

(** [d.items()] / [d.values()] on a value: AttributeError unless a dict. *)
Definition py_values (v : value T) : exc (list (value T)) :=
  match v with VDict d => ret (values d) | _ => raise end.

Definition _calculate_coverage_reward (state base_data : dict T) : T :=
  try_except
    (coverage_ratio <- as_num (get "coverage_ratio" F0 state) ;;
     mission_progress <- as_num (get "mission_progress" F0 state) ;;
     let time_weight := nadd (lit 5 10) (nmul (lit 5 10) mission_progress) in
     ret (nmul coverage_ratio time_weight))
    (nofZ 0).

Definition pointing_score (sat_action : value T) : exc T :=
  payload_pointing <- py_get "payload_pointing" (VDict []) sat_action ;;
  pointing_mode <- py_get "pointing_mode" (VStr "fixed") payload_pointing ;;
  ret (if py_eq pointing_mode (VStr "tracking") then lit 9 10
       else if py_eq pointing_mode (VStr "scanning") then lit 6 10
       else lit 3 10).

Definition _calculate_accuracy_reward (state action base_data : dict T) : T :=
  try_except
    (let satellite_actions := get "satellite_actions" (VDict []) action in
     if negb (truthy satellite_actions) then ret (nofZ 0) else
     acts <- py_values satellite_actions ;;
     accuracy_scores <- mapM pointing_score acts ;;
     ret (match accuracy_scores with
          | [] => nofZ 0
          | _ => np_mean accuracy_scores
          end))
    (nofZ 0).

(** The set of missile ids with a visibility edge. *)
Definition visible_missile_ids (base_data : dict T) : exc (pyset T) :=
  items <- py_iter (get "visibility" (VList []) base_data) ;;
  foldM (fun (acc : pyset T) vis =>
           h <- py_get "has_visibility" (VBool false) vis ;;
           if truthy h then
             missile_id <- py_get "missile_id" (VStr "") vis ;;
             if truthy missile_id then set_add missile_id acc else ret acc
           else ret acc) items [].

Definition _calculate_detection_reward (state base_data : dict T) : T :=
  try_except
    (let active_missiles := get "active_missiles" (VInt 0) state in
     if is_zero active_missiles then ret (nofZ 1) else
     detected_missiles <- visible_missile_ids base_data ;;
     a <- as_num active_missiles ;;
     py_truediv (nofZ (Z.of_nat (List.length detected_missiles))) a)
    (nofZ 0).

(** [sum(power_allocation.values())] of one satellite action *)
Definition total_allocation (sat_action : value T) : exc T :=
  power_mgmt <- py_get "power_management" (VDict []) sat_action ;;
  power_allocation <- py_get "power_allocation" (VDict []) power_mgmt ;;
  vs <- py_values power_allocation ;;
  xs <- mapM as_num vs ;;
  ret (nsum xs).

Definition _calculate_power_efficiency_reward (state action base_data : dict T)
    : T :=
  try_except
    (let satellite_actions := get "satellite_actions" (VDict []) action in
     if negb (truthy satellite_actions) then ret (nofZ 1) else
     acts <- py_values satellite_actions ;;
     efficiency_scores <-
       mapM (fun sat_action =>
               t <- total_allocation sat_action ;;
               ret (if nleb t (nofZ 1)
                    then nsub (nofZ 1) (nmul t (lit 5 10))
                    else pymax (nofZ 0) (nsub (nofZ 1) (nsub t (nofZ 1)))))
            acts ;;
     ret (match efficiency_scores with
          | [] => nofZ 1
          | _ => np_mean efficiency_scores
          end))
    (nofZ 0).

Definition _calculate_communication_efficiency_reward (state action : dict T)
    : T :=
  try_except
    (let satellite_actions := get "satellite_actions" (VDict []) action in
     let mission_actions := get "mission_actions" (VDict []) action in
     let comm_complexity := nofZ 0 in
     n <- len_num satellite_actions ;;
     let comm_complexity := nadd comm_complexity (nmul n (lit 1 10)) in
     target_assignments <- py_get "target_assignments" (VList []) mission_actions ;;
     n <- len_num target_assignments ;;
     let comm_complexity := nadd comm_complexity (nmul n (lit 2 10)) in
     coordination <- py_get "coordination_commands" (VDict []) mission_actions ;;
     n <- len_num coordination ;;
     let comm_complexity := nadd comm_complexity (nmul n (lit 3 10)) in
     let max_complexity := nofZ 2 in
     ret (pymax (nofZ 0) (nsub (nofZ 1) (ndiv comm_complexity max_complexity))))
    (nofZ 0).

Definition _calculate_computational_efficiency_reward (state action : dict T)
    : T :=
  try_except
    (let satellite_actions := get "satellite_actions" (VDict []) action in
     let mission_actions := get "mission_actions" (VDict []) action in
     acts <- py_values satellite_actions ;;
     comp_complexity <-
       foldM (fun c sat_action =>
                a <- py_contains_str "attitude_control" sat_action ;;
                let c := if a then nadd c (lit 3 10) else c in
                p <- py_contains_str "payload_pointing" sat_action ;;
                ret (if p then nadd c (lit 2 10) else c))
             acts (nofZ 0) ;;
     target_assignments <- py_get "target_assignments" (VList []) mission_actions ;;
     n <- len_num target_assignments ;;
     let comp_complexity := nadd comp_complexity (nmul n (lit 1 10)) in
     resource_allocation <- py_get "resource_allocation" (VDict []) mission_actions ;;
     n <- len_num resource_allocation ;;
     let comp_complexity := nadd comp_complexity (nmul n (lit 2 10)) in
     let max_complexity := nofZ 3 in
     ret (pymax (nofZ 0) (nsub (nofZ 1) (ndiv comp_complexity max_complexity))))
    (nofZ 0).

(** [for i, x in enumerate(l)] *)
Definition enumerate {A} (l : list A) : list (nat * A) :=
  combine (seq 0 (List.length l)) l.

Definition _calculate_threat_neutralization_reward (state base_data : dict T)
    : T :=
  try_except
    (let active_missiles := get "active_missiles" (VInt 0) state in
     if is_zero active_missiles then ret (nofZ 1) else
     tracked_missiles <- visible_missile_ids base_data ;;
     a <- as_num active_missiles ;;
     neutralization_ratio <-
       py_truediv (nofZ (Z.of_nat (List.length tracked_missiles))) a ;;
     let missile_threat_levels := get "missile_threat_levels" (VList []) state in
     if truthy missile_threat_levels then
       missiles <- py_iter (get "missiles" (VList []) base_data) ;;
       sums <-
         foldM (fun (acc : T * T) im =>
                  let '(i, missile) := im in
                  n <- py_len missile_threat_levels ;;
                  threat_level <-
                    (if Z.of_nat i <? n then py_index missile_threat_levels i
                     else ret (VInt 1)) ;;
                  let weight := threat_level in
                  missile_id <- py_get "missile_id" (VStr "") missile ;;
                  is_tracked <- set_mem missile_id tracked_missiles ;;
                  w <- as_num weight ;;
                  ret (nadd (fst acc)
                            (nmul w (if is_tracked then nofZ 1 else nofZ 0)),
                       nadd (snd acc) w))
               (enumerate missiles) (nofZ 0, nofZ 0) ;;
       let '(weighted_score, total_weight) := sums in
       if ngtb total_weight (nofZ 0)
       then ret (ndiv weighted_score total_weight)
       else ret neutralization_ratio
     else ret neutralization_ratio)
    (nofZ 0).

Definition _calculate_response_time_reward (state action base_data : dict T)
    : T :=
  try_except
    (let mission_actions := get "mission_actions" (VDict []) action in
     target_assignments <- py_get "target_assignments" (VList []) mission_actions ;;
     if negb (truthy target_assignments) then ret (lit 5 10) else
     let active_missiles := get "active_missiles" (VInt 0) state in
     if is_zero active_missiles then ret (nofZ 1) else
     n <- len_num target_assignments ;;
     a <- as_num active_missiles ;;
     assignment_ratio <- py_truediv n a ;;
     ret (pymin (nofZ 1) assignment_ratio))
    (nofZ 0).

Definition _calculate_coverage_completeness_reward (state base_data : dict T)
    : T :=
  try_except
    (let visibility_matrix := get "visibility_matrix" (VList []) state in
     if negb (truthy visibility_matrix) then ret (nofZ 0) else
     let satellite_coverage := get "satellite_coverage_counts" (VList []) state in
     let missile_coverage := get "missile_coverage_counts" (VList []) state in
     let completeness_score := nofZ 0 in
     completeness_score <-
       (if truthy satellite_coverage then
          arr <- np_array satellite_coverage ;;
          let sat_coverage_std := np_std (fst arr) in
          let sat_coverage_mean := np_mean (fst arr) in
          if ngtb sat_coverage_mean (nofZ 0) then
            let sat_uniformity :=
              nsub (nofZ 1)
                   (pymin (nofZ 1) (ndiv sat_coverage_std sat_coverage_mean)) in
            ret (nadd completeness_score (nmul (lit 5 10) sat_uniformity))
          else ret completeness_score
        else ret completeness_score) ;;
     if truthy missile_coverage then
       counts <- py_iter missile_coverage ;;
       let uncovered_missiles :=
         Z.of_nat (List.length (filter is_zero counts)) in
       n <- len_num missile_coverage ;;
       q <- py_truediv (nofZ uncovered_missiles) n ;;
       let coverage_completeness := nsub (nofZ 1) q in
       ret (nadd completeness_score (nmul (lit 5 10) coverage_completeness))
     else ret completeness_score)
    (nofZ 0).

(** [if self.reward_config.get(group, {}).get(name, False): acc += w * r] *)
Definition add_if_enabled (group name : string) (w r acc : T) : exc T :=
  b <- enabled reward_config group name ;;
  ret (if b then nadd acc (nmul w r) else acc).

Definition _calculate_tracking_performance_reward
    (state action base_data : dict T) : T :=
  try_except
    (let tracking_reward := nofZ 0 in
     tracking_reward <-
       add_if_enabled "tracking_performance" "coverage_time" (lit 4 10)
         (_calculate_coverage_reward state base_data) tracking_reward ;;
     tracking_reward <-
       add_if_enabled "tracking_performance" "tracking_accuracy" (lit 3 10)
         (_calculate_accuracy_reward state action base_data) tracking_reward ;;
     tracking_reward <-
       add_if_enabled "tracking_performance" "target_detection" (lit 3 10)
         (_calculate_detection_reward state base_data) tracking_reward ;;
     ret (np_clip tracking_reward (nofZ 0) (nofZ 1)))
    (nofZ 0).

Definition _calculate_resource_efficiency_reward
    (state action base_data : dict T) : T :=
  try_except
    (let efficiency_reward := nofZ 0 in
     efficiency_reward <-
       add_if_enabled "resource_efficiency" "power_consumption" (lit 4 10)
         (_calculate_power_efficiency_reward state action base_data)
         efficiency_reward ;;
     efficiency_reward <-
       add_if_enabled "resource_efficiency" "communication_bandwidth" (lit 3 10)
         (_calculate_communication_efficiency_reward state action)
         efficiency_reward ;;
     efficiency_reward <-
       add_if_enabled "resource_efficiency" "computational_load" (lit 3 10)
         (_calculate_computational_efficiency_reward state action)
         efficiency_reward ;;
     ret (np_clip efficiency_reward (nofZ 0) (nofZ 1)))
    (nofZ 0).

Definition _calculate_mission_completion_reward
    (state action base_data : dict T) : T :=
  try_except
    (let completion_reward := nofZ 0 in
     completion_reward <-
       add_if_enabled "mission_completion" "threat_neutralization" (lit 5 10)
         (_calculate_threat_neutralization_reward state base_data)
         completion_reward ;;
     completion_reward <-
       add_if_enabled "mission_completion" "response_time" (lit 3 10)
         (_calculate_response_time_reward state action base_data)
         completion_reward ;;
     completion_reward <-
       add_if_enabled "mission_completion" "coverage_completeness" (lit 2 10)
         (_calculate_coverage_completeness_reward state base_data)
         completion_reward ;;
     ret (np_clip completion_reward (nofZ 0) (nofZ 1)))
    (nofZ 0).

Definition _calculate_false_alarm_penalty (state base_data : dict T) : T :=
  nofZ 0.

Definition _calculate_resource_waste_penalty (state action : dict T) : T :=
  try_except
    (acts <- py_values (get "satellite_actions" (VDict []) action) ;;
     foldM (fun penalty sat_action =>
              t <- total_allocation sat_action ;;
              ret (if ngtb t (nofZ 1)
                   then nadd penalty (nmul (nsub t (nofZ 1)) (lit 5 10))
                   else penalty))
           acts (nofZ 0))
    (nofZ 0).

Definition _calculate_mission_failure_penalty (state base_data : dict T) : T :=
  try_except
    (let penalty := nofZ 0 in
     coverage_gap_ratio <- as_num (get "coverage_gap_ratio" F0 state) ;;
     let penalty := nadd penalty (nmul coverage_gap_ratio (lit 3 10)) in
     let active_missiles := get "active_missiles" (VInt 0) state in
     let active_assignments := get "active_tracking_assignments" (VInt 0) state in
     a <- as_num active_missiles ;;
     ret (if ngtb a (nofZ 0) && is_zero active_assignments
          then nadd penalty (lit 5 10)
          else penalty))
    (nofZ 0).

Definition _calculate_penalty_terms (state action base_data : dict T) : T :=
  let total_penalty := nofZ 0 in
  let total_penalty :=
    nadd total_penalty (_calculate_false_alarm_penalty state base_data) in
  let total_penalty :=
    nadd total_penalty (_calculate_resource_waste_penalty state action) in
  let total_penalty :=
    nadd total_penalty (_calculate_mission_failure_penalty state base_data) in
  total_penalty.

(** [self.reward_weights] *)
Definition w_tracking_performance : T := lit 4 10.
Definition w_resource_efficiency : T := lit 3 10.
Definition w_mission_completion : T := lit 3 10.

Definition calculate_total_reward (state action base_data : dict T) : T :=
  let total_reward := nofZ 0 in
  let tracking_reward :=
    _calculate_tracking_performance_reward state action base_data in
  let total_reward :=
    nadd total_reward (nmul w_tracking_performance tracking_reward) in
  let efficiency_reward :=
    _calculate_resource_efficiency_reward state action base_data in
  let total_reward :=
    nadd total_reward (nmul w_resource_efficiency efficiency_reward) in
  let completion_reward :=
    _calculate_mission_completion_reward state action base_data in
  let total_reward :=
    nadd total_reward (nmul w_mission_completion completion_reward) in
  let penalty := _calculate_penalty_terms state action base_data in
  nsub total_reward penalty.

(** ** The breakdown *)

(** The dict [get_reward_breakdown] returns. *)
Record Breakdown : Type := {
  b_tracking_performance : T;
  b_resource_efficiency : T;
  b_mission_completion : T;
  b_penalty : T;
  b_total_reward : T
}.

Definition get_reward_breakdown (state action base_data : dict T) : Breakdown :=
  let tracking_reward :=
    _calculate_tracking_performance_reward state action base_data in
  let efficiency_reward :=
    _calculate_resource_efficiency_reward state action base_data in
  let completion_reward :=
    _calculate_mission_completion_reward state action base_data in
  let penalty := _calculate_penalty_terms state action base_data in
  let tracking := nmul w_tracking_performance tracking_reward in
  let efficiency := nmul w_resource_efficiency efficiency_reward in
  let completion := nmul w_mission_completion completion_reward in
  {| b_tracking_performance := tracking;
     b_resource_efficiency := efficiency;
     b_mission_completion := completion;
     b_penalty := penalty;
     b_total_reward :=
       nsub (nadd (nadd tracking efficiency) completion) penalty |}.

End RewardCalculator.

(* ================================================================== *)
(** * Data quality gate  (data_quality_validator.py) *)

Section Validator.
Context {T : Type} {N : Number T} {L : PyLib T}.

(** A finding: a plain string, a field named by the configuration, or an
    f-string given by its template and the values it formats. *)
Inductive msgarg : Type :=
| ANat (n : nat)
| ANum (x : T)
| AVal (v : value T)
| ATime (t : Z).

Inductive message : Type :=
| Plain (s : string)
| Field (f : value T)
| Fmt (template : string) (args : list msgarg).

Record CompletenessResult : Type := {
  is_complete : bool;
  completeness_score : T;
  missing_fields : list message;
  present_fields : list (value T);
  required_completeness : option T;
  optional_completeness : option T
}.

Record CheckResult : Type := {
  check_ok : bool;                 (* 'is_valid' / 'is_consistent' *)
  check_findings : list message
}.

Record QualityMetrics : Type := {
  qm_completeness : option CompletenessResult;
  qm_format : option CheckResult;
  qm_physics : option CheckResult;
  qm_temporal : option CheckResult;
  qm_anomaly_score : option T
}.

Record ValidationResult : Type := {
  is_valid : bool;
  validation_score : T;
  errors : list message;
  warnings : list message;
  anomalies : list message;
  quality_metrics : QualityMetrics
}.

(** The dataclass [RLHFDataPoint].  A [datetime] is the number of
    microseconds since the epoch.  [info_validation_result] is the entry
    [info['validation_result']], which the collector adds after validation;
    the other entries of [info] are in [info]. *)
Record RLHFDataPoint : Type := {
  timestamp : Z;
  state : dict T;
  action : dict T;
  reward : T;
  next_state : dict T;
  done : bool;
  info : dict T;
  info_validation_result : option ValidationResult
}.

Record HistoryRecord : Type := {
  h_timestamp : Z;
  h_reward : T;
  h_state : dict T;
  h_validation_score : T
}.

Record ValidationStats : Type := {
  total_validations : Z;
  passed_validations : Z;
  failed_validations : Z;
  anomaly_detections : Z
}.

(** The validator: its configuration sections and its mutable fields. *)
Record Validator : Type := {
  validation_rules : dict T;
  completeness_checks : dict T;
  anomaly_detection : dict T;
  validation_stats : ValidationStats;
  historical_data : list HistoryRecord
}.

Definition max_history_size : nat := 1000.

(** [self.physical_constraints] *)
Definition earth_radius : T := nofZ 6371.
Definition min_altitude : T := nofZ 200.
Definition max_altitude : T := nofZ 50000.
Definition max_orbital_velocity : T := nofZ 15.
Definition max_missile_velocity : T := nofZ 8.
Definition quaternion_norm_tolerance : T := lit 1 100.
Definition max_time_gap : T := nofZ 3600.
Definition min_time_step : T := nofZ 1.

(** [(a - b).total_seconds()] *)
Definition total_seconds (a b : Z) : T := ndiv (nofZ (a - b)) (nofZ 1000000).

(** ** Completeness *)

Fixpoint resolve_value (cur : value T) (parts : list string) : bool :=
  match parts with
  | [] => match cur with VNone => false | _ => true end
  | part :: rest =>
      if class_hasattr (kind_of cur) part
      then class_attr_path (kind_of cur) part rest
      else match cur with
           | VDict d =>
               match lookup part d with
               | Some v => resolve_value v rest
               | None => false
               end
           | _ => false
           end
  end.

(** The fields of the dataclass that hold values. *)
Definition data_point_field (dp : RLHFDataPoint) (name : string)
    : option (value T) :=
  if String.eqb name "state" then Some (VDict (state dp))
  else if String.eqb name "action" then Some (VDict (action dp))
  else if String.eqb name "reward" then Some (VFloat (reward dp))
  else if String.eqb name "next_state" then Some (VDict (next_state dp))
  else if String.eqb name "done" then Some (VBool (done dp))
  else if String.eqb name "info" then Some (VDict (info dp))
  else None.

Definition _check_field_exists (dp : RLHFDataPoint) (field_path : value T)
    : bool :=
  match field_path with
  | VStr s =>
      match split_dots s with
      | [] => false
      | part :: rest =>
          if String.eqb part "timestamp" then
            match rest with
            | [] => true
            | _ => class_attr_path KDataPoint part rest
            end
          else
            match data_point_field dp part with
            | Some v => resolve_value v rest
            | None =>
                if class_hasattr KDataPoint part
                then class_attr_path KDataPoint part rest
                else false
            end
      end
  | _ => false
  end.

Definition ratio_or_one (count : nat) (fields : value T) : exc T :=
  if truthy fields
  then (n <- py_len fields ;; ret (ndiv (nofZ (Z.of_nat count)) (nofZ n)))%exc
  else ret (nofZ 1).

Definition _check_data_completeness (v : Validator) (dp : RLHFDataPoint)
    : CompletenessResult :=
  try_except
    (let required_fields := get "required_fields" (VList []) (completeness_checks v) in
     let optional_fields := get "optional_fields" (VList []) (completeness_checks v) in
     let missing_threshold :=
       get "missing_data_threshold" (VFloat (lit 5 100)) (completeness_checks v) in
     req <- py_iter required_fields ;;
     let present := filter (_check_field_exists dp) req in
     let missing := filter (fun f => negb (_check_field_exists dp f)) req in
     opt <- py_iter optional_fields ;;
     let optional_present := List.length (filter (_check_field_exists dp) opt) in
     rc <- ratio_or_one (List.length present) required_fields ;;
     oc <- ratio_or_one optional_present optional_fields ;;
     let overall := nadd (nmul (lit 8 10) rc) (nmul (lit 2 10) oc) in
     complete <-
       (match missing with
        | [] => t <- as_num missing_threshold ;;
                ret (ngeb overall (nsub (nofZ 1) t))
        | _ => ret false
        end) ;;
     ret {| is_complete := complete;
            completeness_score := overall;
            missing_fields := map Field missing;
            present_fields := present;
            required_completeness := Some rc;
            optional_completeness := Some oc |})%exc
    {| is_complete := false;
       completeness_score := nofZ 0;
       missing_fields := [Plain "completeness_check_error"];
       present_fields := [];
       required_completeness := None;
       optional_completeness := None |}.

(** ** Format *)

(** [np.isfinite(v)] for a number [v]; numpy rejects an int outside the
    64-bit ranges. *)
Definition np_isfinite (v : value T) : exc bool :=
  match v with
  | VBool _ => ret true
  | VInt z => if (- 2 ^ 63 <=? z) && (z <? 2 ^ 64) then ret true else raise
  | VFloat x => ret (nisfinite x)
  | _ => raise
  end.

(** [all(f(x) for x in l)]: stops at the first false item. *)
Fixpoint allM {A} (f : A -> exc bool) (l : list A) : exc bool :=
  match l with
  | [] => ret true
  | a :: l' => (b <- f a ;; if b then allM f l' else ret false)%exc
  end.

Local Open Scope log_scope.

(** The position checks shared by satellites and missiles. *)
Definition check_positions_format (key type_err item_err values_err : string)
    (st : dict T) : logexc message unit :=
  match lookup key st with
  | None => lret tt
  | Some (VList positions) =>
      lforeach (fun ip =>
        let '(i, pos) := ip in
        match pos with
        | VList xs =>
            if negb (Nat.eqb (List.length xs) 3)
            then ltell (Fmt item_err [ANat i])
            else
              ok <- llift (allM (fun x => if is_number x then np_isfinite x
                                          else ret false) xs) ;;
              if ok then lret tt else ltell (Fmt values_err [ANat i])
        | _ => ltell (Fmt item_err [ANat i])
        end) (enumerate positions)
  | Some _ => ltell (Plain type_err)
  end.

Definition _validate_state_format (st : dict T) : list message :=
  lcatch
    (check_positions_format "satellite_positions"
       "invalid_satellite_positions_type" "invalid_satellite_position_{i}"
       "invalid_satellite_position_values_{i}" st ;;;
     check_positions_format "missile_positions"
       "invalid_missile_positions_type" "invalid_missile_position_{i}"
       "invalid_missile_position_values_{i}" st ;;;
     match lookup "visibility_matrix" st with
     | None => lret tt
     | Some (VList rows) =>
         lforeach (fun ir =>
           let '(i, row) := ir in
           match row with
           | VList xs =>
               if forallb is_int_or_bool xs then lret tt
               else ltell (Fmt "invalid_visibility_matrix_values_{i}" [ANat i])
           | _ => ltell (Fmt "invalid_visibility_matrix_row_{i}" [ANat i])
           end) (enumerate rows)
     | Some _ => ltell (Plain "invalid_visibility_matrix_type")
     end)
    (Plain "state_format_error: {str(e)}").

Definition _validate_action_format (act : dict T) : list message :=
  lcatch
    (match lookup "satellite_actions" act with
     | None => lret tt
     | Some (VDict sat_actions) =>
         lforeach (fun kv : string * value T =>
           match snd kv with
           | VDict _ => lret tt
           | _ => ltell (Fmt "invalid_satellite_action_{sat_id}" [AVal (VStr (fst kv))])
           end) sat_actions
     | Some _ => ltell (Plain "invalid_satellite_actions_type")
     end ;;;
     match lookup "mission_actions" act with
     | None => lret tt
     | Some (VDict mission_actions) =>
         match lookup "target_assignments" mission_actions with
         | None => lret tt
         | Some (VList assignments) =>
             lforeach (fun ia =>
               let '(i, assignment) := ia in
               match assignment with
               | VDict a =>
                   if forallb (fun k => has_key k a) ["satellite_id"; "target_id"]
                   then lret tt
                   else ltell (Fmt "incomplete_target_assignment_{i}" [ANat i])
               | _ => ltell (Fmt "invalid_target_assignment_{i}" [ANat i])
               end) (enumerate assignments)
         | Some _ => ltell (Plain "invalid_target_assignments_type")
         end
     | Some _ => ltell (Plain "invalid_mission_actions_type")
     end)
    (Plain "action_format_error: {str(e)}").

Definition _validate_data_format (dp : RLHFDataPoint) : CheckResult :=
  let format_errors :=
    _validate_state_format (state dp) ++ _validate_action_format (action dp)
    ++ (if nisfinite (reward dp) then [] else [Plain "invalid_reward_value"]) in
  {| check_ok := match format_errors with [] => true | _ => false end;
     check_findings := format_errors |}.

(** ** Physical constraints *)

(** [np.sqrt(v[0]*v[0] + v[1]*v[1] + ...)] over the first [n] items *)
Definition norm_of_first (n : nat) (v : value T) : exc T :=
  (xs <- mapM (fun i => x <- py_index v i ;; as_num x) (seq 0 n) ;;
   ret (nsqrt (match map (fun x => nmul x x) xs with
               | [] => nofZ 0
               | s :: rest => fold_left nadd rest s
               end)))%exc.

(** [for i, item in enumerate(state[key]): if len(item) >= n: body] *)
Definition for_each_vector (key : string) (n : Z) (st : dict T)
    (body : nat -> value T -> logexc message unit) : logexc message unit :=
  match lookup key st with
  | None => lret tt
  | Some vs =>
      items <- llift (py_iter vs) ;;
      lforeach (fun iv =>
        let '(i, item) := iv in
        len <- llift (py_len item) ;;
        if n <=? len then body i item else lret tt) (enumerate items)
  end.

Definition _check_position_bounds (st : dict T) : list message :=
  lcatch
    (for_each_vector "satellite_positions" 3 st (fun i pos =>
       distance <- llift (norm_of_first 3 pos) ;;
       let altitude := nsub distance earth_radius in
       if nltb altitude min_altitude
       then ltell (Fmt "satellite_{i}_altitude_too_low: {altitude:.1f}km"
                       [ANat i; ANum altitude])
       else if ngtb altitude max_altitude
       then ltell (Fmt "satellite_{i}_altitude_too_high: {altitude:.1f}km"
                       [ANat i; ANum altitude])
       else lret tt) ;;;
     for_each_vector "missile_positions" 3 st (fun i pos =>
       distance <- llift (norm_of_first 3 pos) ;;
       let altitude := nsub distance earth_radius in
       if nltb altitude (nofZ (-1))
       then ltell (Fmt "missile_{i}_underground: {altitude:.1f}km"
                       [ANat i; ANum altitude])
       else if ngtb altitude max_altitude
       then ltell (Fmt "missile_{i}_altitude_too_high: {altitude:.1f}km"
                       [ANat i; ANum altitude])
       else lret tt))
    (Plain "position_bounds_error: {str(e)}").

Definition _check_velocity_limits (st : dict T) : list message :=
  lcatch
    (for_each_vector "satellite_velocities" 3 st (fun i vel =>
       speed <- llift (norm_of_first 3 vel) ;;
       if ngtb speed max_orbital_velocity
       then ltell (Fmt "satellite_{i}_speed_too_high: {speed:.2f}km/s"
                       [ANat i; ANum speed])
       else lret tt) ;;;
     for_each_vector "missile_velocities" 3 st (fun i vel =>
       speed <- llift (norm_of_first 3 vel) ;;
       if ngtb speed max_missile_velocity
       then ltell (Fmt "missile_{i}_speed_too_high: {speed:.2f}km/s"
                       [ANat i; ANum speed])
       else lret tt))
    (Plain "velocity_limits_error: {str(e)}").

Definition _check_attitude_constraints (st : dict T) : list message :=
  lcatch
    (for_each_vector "satellite_attitudes" 4 st (fun i att =>
       norm <- llift (norm_of_first 4 att) ;;
       if ngtb (nabs (nsub norm (nofZ 1))) quaternion_norm_tolerance
       then ltell (Fmt "satellite_{i}_quaternion_norm_invalid: {norm:.3f}"
                       [ANat i; ANum norm])
       else lret tt))
    (Plain "attitude_constraints_error: {str(e)}").

Definition rule_on (cfg : dict T) (name : string) : bool :=
  truthy (get name (VBool false) cfg).

Definition _check_physical_constraints (v : Validator) (dp : RLHFDataPoint)
    : CheckResult :=
  let st := state dp in
  let constraint_violations :=
    (if rule_on (validation_rules v) "position_bounds"
     then _check_position_bounds st else [])
    ++ (if rule_on (validation_rules v) "velocity_limits"
        then _check_velocity_limits st else [])
    ++ (if rule_on (validation_rules v) "attitude_constraints"
        then _check_attitude_constraints st else []) in
  {| check_ok := match constraint_violations with [] => true | _ => false end;
     check_findings := constraint_violations |}.

(** ** Temporal consistency *)

Definition _check_temporal_consistency (v : Validator) (dp : RLHFDataPoint)
    : CheckResult :=
  let current_time := timestamp dp in
  let inconsistencies :=
    match last (map Some (historical_data v)) None with
    | Some rec =>
        let time_gap := total_seconds current_time (h_timestamp rec) in
        if ngtb time_gap max_time_gap
        then [Fmt "time_gap_too_large: {time_gap:.1f}s" [ANum time_gap]]
        else if nltb time_gap min_time_step
        then [Fmt "time_step_too_small: {time_gap:.1f}s" [ANum time_gap]]
        else []
    | None => []
    end in
  {| check_ok := match inconsistencies with [] => true | _ => false end;
     check_findings := inconsistencies |}.

(** ** Anomaly detection *)

Definition _detect_statistical_outliers (v : Validator) (dp : RLHFDataPoint)
    : list message :=
  let historical_rewards := map h_reward (historical_data v) in
  if (List.length historical_rewards <? 5)%nat then [] else
  let mean_reward := np_mean historical_rewards in
  let std_reward := np_std historical_rewards in
  if ngtb (nabs (nsub (reward dp) mean_reward)) (nmul (nofZ 3) std_reward)
  then [Fmt "reward_outlier: {data_point.reward:.3f} vs mean {mean_reward:.3f}"
            [ANum (reward dp); ANum mean_reward]]
  else [].

Definition max_jump_distance : T := nmul (nofZ 15) (nofZ 300).

Definition _detect_physical_anomalies (v : Validator) (dp : RLHFDataPoint)
    : list message :=
  lcatch
    (match lookup "satellite_positions" (state dp),
           last (map Some (historical_data v)) None with
     | Some current_positions, Some rec =>
         let last_positions := get "satellite_positions" (VList []) (h_state rec) in
         cur <- llift (py_iter current_positions) ;;
         prev <- llift (py_iter last_positions) ;;
         lforeach (fun ip =>
           let '(i, (curr_pos, last_pos)) := ip in
           lc <- llift (py_len curr_pos) ;;
           far <- (if 3 <=? lc
                   then (ll <- llift (py_len last_pos) ;; lret (3 <=? ll))
                   else lret false) ;;
           if far : bool then
             cs <- llift (py_iter curr_pos) ;;
             ls <- llift (py_iter last_pos) ;;
             sq <- llift (mapM (fun cl : value T * value T =>
                                  (c <- as_num (fst cl) ;;
                                   l <- as_num (snd cl) ;;
                                   ret (nmul (nsub c l) (nsub c l)))%exc)
                               (combine cs ls)) ;;
             let distance := nsqrt (nsum sq) in
             if ngtb distance max_jump_distance
             then ltell (Fmt "satellite_{i}_position_jump: {distance:.1f}km"
                             [ANat i; ANum distance])
             else lret tt
           else lret tt) (enumerate (combine cur prev))
     | _, _ => lret tt
     end)
    (Plain "physical_anomaly_error: {str(e)}").

Definition _detect_temporal_anomalies (v : Validator) (dp : RLHFDataPoint)
    : list message :=
  match last (map Some (historical_data v)) None with
  | Some rec =>
      if timestamp dp <? h_timestamp rec
      then [Fmt "time_regression: {current_time} < {last_time}"
                [ATime (timestamp dp); ATime (h_timestamp rec)]]
      else []
  | None => []
  end.

Definition _detect_anomalies (v : Validator) (dp : RLHFDataPoint)
    : list message * T :=
  if (List.length (historical_data v) <? 10)%nat then ([], nofZ 0) else
  let found :=
    (if rule_on (anomaly_detection v) "statistical_outliers"
     then _detect_statistical_outliers v dp else [])
    ++ (if rule_on (anomaly_detection v) "physical_constraints"
        then _detect_physical_anomalies v dp else [])
    ++ (if rule_on (anomaly_detection v) "temporal_anomalies"
        then _detect_temporal_anomalies v dp else []) in
  let anomaly_score := ndiv (nofZ (Z.of_nat (List.length found))) (nofZ 10) in
  (found, pymin (nofZ 1) anomaly_score).

(** ** Score, history and the gate *)

Definition count (l : list message) : T := nofZ (Z.of_nat (List.length l)).

Definition _calculate_quality_score (r : ValidationResult) : T :=
  let score := nofZ 1 in
  let error_count := count (errors r) in
  let warning_count := count (warnings r) in
  let anomaly_count := count (anomalies r) in
  let score := nsub score (nmul error_count (lit 3 10)) in
  let score := nsub score (nmul warning_count (lit 1 10)) in
  let score := nsub score (nmul anomaly_count (lit 5 100)) in
  let score :=
    match qm_completeness (quality_metrics r) with
    | Some c => nmul score (completeness_score c)
    | None => score
    end in
  pymax (nofZ 0) (pymin (nofZ 1) score).

(** [l[-n:]] *)
Definition last_n {A} (n : nat) (l : list A) : list A :=
  skipn (List.length l - n) l.

Definition _update_historical_data (v : Validator) (dp : RLHFDataPoint)
    (r : ValidationResult) : Validator :=
  let record := {| h_timestamp := timestamp dp;
                   h_reward := reward dp;
                   h_state := state dp;
                   h_validation_score := validation_score r |} in
  let h := historical_data v ++ [record] in
  let h := if (max_history_size <? List.length h)%nat
           then last_n max_history_size h else h in
  {| validation_rules := validation_rules v;
     completeness_checks := completeness_checks v;
     anomaly_detection := anomaly_detection v;
     validation_stats := validation_stats v;
     historical_data := h |}.

Definition with_stats (v : Validator) (s : ValidationStats) : Validator :=
  {| validation_rules := validation_rules v;
     completeness_checks := completeness_checks v;
     anomaly_detection := anomaly_detection v;
     validation_stats := s;
     historical_data := historical_data v |}.

Definition validate_rlhf_data_point (v : Validator) (dp : RLHFDataPoint)
    : Validator * ValidationResult :=
  let s := validation_stats v in
  let total := total_validations s + 1 in
  (* 1 *)
  let completeness_result := _check_data_completeness v dp in
  let valid := is_complete completeness_result in
  let errs := if is_complete completeness_result then []
              else missing_fields completeness_result in
  (* 2 *)
  let format_result := _validate_data_format dp in
  let valid := valid && check_ok format_result in
  let errs := errs ++ (if check_ok format_result then []
                       else check_findings format_result) in
  (* 3 *)
  let physics_result := _check_physical_constraints v dp in
  let warns := if check_ok physics_result then []
               else check_findings physics_result in
  (* 4 *)
  let temporal_result := _check_temporal_consistency v dp in
  let warns := warns ++ (if check_ok temporal_result then []
                         else check_findings temporal_result) in
  (* 5 *)
  let detect := rule_on (anomaly_detection v) "statistical_outliers" in
  let anomaly_result := _detect_anomalies v dp in
  let anoms := if detect then fst anomaly_result else [] in
  let detections :=
    if detect then match fst anomaly_result with
                   | [] => anomaly_detections s
                   | _ => anomaly_detections s + 1
                   end
    else anomaly_detections s in
  let metrics :=
    {| qm_completeness := Some completeness_result;
       qm_format := Some format_result;
       qm_physics := Some physics_result;
       qm_temporal := Some temporal_result;
       qm_anomaly_score := if detect then Some (snd anomaly_result) else None |} in
  let result0 :=
    {| is_valid := valid; validation_score := nofZ 1;
       errors := errs; warnings := warns; anomalies := anoms;
       quality_metrics := metrics |} in
  (* 6 *)
  let result :=
    {| is_valid := valid;
       validation_score := _calculate_quality_score result0;
       errors := errs; warnings := warns; anomalies := anoms;
       quality_metrics := metrics |} in
  let stats :=
    {| total_validations := total;
       passed_validations := if valid then passed_validations s + 1
                             else passed_validations s;
       failed_validations := if valid then failed_validations s
                             else failed_validations s + 1;
       anomaly_detections := detections |} in
  (_update_historical_data (with_stats v stats) dp result, result).

End Validator.

(** ** The score in the words of the specification

    The score starts at 1.0, is reduced by 0.3 per error, 0.1 per warning
    and 0.05 per anomaly, and is then multiplied by the completeness score
    ([penalised_score]); the result is floored at 0
    ([spec_validation_score]). *)
Section SpecScore.
Context {T : Type} {N : Number T}.

Definition penalised_score (n_errors n_warnings n_anomalies : nat)
    (completeness : T) : T :=
  let score := nofZ 1 in
  let score := nsub score (nmul (nofZ (Z.of_nat n_errors)) (lit 3 10)) in
  let score := nsub score (nmul (nofZ (Z.of_nat n_warnings)) (lit 1 10)) in
  let score := nsub score (nmul (nofZ (Z.of_nat n_anomalies)) (lit 5 100)) in
  nmul score completeness.

Definition spec_validation_score (n_errors n_warnings n_anomalies : nat)
    (completeness : T) : T :=
  pymax (nofZ 0) (penalised_score n_errors n_warnings n_anomalies completeness).

End SpecScore.

(* ================================================================== *)
(** * Episode manager  (rlhf_data_collector.py) *)

Section Collector.
Context {T : Type} {N : Number T} {L : PyLib T}.
Local Open Scope exc_scope.

Record Episode : Type := {
  episode_id : string;
  scenario_type : string;
  start_time : Z;
  end_time : option Z;
  data_points : list (@RLHFDataPoint T);
  total_reward : T;
  success : bool;
  metadata : dict T
}.

Record CollectionStats : Type := {
  total_data_points : Z;
  valid_data_points : Z;
  invalid_data_points : Z;
  average_reward : T;
  average_quality_score : T
}.

(** The mutable fields of [RLHFDataCollector] and the configuration it
    reads. *)
Record Collector : Type := {
  state_space_config : dict T;
  reward_config : dict T;
  has_action_executor : bool;
  data_quality_validator : @Validator T;
  current_episode : option Episode;
  episodes : list Episode;
  state_history : list (dict T);
  action_history : list (dict T);
  reward_history : list T;
  validation_history : list (@ValidationResult T);
  collection_stats : CollectionStats
}.

(** What the collaborators answer during one call: the time manager, the
    base data collector, the action executor and the wall clock.  [None]
    in an [exc] is a call that raised. *)
Record World : Type := {
  current_simulation_time : Z;
  collect_data_at_time : exc (option (dict T));
  get_simulation_progress : exc (value T);
  is_simulation_finished : exc bool;
  is_collection_finished : exc bool;
  execute_action : dict T -> exc (value T);
  get_constellation_info : exc (value T);
  now_strftime : string
}.

Definition set_episode (c : Collector) (e : option Episode) : Collector :=
  {| state_space_config := state_space_config c;
     reward_config := reward_config c;
     has_action_executor := has_action_executor c;
     data_quality_validator := data_quality_validator c;
     current_episode := e;
     episodes := episodes c;
     state_history := state_history c;
     action_history := action_history c;
     reward_history := reward_history c;
     validation_history := validation_history c;
     collection_stats := collection_stats c |}.

Definition set_stats (c : Collector) (s : CollectionStats) : Collector :=
  {| state_space_config := state_space_config c;
     reward_config := reward_config c;
     has_action_executor := has_action_executor c;
     data_quality_validator := data_quality_validator c;
     current_episode := current_episode c;
     episodes := episodes c;
     state_history := state_history c;
     action_history := action_history c;
     reward_history := reward_history c;
     validation_history := validation_history c;
     collection_stats := s |}.

(** [start_episode]: an exception of the constellation manager reaches the
    caller ([None]) and leaves the collector as it was. *)
Definition start_episode (c : Collector) (w : World)
    (scenario_type : string) (scenario_params : dict T)
    : exc (Collector * string) :=
  let episode_id :=
    ("episode_" ++ now_strftime w ++ "_" ++ scenario_type)%string in
  constellation_info <- get_constellation_info w ;;
  let episode :=
    {| episode_id := episode_id;
       scenario_type := scenario_type;
       start_time := current_simulation_time w;
       end_time := None;
       data_points := [];
       total_reward := nofZ 0;
       success := false;
       metadata := [ ("scenario_params", VDict scenario_params);
                     ("constellation_info", constellation_info) ] |} in
  ret (set_episode c (Some episode), episode_id).

Definition _predict_next_state (current_state action : dict T)
    : exc (dict T) :=
  let next_state := current_state in
  match lookup "mission_progress" next_state with
  | Some p =>
      x <- as_num p ;;
      ret (dict_set "mission_progress" (VFloat (nadd x (lit 1 100))) next_state)
  | None => ret next_state
  end.

Definition _is_episode_done (w : World) (state base_data : dict T)
    : exc bool :=
  f <- is_simulation_finished w ;;
  if f then ret true else
  g <- is_collection_finished w ;;
  if g then ret true else
  let missiles := get "missiles" (VList []) base_data in
  if negb (truthy missiles) then ret true else ret false.

Definition _update_average_statistics (c : Collector) : Collector :=
  let s := collection_stats c in
  let avg_reward :=
    match reward_history c with
    | [] => average_reward s
    | rs => np_mean rs
    end in
  let avg_quality :=
    match map (@validation_score T) (validation_history c) with
    | [] => average_quality_score s
    | qs => np_mean qs
    end in
  set_stats c {| total_data_points := total_data_points s;
                 valid_data_points := valid_data_points s;
                 invalid_data_points := invalid_data_points s;
                 average_reward := avg_reward;
                 average_quality_score := avg_quality |}.

Definition append_point (e : Episode) (dp : RLHFDataPoint) : Episode :=
  {| episode_id := episode_id e;
     scenario_type := scenario_type e;
     start_time := start_time e;
     end_time := end_time e;
     data_points := data_points e ++ [dp];
     total_reward := nadd (total_reward e) (reward dp);
     success := success e;
     metadata := metadata e |}.

(** What [collect_rlhf_data_point] does up to and including the
    construction of the data point: the early return on a failed snapshot
    is [Some None], an exception is [None]. *)
Definition build_data_point (c : Collector) (w : World) (action : dict T)
    (execute : bool) : exc (option (@RLHFDataPoint T)) :=
  let current_time := current_simulation_time w in
  base <- collect_data_at_time w ;;
  match base with
  | None | Some [] => ret None
  | Some base_data =>
      let state := _extract_state_vector (state_space_config c) base_data in
      action_result <-
        (if execute && has_action_executor c
         then r <- execute_action w action ;;
              _ <- py_get "success" (VBool false) r ;;
              ret r
         else ret VNone) ;;
      let reward := calculate_total_reward (reward_config c) state action base_data in
      next_state <- _predict_next_state state action ;;
      done <- _is_episode_done w state base_data ;;
      progress <- get_simulation_progress w ;;
      ret (Some {| timestamp := current_time;
                   state := state;
                   action := action;
                   reward := reward;
                   next_state := next_state;
                   done := done;
                   info := [ ("base_data", VDict base_data);
                             ("simulation_progress", progress);
                             ("action_result", action_result) ];
                   info_validation_result := None |})
  end.

Definition with_validation (dp : @RLHFDataPoint T) (r : ValidationResult)
    : RLHFDataPoint :=
  {| timestamp := timestamp dp; state := state dp; action := action dp;
     reward := reward dp; next_state := next_state dp; done := done dp;
     info := info dp; info_validation_result := Some r |}.

Definition count_invalid (c : Collector) : Collector :=
  let s := collection_stats c in
  set_stats c {| total_data_points := total_data_points s;
                 valid_data_points := valid_data_points s;
                 invalid_data_points := invalid_data_points s + 1;
                 average_reward := average_reward s;
                 average_quality_score := average_quality_score s |}.

Definition collect_rlhf_data_point (c : Collector) (w : World)
    (action : dict T) (execute : bool)
    : Collector * option (@RLHFDataPoint T) :=
  match build_data_point c w action execute with
  | None => (count_invalid c, None)
  | Some None => (c, None)
  | Some (Some dp0) =>
      let '(validator, validation_result) :=
        validate_rlhf_data_point (data_quality_validator c) dp0 in
      let data_point := with_validation dp0 validation_result in
      let s := collection_stats c in
      let stats :=
        {| total_data_points := total_data_points s + 1;
           valid_data_points :=
             if is_valid validation_result then valid_data_points s + 1
             else valid_data_points s;
           invalid_data_points :=
             if is_valid validation_result then invalid_data_points s
             else invalid_data_points s + 1;
           average_reward := average_reward s;
           average_quality_score := average_quality_score s |} in
      let c' :=
        {| state_space_config := state_space_config c;
           reward_config := reward_config c;
           has_action_executor := has_action_executor c;
           data_quality_validator := validator;
           current_episode :=
             match current_episode c with
             | Some e => Some (append_point e data_point)
             | None => None
             end;
           episodes := episodes c;
           state_history := state_history c ++ [state data_point];
           action_history := action_history c ++ [action];
           reward_history := reward_history c ++ [reward data_point];
           validation_history := validation_history c ++ [validation_result];
           collection_stats := stats |} in
      (_update_average_statistics c', Some data_point)
  end.

Definition end_episode (c : Collector) (w : World) (success : bool)
    : Collector * option Episode :=
  match current_episode c with
  | None => (c, None)
  | Some e =>
      let completed :=
        {| episode_id := episode_id e;
           scenario_type := scenario_type e;
           start_time := start_time e;
           end_time := Some (current_simulation_time w);
           data_points := data_points e;
           total_reward := total_reward e;
           success := success;
           metadata := metadata e |} in
      ({| state_space_config := state_space_config c;
          reward_config := reward_config c;
          has_action_executor := has_action_executor c;
          data_quality_validator := data_quality_validator c;
          current_episode := None;
          episodes := episodes c ++ [completed];
          state_history := state_history c;
          action_history := action_history c;
          reward_history := reward_history c;
          validation_history := validation_history c;
          collection_stats := collection_stats c |},
       Some completed)
  end.

(** One call of [collect_rlhf_data_point] as the driving loop makes it. *)
Record Call : Type := {
  call_world : World;
  call_action : dict T;
  call_execute : bool
}.

(** A sequence of calls; the results are in call order. *)
Fixpoint collect_all (c : Collector) (calls : list Call)
    : Collector * list (option (@RLHFDataPoint T)) :=
  match calls with
  | [] => (c, [])
  | k :: rest =>
      let '(c1, r) :=
        collect_rlhf_data_point c (call_world k) (call_action k) (call_execute k) in
      let '(c2, rs) := collect_all c1 rest in
      (c2, r :: rs)
  end.

(** The data points among the results. *)
Fixpoint collected {A} (rs : list (option A)) : list A :=
  match rs with
  | [] => []
  | Some a :: rs' => a :: collected rs'
  | None :: rs' => collected rs'
  end.

(** ** Statistics *)

(** The entry ["basic_statistics"] of the dict [get_statistics] returns
    when the statistics of the collaborators are computed without an
    exception (otherwise the function returns a short dict without these
    entries).  The collaborators' statistics and the wall-clock timestamp
    are left out. *)
Record BasicStatistics : Type := {
  bs_total_episodes : Z;
  bs_total_data_points : Z;
  bs_valid_data_points : Z;
  bs_invalid_data_points : Z;
  bs_data_quality_rate : T;
  bs_average_reward : T;
  bs_average_quality_score : T;
  bs_successful_episodes : Z;
  bs_episode_success_rate : T;
  bs_episode_data_points : Z;
  bs_average_episode_reward : T;
  bs_average_episode_length : T
}.

Definition get_statistics (c : Collector) : BasicStatistics :=
  let s := collection_stats c in
  let total_episodes := Z.of_nat (List.length (episodes c)) in
  let episode_data_points :=
    zsum (map (fun ep => Z.of_nat (List.length (data_points ep))) (episodes c)) in
  let successful_episodes :=
    zsum (map (fun ep => if success ep then 1 else 0) (episodes c)) in
  let episode_rewards := map total_reward (episodes c) in
  let some := match episodes c with [] => false | _ => true end in
  {| bs_total_episodes := total_episodes;
     bs_total_data_points := total_data_points s;
     bs_valid_data_points := valid_data_points s;
     bs_invalid_data_points := invalid_data_points s;
     bs_data_quality_rate :=
       ndiv (nofZ (valid_data_points s))
            (nofZ (Z.max 1 (total_data_points s)));
     bs_average_reward := average_reward s;
     bs_average_quality_score := average_quality_score s;
     bs_successful_episodes := if some then successful_episodes else 0;
     bs_episode_success_rate :=
       if some then ndiv (nofZ successful_episodes) (nofZ total_episodes)
       else nofZ 0;
     bs_episode_data_points := if some then episode_data_points else 0;
     bs_average_episode_reward :=
       if some then np_mean episode_rewards else nofZ 0;
     bs_average_episode_length :=
       if some then ndiv (nofZ episode_data_points) (nofZ total_episodes)
       else nofZ 0 |}.

(** The verdict [info['validation_result']['is_valid']] a returned data
    point carries. *)
Definition point_is_valid (dp : @RLHFDataPoint T) : bool :=
  match info_validation_result dp with
  | Some r => is_valid r
  | None => false
  end.

End Collector.

(* ================================================================== *)
(** * Scenario generator  (scenario_generator.py) *)

Module ScenarioGenerator.
Section Generator.

(** The parts of a scenario that [_generate_single_scenario] draws from the
    random generators or computes from them (missile count, constellation,
    environment, time constraints), and the draw made for the scenario
    with a given number, type and difficulty. *)
Variable Sampled : Type.
Variable draw : Z -> string -> string -> Sampled.

Record ScenarioConfig : Type := {
  scenario_id : string;
  scenario_type : string;
  difficulty_level : string;
  mission_objectives : list string;
  sampled : Sampled
}.

Definition _generate_mission_objectives (scenario_type difficulty_level : string)
    : list string :=
  let base_objectives :=
    ["track_all_threats"; "maintain_coverage"; "minimize_resource_usage"] in
  let base_objectives :=
    if String.eqb scenario_type "single_threat"
    then base_objectives ++ ["achieve_continuous_tracking"]
    else if String.eqb scenario_type "multiple_threats"
    then base_objectives ++ ["prioritize_threats"; "coordinate_satellites"]
    else if String.eqb scenario_type "saturation_attack"
    then base_objectives ++ ["rapid_threat_assessment"; "emergency_response"]
    else base_objectives in
  if String.eqb difficulty_level "hard" || String.eqb difficulty_level "extreme"
  then base_objectives ++ ["minimize_false_alarms";
                           "maintain_communication_links";
                           "handle_satellite_failures"]
  else base_objectives.

(** [f"{n:04d}"] for [n >= 0] *)
Definition format_04d (n : Z) : string :=
  let s := NilZero.string_of_uint (N.to_uint (Z.to_N n)) in
  (string_of_list_ascii (repeat "0"%char (4 - String.length s)) ++ s)%string.

Definition _generate_single_scenario (number : Z) (prefix : string)
    (scenario_type difficulty_level : string) : ScenarioConfig :=
  {| scenario_id := (prefix ++ format_04d number)%string;
     scenario_type := scenario_type;
     difficulty_level := difficulty_level;
     mission_objectives :=
       _generate_mission_objectives scenario_type difficulty_level;
     sampled := draw number scenario_type difficulty_level |}.

Definition difficulty_levels : list string :=
  ["easy"; "medium"; "hard"; "extreme"].
Definition scenario_types : list string :=
  ["single_threat"; "multiple_threats"; "saturation_attack"; "evasive_targets"].

(** The loop state: the scenarios so far and the next [scenario_id]. *)
Definition gen_state : Type := (list ScenarioConfig * Z)%type.

Definition full (num_scenarios : Z) (st : gen_state) : bool :=
  num_scenarios <=? Z.of_nat (List.length (fst st)).

(** [for _ in range(k)] with its [break] *)
Fixpoint repeat_loop (k : nat) (num_scenarios : Z)
    (scenario_type difficulty : string) (st : gen_state) : gen_state :=
  match k with
  | O => st
  | S k' =>
      if full num_scenarios st then st
      else
        let scenario :=
          _generate_single_scenario (snd st) "eval_scenario_"
            scenario_type difficulty in
        repeat_loop k' num_scenarios scenario_type difficulty
          (fst st ++ [scenario], snd st + 1)
  end.

(** [for scenario_type in scenario_types] with its [break] *)
Fixpoint types_loop (types : list string) (per : nat) (num_scenarios : Z)
    (difficulty : string) (st : gen_state) : gen_state :=
  match types with
  | [] => st
  | scenario_type :: rest =>
      let st' := repeat_loop per num_scenarios scenario_type difficulty st in
      if full num_scenarios st' then st'
      else types_loop rest per num_scenarios difficulty st'
  end.

(** [for difficulty in difficulty_levels] with its [break] *)
Fixpoint difficulties_loop (levels : list string) (per : nat)
    (num_scenarios : Z) (st : gen_state) : gen_state :=
  match levels with
  | [] => st
  | difficulty :: rest =>
      let st' := types_loop scenario_types per num_scenarios difficulty st in
      if full num_scenarios st' then st'
      else difficulties_loop rest per num_scenarios st'
  end.

Definition scenarios_per_combination (num_scenarios : Z) : Z :=
  Z.max 1 (num_scenarios /
           (Z.of_nat (List.length difficulty_levels)
            * Z.of_nat (List.length scenario_types))).

Definition generate_evaluation_scenarios (num_scenarios : Z)
    : list ScenarioConfig :=
  fst (difficulties_loop difficulty_levels
         (Z.to_nat (scenarios_per_combination num_scenarios))
         num_scenarios ([], 1)).

(** A scenario of the given difficulty and type is in the list. *)
Definition covers (l : list ScenarioConfig) (difficulty type : string) : bool :=
  existsb (fun s => String.eqb (difficulty_level s) difficulty
                    && String.eqb (scenario_type s) type) l.


(** The difficulty and type of a scenario. *)
(** The order the three nested loops visit the combinations in, each
    [per] times. *)
Definition plan (per : nat) : list (string * string) :=
  flat_map (fun d => flat_map (fun t => repeat (d, t) per) scenario_types)
           difficulty_levels.


Definition kind_of_scenario (s : ScenarioConfig) : string * string :=
  (difficulty_level s, scenario_type s).

Definition kinds (st : gen_state) : list (string * string) :=
  map kind_of_scenario (fst st).

(** How many scenarios may still be added. *)
Definition room (n : Z) (st : gen_state) : nat :=
  (Z.to_nat n - List.length (fst st))%nat.


(** The scenarios so far are numbered 1, 2, ... in order, the next number
    is one more than their count, and each carries the objectives of its
    type and difficulty. *)
Definition numbered (st : gen_state) : Prop :=
  snd st = 1 + Z.of_nat (List.length (fst st))
  /\ map scenario_id (fst st)
     = map (fun i => ("eval_scenario_" ++ format_04d (Z.of_nat i))%string)
           (seq 1 (List.length (fst st)))
  /\ Forall (fun s => mission_objectives s
                      = _generate_mission_objectives (scenario_type s)
                          (difficulty_level s)) (fst st).

End Generator.

Arguments kind_of_scenario {Sampled} s.
Arguments kinds {Sampled} st.
Arguments room {Sampled} n st.

Arguments numbered {Sampled} st.

End ScenarioGenerator.

(* ================================================================== *)
(** * Expert policy  (expert_policy.py) *)

Module ExpertPolicy.
Section Policy.
Context {T : Type} {N : Number T}.
Local Open Scope exc_scope.

Definition _get_missile_priority (missile : value T) (state : dict T) : exc Z :=
  let missile_threat_levels := get "missile_threat_levels" (VList []) state in
  let missiles := get "missile_positions" (VList []) state in
  missile_id <- py_get "missile_id" (VStr "") missile ;;
  ret 2.

(** [sorted(missiles, key=threat_score, reverse=True)]: the keys are
    computed first, the sort is stable. *)
Definition _sort_missiles_by_threat (missiles : value T) (state : dict T)
    : exc (list (value T)) :=
  items <- py_iter missiles ;;
  scores <- mapM (fun missile => _get_missile_priority missile state) items ;;
  ret (map snd (sort_by (fun a b : Z * value T => fst b <? fst a)
                        (combine scores items))).

(** The threat level a missile record carries, encoded as the state
    extractor encodes it. *)
Definition threat_level_of (missile : value T) : exc (value T) :=
  l <- py_get "threat_level" (VStr "unknown") missile ;;
  _encode_threat_level l.

(** ** Confidence *)

Definition _calculate_action_confidence (action state base_data : dict T) : T :=
  try_except
    (let confidence := nofZ 1 in
     assignments <-
       py_get "target_assignments" (VList [])
         (get "mission_actions" (VDict []) action) ;;
     total_missiles <- py_len (get "missiles" (VList []) base_data) ;;
     confidence <-
       (if 0 <? total_missiles then
          n <- py_len assignments ;;
          let coverage_ratio := ndiv (nofZ n) (nofZ total_missiles) in
          ret (nmul confidence
                    (pymin (nofZ 1) (nadd coverage_ratio (lit 5 10))))
        else ret confidence) ;;
     let satellite_actions := get "satellite_actions" (VDict []) action in
     confidence <-
       (if truthy satellite_actions then
          acts <- py_values satellite_actions ;;
          power_allocations <- mapM total_allocation acts ;;
          match power_allocations with
          | [] => ret confidence
          | _ =>
              let avg_power := np_mean power_allocations in
              if nleb (lit 5 10) avg_power && nleb avg_power (nofZ 1)
              then ret (nmul confidence (nofZ 1))
              else ret (nmul confidence (lit 8 10))
          end
        else ret confidence) ;;
     ret (pymin (nofZ 1) confidence))
    (lit 5 10).

(** ** Visibility map and minimal coverage *)

(** A dict whose keys are ids taken from the snapshot (any hashable
    value), in insertion order. *)
Definition iddict (A : Type) : Type := list (value T * A).

(** [d.get(k)]: TypeError when [k] is unhashable. *)
Fixpoint id_find {A} (k : value T) (d : iddict A) : option A :=
  match d with
  | [] => None
  | (k', a) :: d' => if py_eq k k' then Some a else id_find k d'
  end.

Definition id_get {A} (k : value T) (default : A) (d : iddict A) : exc A :=
  if hashable k
  then ret (match id_find k d with Some a => a | None => default end)
  else raise.

(** [d[k] = a]: a key that is there keeps its place and its key object. *)
Fixpoint id_put {A} (k : value T) (a : A) (d : iddict A) : iddict A :=
  match d with
  | [] => [(k, a)]
  | (k', a') :: d' =>
      if py_eq k k' then (k', a) :: d' else (k', a') :: id_put k a d'
  end.

Definition id_set {A} (k : value T) (a : A) (d : iddict A) : exc (iddict A) :=
  if hashable k then ret (id_put k a d) else raise.

(** [[x for x in l if f(x)]] *)
Fixpoint filterM {A} (f : A -> exc bool) (l : list A) : exc (list A) :=
  match l with
  | [] => ret []
  | a :: l' =>
      b <- f a ;;
      r <- filterM f l' ;;
      ret (if b then a :: r else r)
  end.

Definition _build_visibility_map (visibility_data : value T)
    : exc (iddict (list (value T))) :=
  items <- py_iter visibility_data ;;
  foldM (fun visibility_map vis =>
           h <- py_get "has_visibility" (VBool false) vis ;;
           if truthy h then
             sat_id <- py_get "satellite_id" (VStr "") vis ;;
             missile_id <- py_get "missile_id" (VStr "") vis ;;
             seen <- id_get sat_id [] visibility_map ;;
             id_set sat_id (seen ++ [missile_id]) visibility_map
           else ret visibility_map)
        items [].

Definition _find_minimal_coverage (satellites missiles : value T)
    (visibility_map : iddict (list (value T))) : exc (iddict (value T)) :=
  sats <- py_iter satellites ;;
  r <- foldM (fun (acc : iddict (value T) * pyset T) sat =>
                let '(assignments, covered_missiles) := acc in
                sat_id <- py_get "satellite_id" (VStr "") sat ;;
                visible_missiles <- id_get sat_id [] visibility_map ;;
                uncovered_visible <-
                  filterM (fun m => b <- set_mem m covered_missiles ;;
                                    ret (negb b)) visible_missiles ;;
                match uncovered_visible with
                | [] => ret (assignments, covered_missiles)
                | target_missile :: _ =>
                    assignments <- id_set sat_id target_missile assignments ;;
                    covered_missiles <-
                      set_add target_missile covered_missiles ;;
                    ret (assignments, covered_missiles)
                end)
             sats ([], []) ;;
  ret (fst r).

(** Two ids that are not equal. *)
Definition apart (a b : value T) : Prop :=
  py_eq a b = false \/ py_eq b a = false.

(** What the loop of [_find_minimal_coverage] keeps true. *)
Definition coverage_invariant (visibility_map : iddict (list (value T)))
    (acc : iddict (value T) * pyset T) : Prop :=
  ForallOrdPairs (fun e1 e2 => apart (snd e1) (snd e2)) (fst acc)
  /\ Forall (fun e => In (snd e) (snd acc)) (fst acc)
  /\ Forall (fun e => exists s visible,
                 (s = fst e \/ py_eq s (fst e) = true)
                 /\ id_find s visibility_map = Some visible
                 /\ In (snd e) visible) (fst acc).

End Policy.
End ExpertPolicy.

(* ================================================================== *)
(** * The two arithmetics *)

(** Exact rationals.  The square root is not rational: it is a parameter
    of the instance. *)
Definition QNumber (sq : Q -> Q) : Number Q :=
  {| nofZ := inject_Z;
     nadd := Qplus;
     nsub := Qminus;
     nmul := Qmult;
     ndiv := Qdiv;
     nabs := Qabs;
     neqb := Qeq_bool;
     nltb := fun a b => negb (Qle_bool b a);
     nleb := Qle_bool;
     nisfinite := fun _ => true;
     nsqrt := sq |}.

(** IEEE binary64, the floats of Python.  Each operation is the IEEE one.
    [float(z)] is the float nearest to [z], ties to even, and an infinity
    where Python raises OverflowError. *)
Definition float_of_Z (z : Z) : float :=
  SF2Prim (binary_normalize prec emax z 0 false).

Definition FloatNumber : Number float :=
  {| nofZ := float_of_Z;
     nadd := PrimFloat.add;
     nsub := PrimFloat.sub;
     nmul := PrimFloat.mul;
     ndiv := PrimFloat.div;
     nabs := PrimFloat.abs;
     neqb := PrimFloat.eqb;
     nltb := PrimFloat.ltb;
     nleb := PrimFloat.leb;
     nisfinite := fun x => negb (PrimFloat.is_nan x || PrimFloat.is_infinity x);
     nsqrt := PrimFloat.sqrt |}.

(** ** The library for the examples

    The theorems hold for every [PyLib].  The examples run on rationals
    with this one: the square root rounded down to six decimals and
    Bhaskara's rational approximation of the sine stand for the two
    irrational functions; the other three fields follow CPython 3.10. *)
Definition Qsqrt_6 (q : Q) : Q :=
  Z.sqrt (Qnum q * Zpos (Qden q) * 1000000000000) # (Qden q * 1000000).

Definition Qpi : Q := 355 # 113.

Definition Qsin_bhaskara (x : Q) : Q :=
  (let turns := x / (2 * Qpi) in
   let frac := turns - inject_Z (Qfloor turns) in
   let half (u : Q) := 16 * u * (1 - u) / (5 - 4 * u * (1 - u)) in
   if Qle_bool frac (1 # 2) then half (2 * frac)
   else - half (2 * frac - 1))%Q.

Definition digit_of (c : ascii) : option Z :=
  let n := Z.of_nat (nat_of_ascii c) in
  if (48 <=? n) && (n <=? 57) then Some (n - 48) else None.

(** *** [datetime.fromisoformat]

    The parser of CPython 3.7 to 3.10 ([datetime_fromisoformat] in
    _datetimemodule.c) on the UTF-8 bytes of the string, which a NUL
    follows: [YYYY-MM-DD], then one character and
    [HH[:MM[:SS[.fff[fff]]]]] with an optional offset
    [+HH:MM[:SS[.ffffff]]]. *)

(** [p[i]]; the byte after the last one is the terminating NUL. *)
Definition byte_at (l : list ascii) (i : nat) : ascii := nth i l Ascii.zero.

(** [parse_digits(ptr, var, num_digits)] with [*var = acc] on entry *)
Fixpoint parse_digits (l : list ascii) (p num_digits : nat) (acc : Z)
    : option (Z * nat) :=
  match num_digits with
  | O => Some (acc, p)
  | S n =>
      match digit_of (byte_at l p) with
      | Some d => parse_digits l (S p) n (10 * acc + d)
      | None => None
      end
  end.

Definition parse_isoformat_date (l : list ascii) : option (Z * Z * Z) :=
  match parse_digits l 0 4 0 with
  | None => None
  | Some (year, p) =>
      if negb (Ascii.eqb (byte_at l p) "-"%char) then None else
      match parse_digits l (S p) 2 0 with
      | None => None
      | Some (month, p) =>
          if negb (Ascii.eqb (byte_at l p) "-"%char) then None else
          match parse_digits l (S p) 2 0 with
          | None => None
          | Some (day, _) => Some (year, month, day)
          end
      end
  end.

(** The fields read so far, missing ones being 0. *)
Definition three (vals : list Z) : Z * Z * Z :=
  (nth 0 vals 0, nth 1 vals 0, nth 2 vals 0).

(** The part [.fff[fff]] of [parse_hh_mm_ss_ff]; the last component of
    the result is the return code 1, for more text after the fraction. *)
Definition parse_ff (l : list ascii) (p p_end : nat) (vals : list Z)
    : option (Z * Z * Z * Z * bool) :=
  let len_remains := (p_end - p)%nat in
  if negb (Nat.eqb len_remains 6 || Nat.eqb len_remains 3) then None else
  match parse_digits l p len_remains 0 with
  | None => None
  | Some (microsecond, p') =>
      Some (three vals,
            if Nat.eqb len_remains 3 then microsecond * 1000 else microsecond,
            negb (Ascii.eqb (byte_at l p') Ascii.zero))
  end.

(** [parse_hh_mm_ss_ff(tstr, tstr_end, ...)] with [fields] rounds of its
    loop left. *)
Fixpoint parse_hh_mm_ss_ff (l : list ascii) (fields p p_end : nat)
    (vals : list Z) : option (Z * Z * Z * Z * bool) :=
  match fields with
  | O => parse_ff l p p_end vals
  | S fields' =>
      match parse_digits l p 2 0 with
      | None => None
      | Some (v, p1) =>
          let c := byte_at l p1 in
          let p2 := S p1 in
          if (p_end <=? p2)%nat
          then Some (three (vals ++ [v]), 0, negb (Ascii.eqb c Ascii.zero))
          else if Ascii.eqb c ":"%char
          then parse_hh_mm_ss_ff l fields' p2 p_end (vals ++ [v])
          else if Ascii.eqb c "."%char
          then parse_ff l p2 p_end (vals ++ [v])
          else None
      end
  end.

Definition is_sign (c : ascii) : bool :=
  Ascii.eqb c "+"%char || Ascii.eqb c "-"%char.

(** The position of the first sign from [i] on, or the length. *)
Fixpoint find_sign (l : list ascii) (i : nat) : nat :=
  match l with
  | [] => i
  | c :: l' => if is_sign c then i else find_sign l' (S i)
  end.

(** [parse_isoformat_time]: the time of day and the offset from UTC in
    microseconds, if there is one. *)
Definition parse_isoformat_time (l : list ascii)
    : option (Z * Z * Z * option Z) :=
  let dtlen := List.length l in
  if Nat.eqb dtlen 0 then None else
  let tzinfo_pos := find_sign l 0 in
  match parse_hh_mm_ss_ff l 3 0 tzinfo_pos [] with
  | None => None
  | Some (hms, _, more) =>
      if Nat.eqb tzinfo_pos dtlen
      then (if more then None else Some (hms, None))
      else
        let tzlen := (dtlen - tzinfo_pos)%nat in
        if negb (Nat.eqb tzlen 6 || Nat.eqb tzlen 9 || Nat.eqb tzlen 16)
        then None else
        let tzsign := if Ascii.eqb (byte_at l tzinfo_pos) "-"%char
                      then -1 else 1 in
        match parse_hh_mm_ss_ff l 3 (S tzinfo_pos) dtlen [] with
        | None => None
        | Some ((tzhour, tzminute, tzsecond), tzmicrosecond, more') =>
            if more' then None else
            Some (hms,
                  Some (tzsign * ((tzhour * 3600 + tzminute * 60 + tzsecond)
                                  * 1000000 + tzmicrosecond)))
        end
  end.

Definition days_in_month (year month : Z) : Z :=
  if month =? 2 then
    (if (year mod 4 =? 0) && (negb (year mod 100 =? 0) || (year mod 400 =? 0))
     then 29 else 28)
  else if (month =? 4) || (month =? 6) || (month =? 9) || (month =? 11)
  then 30 else 31.

(** The bytes of the one character between date and time. *)
Definition separator_length (c : ascii) : nat :=
  let b := nat_of_ascii c in
  if (b <? 128)%nat then 1%nat
  else if (224 <=? b)%nat && (b <? 240)%nat then 3%nat
  else if (240 <=? b)%nat then 4%nat
  else 2%nat.

(** [datetime.fromisoformat(s)]: hour, minute and second of the result;
    [None] for a ValueError. *)
Definition fromisoformat (s : string) : option (Z * Z * Z) :=
  let l := list_ascii_of_string s in
  match parse_isoformat_date l with
  | None => None
  | Some (year, month, day) =>
      let time :=
        match skipn 10 l with
        | [] => Some ((0, 0, 0), None)
        | c :: rest =>
            parse_isoformat_time (skipn (separator_length c - 1) rest)
        end in
      match time with
      | None => None
      | Some ((hour, minute, second), offset) =>
          let offset_ok :=
            match offset with
            | None => true
            | Some us => (- 86400000000 <? us) && (us <? 86400000000)
            end in
          if offset_ok
             && (1 <=? year) && (year <=? 9999)
             && (1 <=? month) && (month <=? 12)
             && (1 <=? day) && (day <=? days_in_month year month)
             && (hour <=? 23) && (minute <=? 59) && (second <=? 59)
          then Some (hour, minute, second)
          else None
      end
  end.

(** *** Attributes of the built-in classes

    [hasattr] and [getattr] on the public names (those without a leading
    underscore) of the built-in classes; names with a leading underscore
    are not in the tables. *)

(** What an attribute is: a value of one of the kinds, a datetime, a
    timedelta, [None], or a method. *)
Inductive attribute : Type :=
| AValue (k : pykind)
| ADatetime
| ATimedelta
| ANone
| AMethod.

Definition mem (name : string) (names : list string) : bool :=
  existsb (String.eqb name) names.

Definition int_attributes : list string :=
  ["real"; "imag"; "numerator"; "denominator"].
Definition int_methods : list string :=
  ["as_integer_ratio"; "bit_count"; "bit_length"; "conjugate";
   "from_bytes"; "to_bytes"].
Definition float_attributes : list string := ["real"; "imag"].
Definition float_methods : list string :=
  ["as_integer_ratio"; "conjugate"; "fromhex"; "hex"; "is_integer"].
Definition str_methods : list string :=
  ["capitalize"; "casefold"; "center"; "count"; "encode"; "endswith";
   "expandtabs"; "find"; "format"; "format_map"; "index"; "isalnum";
   "isalpha"; "isascii"; "isdecimal"; "isdigit"; "isidentifier"; "islower";
   "isnumeric"; "isprintable"; "isspace"; "istitle"; "isupper"; "join";
   "ljust"; "lower"; "lstrip"; "maketrans"; "partition"; "removeprefix";
   "removesuffix"; "replace"; "rfind"; "rindex"; "rjust"; "rpartition";
   "rsplit"; "rstrip"; "split"; "splitlines"; "startswith"; "strip";
   "swapcase"; "title"; "translate"; "upper"; "zfill"].
Definition list_methods : list string :=
  ["append"; "clear"; "copy"; "count"; "extend"; "index"; "insert"; "pop";
   "remove"; "reverse"; "sort"].
Definition dict_methods : list string :=
  ["clear"; "copy"; "fromkeys"; "get"; "items"; "keys"; "pop"; "popitem";
   "setdefault"; "update"; "values"].
Definition datetime_int_attributes : list string :=
  ["year"; "month"; "day"; "hour"; "minute"; "second"; "microsecond";
   "fold"].
Definition datetime_methods : list string :=
  ["astimezone"; "combine"; "ctime"; "date"; "dst"; "fromisocalendar";
   "fromisoformat"; "fromordinal"; "fromtimestamp"; "isocalendar";
   "isoformat"; "isoweekday"; "now"; "replace"; "strftime"; "strptime";
   "time"; "timestamp"; "timetuple"; "timetz"; "today"; "toordinal";
   "tzname"; "utcfromtimestamp"; "utcnow"; "utcoffset"; "utctimetuple";
   "weekday"].

(** [getattr(x, name)] for [x] of the given description, when
    [hasattr(x, name)].  The timestamps of the simulation carry no time
    zone. *)
Definition attribute_of (a : attribute) (name : string) : option attribute :=
  match a with
  | AValue KBool | AValue KInt =>
      if mem name int_attributes then Some (AValue KInt)
      else if mem name int_methods then Some AMethod else None
  | AValue KFloat =>
      if mem name float_attributes then Some (AValue KFloat)
      else if mem name float_methods then Some AMethod else None
  | AValue KStr => if mem name str_methods then Some AMethod else None
  | AValue KList => if mem name list_methods then Some AMethod else None
  | AValue KDict => if mem name dict_methods then Some AMethod else None
  | AValue KNone | AValue KDataPoint | ANone | AMethod => None
  | ADatetime =>
      if mem name datetime_int_attributes then Some (AValue KInt)
      else if String.eqb name "tzinfo" then Some ANone
      else if mem name ["min"; "max"] then Some ADatetime
      else if String.eqb name "resolution" then Some ATimedelta
      else if mem name datetime_methods then Some AMethod else None
  | ATimedelta =>
      if mem name ["days"; "seconds"; "microseconds"] then Some (AValue KInt)
      else if mem name ["min"; "max"; "resolution"] then Some ATimedelta
      else if String.eqb name "total_seconds" then Some AMethod else None
  end.

(** The loop of [_check_field_exists] from an attribute on: every further
    part has to be an attribute, and the last value must not be [None]. *)
Fixpoint attribute_path (a : attribute) (parts : list string) : bool :=
  match parts with
  | [] => match a with ANone | AValue KNone => false | _ => true end
  | part :: rest =>
      match attribute_of a part with
      | Some a' => attribute_path a' rest
      | None => false
      end
  end.

(** The data point itself: its field [timestamp] is a datetime; its other
    fields are looked up in the data point. *)
Definition py_hasattr (k : pykind) (name : string) : bool :=
  match k with
  | KDataPoint => String.eqb name "timestamp"
  | _ => match attribute_of (AValue k) name with
         | Some _ => true
         | None => false
         end
  end.

Definition py_attr_path (k : pykind) (name : string) (rest : list string)
    : bool :=
  match k with
  | KDataPoint =>
      if String.eqb name "timestamp" then attribute_path ADatetime rest
      else false
  | _ => attribute_path (AValue k) (name :: rest)
  end.

Definition QLib : PyLib Q :=
  {| np_sin := Qsin_bhaskara;
     np_pi := Qpi;
     datetime_fromisoformat := fromisoformat;
     class_hasattr := py_hasattr;
     class_attr_path := py_attr_path |}.

(* ================================================================== *)
(** * Key sets of the extracted state *)

Section KeySets.
Context {T : Type} {N : Number T}.

(** The keys after [d[k] = v], from the keys before. *)
Definition add_key (k : string) (ks : list string) : list string :=
  if existsb (String.eqb k) ks then ks else ks ++ [k].

(** The keys after [d.update(o)], from the keys of [d] and of [o]. *)
Definition merge_keys (ks os : list string) : list string :=
  fold_left (fun acc k => add_key k acc) os ks.

(** A configuration flag that is read without an exception and is true. *)
Definition flag_on (cfg : dict T) (group name : string) : bool :=
  match enabled cfg group name with
  | Some true => true
  | _ => false
  end.

(** The keys a sequence of flagged blocks leaves: each pair is a flag and
    the key its block stores. *)
Definition flagged_keys (cfg : dict T) (group : string)
    (table : list (string * string)) (init : list string) : list string :=
  fold_left (fun acc nk => if flag_on cfg group (fst nk)
                           then add_key (snd nk) acc else acc) table init.

Definition satellite_table : list (string * string) :=
  [ ("position", "satellite_positions");
    ("velocity", "satellite_velocities");
    ("attitude", "satellite_attitudes");
    ("orbital_elements", "satellite_orbital_elements");
    ("power_status", "satellite_power_states");
    ("payload_status", "satellite_payload_states") ].

Definition missile_table : list (string * string) :=
  [ ("position", "missile_positions");
    ("velocity", "missile_velocities");
    ("trajectory_prediction", "missile_trajectory_predictions");
    ("threat_level", "missile_threat_levels");
    ("flight_phase", "missile_flight_phases");
    ("remaining_time", "missile_remaining_times") ].

Definition mission_table : list (string * string) :=
  [ ("tracking_assignments", "active_tracking_assignments");
    ("resource_utilization", "power_utilization");
    ("coverage_gaps", "coverage_gap_ratio") ].

Definition satellite_keys (cfg : dict T) (some_satellites : bool) : list string :=
  if some_satellites then flagged_keys cfg "satellite_states" satellite_table []
  else map snd satellite_table.

Definition missile_keys (cfg : dict T) (some_missiles : bool) : list string :=
  if some_missiles then flagged_keys cfg "missile_states" missile_table []
  else map snd missile_table.

Definition visibility_keys : list string :=
  ["visibility_matrix"; "coverage_ratio"; "satellite_coverage_counts";
   "missile_coverage_counts"].

Definition environment_keys (cfg : dict T) : list string :=
  let ks := if flag_on cfg "environment_states" "time_of_day"
            then ["time_of_day"] else [] in
  let ks := add_key "simulation_progress" ks in
  let ks := if flag_on cfg "environment_states" "sun_position"
            then add_key "sun_elevation" ks else ks in
  if flag_on cfg "environment_states" "earth_shadow"
  then add_key "earth_shadow" ks else ks.

Definition mission_keys (cfg : dict T) : list string :=
  flagged_keys cfg "mission_states" mission_table
    ["active_satellites"; "active_missiles"; "mission_progress"].

(** The keys of the state the extractor builds when it does not fall back
    to [_get_empty_state]: a function of the configuration and of whether
    there are satellites and missiles. *)
Definition state_keys (cfg : dict T) (some_satellites some_missiles : bool)
    : list string :=
  merge_keys
    (merge_keys
       (merge_keys
          (merge_keys (merge_keys [] (satellite_keys cfg some_satellites))
                      (missile_keys cfg some_missiles))
          visibility_keys)
       (environment_keys cfg))
    (mission_keys cfg).

End KeySets.

(** The keys of the groups, for checking that they do not overlap. *)
Section KeyGroups.
Context {T : Type} {N : Number T}.

Definition other_keys_of_satellites : list string :=
  map snd missile_table ++ visibility_keys
  ++ ["time_of_day"; "simulation_progress"; "sun_elevation"; "earth_shadow"]
  ++ ["active_satellites"; "active_missiles"; "mission_progress"]
  ++ map snd mission_table.

Definition other_keys_of_missiles : list string :=
  map snd satellite_table ++ visibility_keys
  ++ ["time_of_day"; "simulation_progress"; "sun_elevation"; "earth_shadow"]
  ++ ["active_satellites"; "active_missiles"; "mission_progress"]
  ++ map snd mission_table.

Fixpoint nodupb (l : list string) : bool :=
  match l with
  | [] => true
  | k :: l' => negb (existsb (String.eqb k) l') && nodupb l'
  end.


End KeyGroups.

(* ================================================================== *)
(** * Inputs for the examples *)

Definition QN : Number Q := QNumber Qsqrt_6.

Definition one_satellite_one_missile : dict Q :=
  [ ("satellites", VList [VDict [("satellite_id", VStr "Satellite01")]]);
    ("missiles", VList [VDict [("missile_id", VStr "Missile01")]]);
    ("visibility", VList [VDict [("satellite_id", VStr "Satellite01");
                                 ("missile_id", VStr "Missile01");
                                 ("has_visibility", VBool true)]]) ].

Definition no_satellites : dict Q :=
  [ ("satellites", VList []);
    ("missiles", VList [VDict [("missile_id", VStr "Missile01")]]) ].

Definition demo_validator (required : list string) : @Validator Q :=
  {| validation_rules := [];
     completeness_checks := [("required_fields", VList (map (@VStr Q) required))];
     anomaly_detection := [("statistical_outliers", VBool true)];
     validation_stats := {| total_validations := 0; passed_validations := 0;
                            failed_validations := 0; anomaly_detections := 0 |};
     historical_data := [] |}.

Definition demo_collector (required : list string) : @Collector Q :=
  {| state_space_config := [];
     reward_config := [];
     has_action_executor := false;
     data_quality_validator := demo_validator required;
     current_episode := None;
     episodes := [];
     state_history := [];
     action_history := [];
     reward_history := [];
     validation_history := [];
     collection_stats := {| total_data_points := 0; valid_data_points := 0;
                            invalid_data_points := 0; average_reward := 0%Q;
                            average_quality_score := 0%Q |} |}.

Definition demo_world (t : Z) : @World Q :=
  {| current_simulation_time := t;
     collect_data_at_time := Some (Some one_satellite_one_missile);
     get_simulation_progress := Some (VFloat (1 # 2));
     is_simulation_finished := Some false;
     is_collection_finished := Some false;
     execute_action := fun _ => Some (VDict []);
     get_constellation_info := Some (VDict []);
     now_strftime := "20250101_000000" |}.

Definition demo_episode : @Episode Q :=
  {| episode_id := "episode_20250101_000000_t1";
     scenario_type := "t1";
     start_time := 0;
     end_time := None;
     data_points := [];
     total_reward := 0%Q;
     success := false;
     metadata := [("scenario_params", VDict []); ("constellation_info", VDict [])] |}.

Definition demo_open (required : list string) : @Collector Q :=
  set_episode (demo_collector required) (Some demo_episode).

Definition demo_call (t : Z) : @Call Q :=
  {| call_world := demo_world t; call_action := []; call_execute := false |}.


Definition demo_calls : list (@Call Q) :=
  [demo_call 0; demo_call 30; demo_call 60].

Definition demo_run : @Collector Q * list (option (@RLHFDataPoint Q)) :=
  collect_all (N:=QN) (L:=QLib) (demo_open []) demo_calls.

Definition one_record_validator : @Validator Q :=
  {| validation_rules := [];
     completeness_checks := [];
     anomaly_detection := [("statistical_outliers", VBool true)];
     validation_stats := {| total_validations := 1; passed_validations := 1;
                            failed_validations := 0; anomaly_detections := 0 |};
     historical_data := [ {| h_timestamp := 0; h_reward := 0%Q; h_state := [];
                             h_validation_score := 1%Q |} ] |}.

Definition outlier_point : @RLHFDataPoint Q :=
  {| timestamp := 30000000;
     state := [];
     action := [];
     reward := 1000%Q;
     next_state := [];
     done := false;
     info := [];
     info_validation_result := None |}.



(** One satellite that allocates the whole of its power. *)
Definition whole_power_satellite : value Q :=
  VDict [ ("power_management",
           VDict [ ("power_allocation",
                    VDict [ ("payload", VFloat (1 # 2));
                            ("communication", VFloat (1 # 2)) ]) ]) ].

Definition whole_power_action : dict Q :=
  [ ("satellite_actions", VDict [ ("Satellite01", whole_power_satellite) ]) ].

Definition low_missile : value Q :=
  VDict [("missile_id", VStr "Missile01"); ("threat_level", VStr "low")].
Definition critical_missile : value Q :=
  VDict [("missile_id", VStr "Missile02"); ("threat_level", VStr "critical")].


Definition one_visibility_record : value Q :=
  VList [VDict [("satellite_id", VStr "Satellite01");
                ("missile_id", VStr "Missile01");
                ("has_visibility", VBool true)]].

Definition one_satellite : value Q :=
  VList [VDict [("satellite_id", VStr "Satellite01")]].

Definition positions_only : dict Q :=
  [("satellite_states", VDict [("position", VBool true)])].

Definition blind_world : @World Q :=
  {| current_simulation_time := 0;
     collect_data_at_time := Some None;
     get_simulation_progress := Some (VFloat (1 # 2));
     is_simulation_finished := Some false;
     is_collection_finished := Some false;
     execute_action := fun _ => Some (VDict []);
     get_constellation_info := Some (VDict []);
     now_strftime := "20250101_000000" |}.

Definition state_in_progress : dict Q :=
  [("mission_progress", VFloat (1 # 2)); ("active_missiles", VInt 1)].


Definition count_Q {A : Type} (l : list A) : Q := inject_Z (Z.of_nat (List.length l)).


Section Binary64Inputs.
Local Existing Instance FloatNumber.

(** A float is in the unit interval, or it is NaN. *)
Definition unit_or_nan (r : float) : bool :=
  PrimFloat.is_nan r || (PrimFloat.leb (nofZ 0) r && PrimFloat.leb r (nofZ 1)).


(** Python's [1e308]. *)
Definition f1e308 : float := 0x1.1ccf385ebc8ap+1023%float.

Definition overflowing_action : dict float :=
  [ ("satellite_actions",
     VDict [ ("Satellite01",
              VDict [ ("power_management",
                       VDict [ ("power_allocation",
                                VDict [ ("payload", VFloat f1e308);
                                        ("communication", VFloat f1e308) ]) ]) ]) ]) ].

End Binary64Inputs.

(* ================================================================== *)
(** * Properties *)

Unset Implicit Arguments.

Ltac step H :=
  match type of H with
  | bind ?c _ = Some _ =>
      let E := fresh "E" in
      destruct c eqn:E; simpl in H; [|discriminate H]
  end.

(** ** Sums *)

Section PairwiseSum.
Context {T : Type} {N : Number T}.

(** The splitting of [pairwise_sum] ends before the fuel does: with fuel
    for the length of the list, more fuel changes nothing. *)
Lemma pairwise_sum_rec_fuel (fuel1 fuel2 : nat) (l : list T) :
  (List.length l <= fuel1)%nat -> (List.length l <= fuel2)%nat ->
  pairwise_sum_rec fuel1 l = pairwise_sum_rec fuel2 l.
Proof.
  revert fuel2 l.
  induction fuel1 as [|fuel1 IH]; intros fuel2 l H1 H2.
  - destruct l; [|simpl in H1; lia].
    destruct fuel2; reflexivity.
  - destruct fuel2 as [|fuel2].
    + destruct l; [reflexivity | simpl in H2; lia].
    + cbn [pairwise_sum_rec].
      destruct (List.length l <? 8)%nat eqn:B8; [reflexivity|].
      destruct (List.length l <=? 128)%nat eqn:B128; [reflexivity|].
      apply Nat.leb_gt in B128.
      set (n := List.length l) in *.
      assert (Hn2 : (1 <= n / 2 - (n / 2) mod 8 < n)%nat).
      { pose proof (Nat.div_mod_eq n 2) as D.
        pose proof (Nat.mod_upper_bound n 2 ltac:(lia)) as M2.
        pose proof (Nat.mod_upper_bound (n / 2) 8 ltac:(lia)) as M8.
        remember (n / 2)%nat as h. remember (h mod 8)%nat as r.
        remember (n mod 2)%nat as b. lia. }
      f_equal; apply IH;
        rewrite ?length_firstn, ?length_skipn; fold n; lia.
Qed.

(** Fewer than eight items are added from left to right. *)
Lemma np_sum_short (l : list T) :
  (List.length l < 8)%nat ->
  np_sum l = nadd (nofZ 0) (fold_left nadd l (nofZ 0)).
Proof.
  intros H. unfold np_sum, pairwise_sum.
  destruct (List.length l) as [|k] eqn:E.
  - destruct l; [reflexivity | discriminate].
  - cbn [pairwise_sum_rec]. rewrite E.
    apply Nat.ltb_lt in H. rewrite H. reflexivity.
Qed.
End PairwiseSum.

(** ** Dicts and the keys of the extracted state *)

Section DictFacts.
Context {T : Type} {N : Number T}.

Lemma existsb_eqb_In (k : string) (ks : list string) :
  existsb (String.eqb k) ks = true <-> In k ks.
Proof.
  rewrite existsb_exists. split.
  - intros [x [Hin Heq]]. apply String.eqb_eq in Heq. now subst.
  - intros Hin. exists k. split; [assumption | apply String.eqb_refl].
Qed.

Lemma keys_dict_set (k : string) (v : value T) (d : dict T) :
  keys (dict_set k v d) = add_key k (keys d).
Proof.
  unfold add_key, keys. induction d as [|[k' v'] d IH]; simpl.
  - reflexivity.
  - destruct (String.eqb k k') eqn:E; simpl.
    + apply String.eqb_eq in E. now subst.
    + rewrite IH.
      destruct (existsb (String.eqb k) (map fst d)); reflexivity.
Qed.

Lemma keys_dict_update (d o : dict T) :
  keys (dict_update d o) = merge_keys (keys d) (keys o).
Proof.
  unfold dict_update, merge_keys. revert d.
  induction o as [|[k v] o IH]; intros d; simpl.
  - reflexivity.
  - rewrite IH. now rewrite keys_dict_set.
Qed.

Lemma lookup_dict_set (k k' : string) (v : value T) (d : dict T) :
  lookup k (dict_set k' v d) = if String.eqb k k' then Some v else lookup k d.
Proof.
  induction d as [|[k0 v0] d IH]; simpl.
  - reflexivity.
  - destruct (String.eqb k' k0) eqn:E; simpl.
    + apply String.eqb_eq in E. subst k0.
      destruct (String.eqb k k'); reflexivity.
    + rewrite IH. destruct (String.eqb k k0) eqn:E0.
      * apply String.eqb_eq in E0. subst k0.
        rewrite String.eqb_sym in E. now rewrite E.
      * reflexivity.
Qed.

Lemma lookup_not_in_keys (k : string) (d : dict T) :
  ~ In k (keys d) -> lookup k d = None.
Proof.
  induction d as [|[k0 v0] d IH]; simpl; intros H.
  - reflexivity.
  - destruct (String.eqb k k0) eqn:E.
    + apply String.eqb_eq in E. subst. tauto.
    + apply IH. tauto.
Qed.


Lemma In_add_key (k k' : string) (ks : list string) :
  In k (add_key k' ks) <-> k = k' \/ In k ks.
Proof.
  unfold add_key. destruct (existsb (String.eqb k') ks) eqn:E.
  - apply existsb_eqb_In in E. split; [tauto|]. intros [->|H]; assumption.
  - rewrite in_app_iff. simpl. intuition congruence.
Qed.

Lemma In_merge_keys (k : string) (ks os : list string) :
  In k (merge_keys ks os) <-> In k ks \/ In k os.
Proof.
  unfold merge_keys. revert ks.
  induction os as [|o os IH]; intros ks; simpl.
  - tauto.
  - rewrite IH, In_add_key. intuition congruence.
Qed.

Lemma In_flagged_keys (cfg : dict T) (group k : string)
    (table : list (string * string)) (init : list string) :
  In k (flagged_keys cfg group table init) <->
  In k init \/ exists name, In (name, k) table /\ flag_on cfg group name = true.
Proof.
  unfold flagged_keys. revert init.
  induction table as [|[n k0] table IH]; intros init; simpl.
  - split; [tauto|]. intros [H|[name [[] _]]]. assumption.
  - rewrite IH. destruct (flag_on cfg group n) eqn:E.
    + rewrite In_add_key. split.
      * intros [[->|H]|[name [H1 H2]]].
        -- right. exists n. auto.
        -- now left.
        -- right. exists name. auto.
      * intros [H|[name [[H1|H1] H2]]].
        -- auto.
        -- inversion H1; subst. auto.
        -- right. exists name. auto.
    + split.
      * intros [H|[name [H1 H2]]]; [now left|]. right. exists name. auto.
      * intros [H|[name [[H1|H1] H2]]]; [now left| |].
        -- inversion H1; subst. congruence.
        -- right. exists name. auto.
Qed.



Lemma when_enabled_keys (cfg : dict T) (g n key : string)
    (body : exc (value T)) (st st' : dict T) :
  when_enabled cfg g n key body st = Some st' ->
  keys st' = if flag_on cfg g n then add_key key (keys st) else keys st.
Proof.
  unfold when_enabled, flag_on. intros H. step H.
  destruct b.
  - step H. inversion H; subst. apply keys_dict_set.
  - inversion H; subst. reflexivity.
Qed.

Lemma satellite_states_keys (cfg : dict T) (satellites : value T) (st : dict T) :
  _extract_satellite_states cfg satellites = Some st ->
  keys st = satellite_keys cfg (truthy satellites).
Proof.
  unfold _extract_satellite_states, satellite_keys. intros H.
  destruct (truthy satellites); simpl in H.
  - repeat step H. inversion H; subst.
    repeat match goal with
           | E : when_enabled _ _ _ _ _ _ = Some _ |- _ =>
               apply when_enabled_keys in E
           end.
    unfold flagged_keys, satellite_table; cbn [fold_left fst snd].
    repeat match goal with E : keys _ = _ |- _ => rewrite E; clear E end.
    reflexivity.
  - inversion H; subst. reflexivity.
Qed.

Lemma missile_states_keys (cfg : dict T) (missiles : value T) (st : dict T) :
  _extract_missile_states cfg missiles = Some st ->
  keys st = missile_keys cfg (truthy missiles).
Proof.
  unfold _extract_missile_states, missile_keys. intros H.
  destruct (truthy missiles); simpl in H.
  - repeat step H. inversion H; subst.
    repeat match goal with
           | E : when_enabled _ _ _ _ _ _ = Some _ |- _ =>
               apply when_enabled_keys in E
           end.
    unfold flagged_keys, missile_table; cbn [fold_left fst snd].
    repeat match goal with E : keys _ = _ |- _ => rewrite E; clear E end.
    reflexivity.
  - inversion H; subst. reflexivity.
Qed.

Lemma visibility_states_keys (vis : value T) (ns nm : Z) (st : dict T) :
  _extract_visibility_states vis ns nm = Some st -> keys st = visibility_keys.
Proof.
  unfold _extract_visibility_states. intros H. step H.
  destruct m; inversion H; subst; reflexivity.
Qed.

Lemma environment_states_keys {L : PyLib T} (cfg base_data st : dict T) :
  _extract_environment_states cfg base_data = Some st ->
  keys st = environment_keys cfg.
Proof.
  unfold _extract_environment_states, environment_keys, flag_on. intros H.
  step H. step H. step H. step H. step H. inversion H; subst. clear H.
  destruct b0.
  - step E1. inversion E1; subst. clear E1.
    destruct b1.
    + step E3. inversion E3; subst. rewrite !keys_dict_set.
      destruct b; reflexivity.
    + inversion E3; subst. rewrite !keys_dict_set. destruct b; reflexivity.
  - inversion E1; subst. clear E1.
    destruct b1.
    + step E3. inversion E3; subst. rewrite !keys_dict_set.
      destruct b; reflexivity.
    + inversion E3; subst. rewrite !keys_dict_set. destruct b; reflexivity.
Qed.

Lemma mission_states_keys (cfg base_data : dict T) (sats mis : value T)
    (st : dict T) :
  _extract_mission_states cfg base_data sats mis = Some st ->
  keys st = mission_keys cfg.
Proof.
  unfold _extract_mission_states, mission_keys. intros H.
  repeat step H. inversion H; subst.
  repeat match goal with
         | E : when_enabled _ _ _ _ _ _ = Some _ |- _ =>
             apply when_enabled_keys in E
         end.
  unfold flagged_keys, mission_table; cbn [fold_left fst snd].
  repeat match goal with E : keys _ = _ |- _ => rewrite E; clear E end.
  reflexivity.
Qed.


Lemma state_keys_In (cfg : dict T) (a b : bool) (k : string) :
  In k (state_keys cfg a b) <->
  In k (satellite_keys cfg a) \/ In k (missile_keys cfg b)
  \/ In k visibility_keys \/ In k (environment_keys cfg)
  \/ In k (mission_keys cfg).
Proof.
  unfold state_keys. rewrite !In_merge_keys. simpl. tauto.
Qed.

Lemma flagged_keys_sub (cfg : dict T) (g k : string)
    (table : list (string * string)) (init : list string) :
  In k (flagged_keys cfg g table init) -> In k init \/ In k (map snd table).
Proof.
  rewrite In_flagged_keys. intros [H|[name [H _]]]; [now left|right].
  change k with (snd (name, k)). now apply in_map.
Qed.

Lemma satellite_keys_sub (cfg : dict T) (a : bool) (k : string) :
  In k (satellite_keys cfg a) -> In k (map snd satellite_table).
Proof.
  unfold satellite_keys. destruct a; [|tauto].
  intros H. apply flagged_keys_sub in H. destruct H as [[]|H]. exact H.
Qed.

Lemma missile_keys_sub (cfg : dict T) (b : bool) (k : string) :
  In k (missile_keys cfg b) -> In k (map snd missile_table).
Proof.
  unfold missile_keys. destruct b; [|tauto].
  intros H. apply flagged_keys_sub in H. destruct H as [[]|H]. exact H.
Qed.

Lemma environment_keys_sub (cfg : dict T) (k : string) :
  In k (environment_keys cfg) ->
  In k ["time_of_day"; "simulation_progress"; "sun_elevation"; "earth_shadow"].
Proof.
  unfold environment_keys.
  destruct (flag_on cfg "environment_states" "time_of_day"),
           (flag_on cfg "environment_states" "sun_position"),
           (flag_on cfg "environment_states" "earth_shadow");
    rewrite ?In_add_key; simpl; intuition.
Qed.

Lemma mission_keys_sub (cfg : dict T) (k : string) :
  In k (mission_keys cfg) ->
  In k (["active_satellites"; "active_missiles"; "mission_progress"]
        ++ map snd mission_table).
Proof.
  unfold mission_keys. intros H. apply flagged_keys_sub in H.
  apply in_or_app. exact H.
Qed.

Lemma disjoint_lists (l1 l2 : list string) :
  forallb (fun k => negb (existsb (String.eqb k) l2)) l1 = true ->
  forall k, In k l1 -> In k l2 -> False.
Proof.
  rewrite forallb_forall. intros H k H1 H2.
  specialize (H k H1). apply negb_true_iff in H.
  apply existsb_eqb_In in H2. congruence.
Qed.

Lemma table_functional (table : list (string * string)) :
  NoDup (map snd table) ->
  forall n1 n2 k, In (n1, k) table -> In (n2, k) table -> n1 = n2.
Proof.
  induction table as [|[n k0] table IH]; simpl; intros ND n1 n2 k H1 H2.
  - contradiction.
  - inversion ND as [|? ? Hnot ND']; subst.
    destruct H1 as [H1|H1], H2 as [H2|H2].
    + congruence.
    + inversion H1; subst. exfalso. apply Hnot.
      change k with (snd (n2, k)). now apply in_map.
    + inversion H2; subst. exfalso. apply Hnot.
      change k with (snd (n1, k)). now apply in_map.
    + eauto.
Qed.

Lemma NoDup_by_computation (l : list string) : nodupb l = true -> NoDup l.
Proof.
  induction l as [|k l IH]; intros H.
  - constructor.
  - simpl in H. apply andb_true_iff in H. destruct H as [H1 H2]. constructor.
    + intros Hin. apply existsb_eqb_In in Hin. apply negb_true_iff in H1.
      congruence.
    + auto.
Qed.

Section Extraction.
Context {L : PyLib T}.

Lemma extract_state_body_keys (cfg base_data st : dict T) :
  extract_state_body cfg base_data = Some st ->
  keys st = state_keys cfg (truthy (get "satellites" (VList []) base_data))
                           (truthy (get "missiles" (VList []) base_data)).
Proof.
  unfold extract_state_body. intros H. repeat step H. inversion H; subst.
  rewrite !keys_dict_update.
  repeat match goal with
         | E : _extract_satellite_states _ _ = Some _ |- _ =>
             apply satellite_states_keys in E; rewrite E; clear E
         | E : _extract_missile_states _ _ = Some _ |- _ =>
             apply missile_states_keys in E; rewrite E; clear E
         | E : _extract_visibility_states _ _ _ = Some _ |- _ =>
             apply visibility_states_keys in E; rewrite E; clear E
         | E : _extract_environment_states _ _ = Some _ |- _ =>
             apply environment_states_keys in E; rewrite E; clear E
         | E : _extract_mission_states _ _ _ _ = Some _ |- _ =>
             apply mission_states_keys in E; rewrite E; clear E
         end.
  reflexivity.
Qed.


Lemma group_key_iff (cfg : dict T) (group : string)
    (table : list (string * string)) (others : list string)
    (some_items : bool) (ks : list string) :
  nodupb (map snd table) = true ->
  forallb (fun k => negb (existsb (String.eqb k) others)) (map snd table) = true ->
  (forall k, In k ks <->
             In k (if some_items then flagged_keys cfg group table []
                   else map snd table)
             \/ (In k ks /\ In k others)) ->
  forall name key, In (name, key) table ->
    (In key ks <-> some_items = false \/ flag_on cfg group name = true).
Proof.
  intros ND DJ Hks name key Hin.
  assert (Hkey : In key (map snd table)).
  { change key with (snd (name, key)). now apply in_map. }
  rewrite Hks. split.
  - intros [H|[_ H]].
    + destruct some_items; [|now left]. right.
      apply In_flagged_keys in H. destruct H as [[]|[name' [H1 H2]]].
      assert (name = name') by
        (eapply table_functional; eauto using NoDup_by_computation).
      now subst.
    + exfalso. eapply disjoint_lists; eauto.
  - intros [->|H]; left; [exact Hkey|].
    destruct some_items; [|exact Hkey].
    apply In_flagged_keys. right. eauto.
Qed.

(** C10 (amended). When the extraction does not fall back to the error
    default, the keys of the state are [state_keys]: a function of the
    configuration and of whether the snapshot has satellites and missiles.
    A satellite (missile) key is present exactly when its flag is enabled
    or the snapshot has no satellites (no missiles): with none, all six
    keys are there as empty lists whatever the flags say. *)
Theorem state_keys_follow_configuration (cfg base_data st : dict T) :
  extract_state_body cfg base_data = Some st ->
  let some_satellites := truthy (get "satellites" (VList []) base_data) in
  let some_missiles := truthy (get "missiles" (VList []) base_data) in
  _extract_state_vector cfg base_data = st
  /\ keys st = state_keys cfg some_satellites some_missiles
  /\ (forall name key, In (name, key) satellite_table ->
        (In key (keys st) <->
         some_satellites = false \/ flag_on cfg "satellite_states" name = true))
  /\ (forall name key, In (name, key) missile_table ->
        (In key (keys st) <->
         some_missiles = false \/ flag_on cfg "missile_states" name = true)).
Proof.
  intros H some_satellites some_missiles.
  pose proof (extract_state_body_keys _ _ _ H) as K.
  fold some_satellites some_missiles in K.
  split; [|split; [exact K|split]].
  - unfold _extract_state_vector. now rewrite H.
  - apply group_key_iff with (others := other_keys_of_satellites);
      [reflexivity|reflexivity|].
    intros k. rewrite K, state_keys_In. unfold satellite_keys.
    split; [|tauto]. intros [H0|H0]; [now left|right]. split; [tauto|].
    unfold other_keys_of_satellites. rewrite !in_app_iff.
    destruct H0 as [H0|[H0|[H0|H0]]].
    + left. eapply missile_keys_sub; eauto.
    + tauto.
    + right; right; left. eapply environment_keys_sub; eauto.
    + apply mission_keys_sub in H0. apply in_app_or in H0. tauto.
  - apply group_key_iff with (others := other_keys_of_missiles);
      [reflexivity|reflexivity|].
    intros k. rewrite K, state_keys_In. unfold missile_keys.
    split; [|tauto]. intros [H0|[H0|H0]]; [right|now left|right].
    + split; [tauto|]. unfold other_keys_of_missiles. rewrite !in_app_iff.
      left. eapply satellite_keys_sub; eauto.
    + split; [tauto|]. unfold other_keys_of_missiles. rewrite !in_app_iff.
      destruct H0 as [H0|[H0|H0]].
      * tauto.
      * right; right; left. eapply environment_keys_sub; eauto.
      * apply mission_keys_sub in H0. apply in_app_or in H0. tauto.
Qed.

End Extraction.
End DictFacts.

Lemma state_keys_follow_configuration_witness :
  exists st,
    extract_state_body (N:=QN) (L:=QLib) [] one_satellite_one_missile = Some st
    /\ keys st = state_keys (N:=QN) [] true true.
Proof.
  eexists. split.
  - vm_compute. reflexivity.
  - apply (state_keys_follow_configuration (N:=QN) (L:=QLib) []
             one_satellite_one_missile).
    vm_compute. reflexivity.
Defined.

Lemma disabled_group_present_without_satellites :
  flag_on (N:=QN) [] "satellite_states" "position" = false
  /\ In "satellite_positions"
        (keys (_extract_state_vector (N:=QN) (L:=QLib) [] no_satellites))
  /\ keys (_extract_state_vector (N:=QN) (L:=QLib) [] no_satellites)
     <> keys (_extract_state_vector (N:=QN) (L:=QLib) [] one_satellite_one_missile).
Proof.
  split; [reflexivity|]. split.
  - vm_compute. left. reflexivity.
  - vm_compute. discriminate.
Qed.

(** ** Coverage ratio *)

Section Coverage.
Context {T : Type} {N : Number T} {L : PyLib T}.

Lemma foldM_invariant {A S : Type} (P : S -> Prop) (f : S -> A -> exc S)
    (l : list A) :
  (forall s a s', P s -> f s a = Some s' -> P s') ->
  forall s s', P s -> foldM f l s = Some s' -> P s'.
Proof.
  intros Hf. induction l as [|a l IH]; simpl; intros s s' Hs H.
  - inversion H; subst. exact Hs.
  - destruct (f s a) eqn:E; [|discriminate]. eauto.
Qed.

Lemma list_set_length {A : Type} (i : nat) (a : A) (l : list A) :
  List.length (list_set i a l) = List.length l.
Proof.
  revert i. induction l as [|x l IH]; intros [|i]; simpl; auto.
Qed.

Lemma matrix_set_length (i j : nat) (b : Z) (m : matrix) :
  List.length (matrix_set i j b m) = List.length m.
Proof.
  unfold matrix_set. destruct (nth_error m i); [apply list_set_length|reflexivity].
Qed.

Lemma py_len_nonneg (v : value T) (n : Z) : py_len v = Some n -> 0 <= n.
Proof.
  destruct v; simpl; intros H; inversion H; subst; lia.
Qed.



End Coverage.

(** ** Reward components *)

Section RationalRewards.
Variable sq : Q -> Q.
Local Hint Extern 0 (Number Q) => exact (QNumber sq) : typeclass_instances.
Local Open Scope Q_scope.

Lemma nltb_Q (a b : Q) : nltb a b = true <-> a < b.
Proof.
  simpl. rewrite negb_true_iff. split.
  - intros H. apply Qnot_le_lt. intros Hle. apply Qle_bool_iff in Hle. congruence.
  - intros H. destruct (Qle_bool b a) eqn:E; [|reflexivity].
    apply Qle_bool_iff in E. lra.
Qed.

Lemma nltb_Q_false (a b : Q) : nltb a b = false <-> b <= a.
Proof.
  simpl. rewrite negb_false_iff. apply Qle_bool_iff.
Qed.

Lemma lit_Q (a : Z) (b : positive) : lit a (Zpos b) == a # b.
Proof. unfold lit. simpl. symmetry. apply Qmake_Qdiv. Qed.

Lemma np_clip_unit (x : Q) : 0 <= np_clip x (nofZ 0%Z) (nofZ 1%Z) <= 1.
Proof.
  unfold np_clip.
  destruct (nltb x (nofZ 0%Z)) eqn:E1.
  - destruct (nltb (nofZ 1%Z) (nofZ 0%Z)) eqn:E2; simpl; unfold inject_Z; lra.
  - apply nltb_Q_false in E1.
    destruct (nltb (nofZ 1%Z) x) eqn:E2.
    + simpl. unfold inject_Z. lra.
    + apply nltb_Q_false in E2. simpl in *. unfold inject_Z in *. lra.
Qed.

Lemma clipped_component (c : exc Q) :
  0 <= try_except (bind c (fun x => ret (np_clip x (nofZ 0%Z) (nofZ 1%Z))))
                  (nofZ 0%Z) <= 1.
Proof.
  destruct c as [x|]; simpl.
  - apply np_clip_unit.
  - unfold inject_Z. lra.
Qed.

Lemma bind_assoc {A B C : Type} (c : exc A) (f : A -> exc B) (g : B -> exc C) :
  bind (bind c f) g = bind c (fun a => bind (f a) g).
Proof. destruct c; reflexivity. Qed.

Lemma reward_components_rational
    (cfg state action base_data : dict Q) :
  let t := _calculate_tracking_performance_reward cfg state action base_data in
  let e := _calculate_resource_efficiency_reward cfg state action base_data in
  let c := _calculate_mission_completion_reward cfg state action base_data in
  (0 <= t <= 1) /\ (0 <= e <= 1) /\ (0 <= c <= 1)
  /\ calculate_total_reward cfg state action base_data
     == (4 # 10) * t + (3 # 10) * e + (3 # 10) * c
        - _calculate_penalty_terms state action base_data.
Proof.
  intros t e c. repeat split.
  1,2: unfold t, _calculate_tracking_performance_reward;
       rewrite <- !bind_assoc; apply clipped_component.
  1,2: unfold e, _calculate_resource_efficiency_reward;
       rewrite <- !bind_assoc; apply clipped_component.
  1,2: unfold c, _calculate_mission_completion_reward;
       rewrite <- !bind_assoc; apply clipped_component.
  unfold calculate_total_reward, w_tracking_performance,
    w_resource_efficiency, w_mission_completion.
  fold t e c. rewrite !lit_Q. simpl. unfold inject_Z. lra.
Qed.

End RationalRewards.

Section Binary64.
Local Existing Instance FloatNumber.


Lemma SFcompare_positive_antisym (m m1 : positive) (e e1 : Z) :
  SFltb (S754_finite false m1 e1) (S754_finite false m e) = false ->
  SFleb (S754_finite false m e) (S754_finite false m1 e1) = true.
Proof.
  unfold SFltb, SFleb, SFcompare.
  rewrite (Z.compare_antisym e e1).
  replace (PosDef.Pos.compare_cont Eq m1 m)
    with (CompOpp (PosDef.Pos.compare_cont Eq m m1))
    by (apply (Pos.compare_cont_antisym m m1 Eq)).
  destruct (e ?= e1); cbn [CompOpp]; try congruence; try reflexivity.
  destruct (Pos.compare_cont Eq m m1); cbn [CompOpp]; congruence.
Qed.

Lemma Prim2SF_one : Prim2SF (nofZ 1) = S754_finite false 4503599627370496 (-52).
Proof. vm_compute. reflexivity. Qed.

Lemma Prim2SF_zero : Prim2SF (nofZ 0) = S754_zero false.
Proof. vm_compute. reflexivity. Qed.

Lemma np_clip_unit_or_nan (x : float) :
  unit_or_nan (np_clip x (nofZ 0) (nofZ 1)) = true.
Proof.
  unfold np_clip. cbn [nltb FloatNumber].
  rewrite (ltb_spec x (nofZ 0)), Prim2SF_zero.
  destruct (SFltb (Prim2SF x) (S754_zero false)) eqn:E0.
  - vm_compute. reflexivity.
  - rewrite (ltb_spec (nofZ 1) x), Prim2SF_one.
    destruct (SFltb (S754_finite false 4503599627370496 (-52)) (Prim2SF x)) eqn:E1.
    + vm_compute. reflexivity.
    + unfold unit_or_nan, PrimFloat.is_nan.
      rewrite eqb_spec, !leb_spec, Prim2SF_zero, Prim2SF_one.
      destruct (Prim2SF x) as [s|s| |s m e].
      * reflexivity.
      * destruct s; [discriminate E0|discriminate E1].
      * reflexivity.
      * destruct s; [discriminate E0|].
        rewrite (SFcompare_positive_antisym _ _ _ _ E1).
        unfold SFeqb, SFleb, SFcompare.
        rewrite Z.compare_refl.
        replace (PosDef.Pos.compare_cont Eq m m) with Eq
          by (symmetry; apply Pos.compare_cont_refl).
        reflexivity.
Qed.

Lemma clipped_component_float (c : exc float) :
  unit_or_nan (try_except (bind c (fun x => ret (np_clip x (nofZ 0) (nofZ 1))))
                          (nofZ 0)) = true.
Proof.
  destruct c as [x|]; cbn [try_except bind ret].
  - apply np_clip_unit_or_nan.
  - vm_compute. reflexivity.
Qed.

Lemma reward_components_binary64 (cfg state action base_data : dict float) :
  unit_or_nan (_calculate_tracking_performance_reward cfg state action base_data) = true
  /\ unit_or_nan (_calculate_resource_efficiency_reward cfg state action base_data) = true
  /\ unit_or_nan (_calculate_mission_completion_reward cfg state action base_data) = true.
Proof.
  repeat split.
  - unfold _calculate_tracking_performance_reward.
    rewrite <- !bind_assoc. apply clipped_component_float.
  - unfold _calculate_resource_efficiency_reward.
    rewrite <- !bind_assoc. apply clipped_component_float.
  - unfold _calculate_mission_completion_reward.
    rewrite <- !bind_assoc. apply clipped_component_float.
Qed.

Lemma total_reward_not_finite :
  nisfinite f1e308 = true
  /\ _calculate_penalty_terms [] overflowing_action [] = infinity
  /\ calculate_total_reward [] [] overflowing_action [] = neg_infinity
  /\ nisfinite (calculate_total_reward [] [] overflowing_action []) = false.
Proof. vm_compute. repeat split; reflexivity. Qed.

End Binary64.

(** C3 (amended). Each of the three components is clipped before it is
    weighted: in exact arithmetic it lies in [0,1] and the total reward is
    0.4 t + 0.3 e + 0.3 c - penalty; in binary64 it lies in [0,1] or is NaN.
    Nothing bounds the penalty, so the total reward need not be finite. *)
Theorem reward_components_are_clipped :
  (forall (sq : Q -> Q) (cfg state action base_data : dict Q),
     let t := _calculate_tracking_performance_reward (N:=QNumber sq)
                cfg state action base_data in
     let e := _calculate_resource_efficiency_reward (N:=QNumber sq)
                cfg state action base_data in
     let c := _calculate_mission_completion_reward (N:=QNumber sq)
                cfg state action base_data in
     (0 <= t <= 1)%Q /\ (0 <= e <= 1)%Q /\ (0 <= c <= 1)%Q
     /\ (calculate_total_reward (N:=QNumber sq) cfg state action base_data
         == (4 # 10) * t + (3 # 10) * e + (3 # 10) * c
            - _calculate_penalty_terms (N:=QNumber sq) state action base_data)%Q)
  /\ (forall cfg state action base_data : dict float,
       unit_or_nan (_calculate_tracking_performance_reward (N:=FloatNumber)
                      cfg state action base_data) = true
       /\ unit_or_nan (_calculate_resource_efficiency_reward (N:=FloatNumber)
                         cfg state action base_data) = true
       /\ unit_or_nan (_calculate_mission_completion_reward (N:=FloatNumber)
                         cfg state action base_data) = true).
Proof.
  split.
  - intros sq cfg state action base_data.
    apply (reward_components_rational sq cfg state action base_data).
  - apply reward_components_binary64.
Qed.

(** ** The data quality gate *)

Section GateFacts.
Context {T : Type} {N : Number T} {L : PyLib T}.

Lemma chars_length (s : string) : List.length (chars (T:=T) s) = String.length s.
Proof. induction s; simpl; congruence. Qed.

Lemma py_iter_len (v : value T) (l : list (value T)) :
  py_iter v = Some l -> py_len v = Some (Z.of_nat (List.length l)).
Proof.
  destruct v; simpl; intros H; inversion H; subst; try reflexivity.
  - now rewrite chars_length.
  - unfold keys. now rewrite !length_map.
Qed.

(** C6. While the rolling history holds fewer than 10 records the gate
    reports no anomaly, whatever the reward of the point. *)
Theorem no_anomalies_below_history_threshold
    (v : Validator) (dp : RLHFDataPoint) :
  (List.length (historical_data v) < 10)%nat ->
  anomalies (snd (validate_rlhf_data_point v dp)) = []
  /\ fst (_detect_anomalies v dp) = [].
Proof.
  intros H. apply Nat.ltb_lt in H.
  assert (D : fst (_detect_anomalies v dp) = []).
  { unfold _detect_anomalies. now rewrite H. }
  split; [|exact D].
  unfold validate_rlhf_data_point. cbn [snd anomalies].
  rewrite D. now destruct (rule_on (anomaly_detection v) "statistical_outliers").
Qed.

End GateFacts.

Section RationalGate.
Variable sq : Q -> Q.
Local Hint Extern 0 (Number Q) => exact (QNumber sq) : typeclass_instances.
Context {L : PyLib Q}.
Local Open Scope Q_scope.

Lemma Q_ratio_unit (a b : Z) :
  (0 <= a <= b)%Z -> 0 <= inject_Z a / inject_Z b <= 1.
Proof.
  intros [Ha Hab]. destruct (Z.eq_dec b 0) as [->|Hb].
  - assert (a = 0%Z) by lia. subst. vm_compute. split; discriminate.
  - assert (Hpos : 0 < inject_Z b).
    { change 0 with (inject_Z 0). rewrite <- Zlt_Qlt. lia. }
    split.
    + apply Qle_shift_div_l; [exact Hpos|]. rewrite Qmult_0_l.
      change 0 with (inject_Z 0). rewrite <- Zle_Qle. exact Ha.
    + apply Qle_shift_div_r; [exact Hpos|]. rewrite Qmult_1_l.
      rewrite <- Zle_Qle. exact Hab.
Qed.

Lemma ratio_or_one_unit (count : nat) (fields : value Q) (r : Q)
    (l : list (value Q)) :
  ratio_or_one count fields = Some r ->
  py_iter fields = Some l ->
  (count <= List.length l)%nat ->
  0 <= r <= 1.
Proof.
  unfold ratio_or_one. intros H Hl Hc.
  destruct (truthy fields).
  - rewrite (py_iter_len _ _ Hl) in H. cbn [bind ret] in H.
    inversion H; subst. apply Q_ratio_unit. lia.
  - inversion H; subst. vm_compute. split; discriminate.
Qed.

Lemma completeness_score_unit (v : Validator) (dp : RLHFDataPoint) :
  0 <= completeness_score (_check_data_completeness v dp) <= 1.
Proof.
  unfold _check_data_completeness.
  match goal with
  | |- context [try_except ?c ?h] => destruct c as [r|] eqn:E
  end; cbn [try_except].
  - step E. step E. step E. step E. step E. inversion E; subst. clear E.
    cbn [completeness_score].
    match goal with
    | H1 : ratio_or_one _ _ = Some ?a, H2 : ratio_or_one _ _ = Some ?b |- _ =>
        eapply ratio_or_one_unit in H1; [| eassumption | apply filter_length_le];
        eapply ratio_or_one_unit in H2; [| eassumption | apply filter_length_le]
    end.
    cbn [nadd nmul QNumber]. rewrite <- !Qmake_Qdiv. lra.
  - cbn [completeness_score]. vm_compute. split; discriminate.
Qed.

Lemma count_Q_nonneg {A : Type} (l : list A) : 0 <= count_Q l.
Proof.
  unfold count_Q. change 0 with (inject_Z 0). rewrite <- Zle_Qle. lia.
Qed.

(** In exact arithmetic the cap of the score at 1 never binds, because the
    completeness score lies in [0,1]. *)
Lemma validation_score_rational (v : Validator) (dp : RLHFDataPoint) :
  let r := snd (validate_rlhf_data_point v dp) in
  exists c,
    qm_completeness (quality_metrics r) = Some c
    /\ 0 <= completeness_score c <= 1
    /\ validation_score r
       == Qmax 0 ((1 - (3 # 10) * count_Q (errors r)
                     - (1 # 10) * count_Q (warnings r)
                     - (5 # 100) * count_Q (anomalies r))
                  * completeness_score c).
Proof.
  intros r. exists (_check_data_completeness v dp).
  split; [reflexivity|]. split; [apply completeness_score_unit|].
  unfold r, validate_rlhf_data_point.
  cbn [snd validation_score errors warnings anomalies].
  set (errs := (if is_complete _ then [] else _) ++ _).
  set (warns := (if check_ok _ then [] else _) ++ _).
  set (anoms := if rule_on _ _ then _ else _).
  unfold _calculate_quality_score.
  cbn [errors warnings anomalies quality_metrics qm_completeness].
  pose proof (completeness_score_unit v dp) as Hc.
  set (cs := completeness_score _) in *.
  unfold count. fold (count_Q errs) (count_Q warns) (count_Q anoms).
  pose proof (count_Q_nonneg errs) as He.
  pose proof (count_Q_nonneg warns) as Hw.
  pose proof (count_Q_nonneg anoms) as Ha.
  set (E := count_Q errs) in *. set (W := count_Q warns) in *.
  set (A := count_Q anoms) in *.
  set (s := nmul _ cs).
  assert (Hs : s == (1 - (3 # 10) * E - (1 # 10) * W - (5 # 100) * A) * cs).
  { unfold s, E, W, A, count_Q, count. cbn [nsub nmul nofZ QNumber].
    rewrite !lit_Q. unfold inject_Z. ring. }
  assert (Hle : s <= 1).
  { rewrite Hs. nra. }
  rewrite <- Hs.
  unfold pymax, pymin, ngtb.
  destruct (nltb s (nofZ 1%Z)) eqn:B1.
  - destruct (nltb (nofZ 0%Z) s) eqn:B2.
    + apply nltb_Q in B2. cbn [nofZ QNumber] in B2. unfold inject_Z in B2.
      rewrite Q.max_r by lra. reflexivity.
    + apply nltb_Q_false in B2. cbn [nofZ QNumber] in *.
      unfold inject_Z in *. rewrite Q.max_l by lra. reflexivity.
  - apply nltb_Q_false in B1. cbn [nofZ QNumber] in B1.
    unfold inject_Z in B1.
    match goal with
    | |- context [if ?b then _ else _] => change b with true
    end.
    cbn [nofZ QNumber]. unfold inject_Z.
    rewrite Q.max_r by lra. lra.
Qed.

End RationalGate.

Section Binary64Gate.
Local Existing Instance FloatNumber.
Context {L : PyLib float}.

Lemma float_ltb_leb (x y : float) :
  PrimFloat.ltb x y = true -> PrimFloat.leb x y = true.
Proof.
  rewrite ltb_spec, leb_spec. unfold SFltb, SFleb.
  destruct (SFcompare (Prim2SF x) (Prim2SF y)) as [[]|]; congruence.
Qed.

(** The only float that is at most 1 and not below 1 is 1. *)
Lemma float_not_below_one (s : float) :
  PrimFloat.ltb s (nofZ 1) = false -> PrimFloat.leb s (nofZ 1) = true ->
  s = nofZ 1.
Proof.
  rewrite ltb_spec, leb_spec, Prim2SF_one. intros Hlt Hle.
  apply Prim2SF_inj. rewrite Prim2SF_one.
  unfold SFltb in Hlt. unfold SFleb in Hle.
  destruct (Prim2SF s) as [sg|sg| |sg m e]; cbn [SFcompare] in Hlt, Hle.
  - destruct sg; discriminate.
  - destruct sg; discriminate.
  - discriminate.
  - destruct sg; [discriminate|].
    destruct (e ?= -52) eqn:Ce; try discriminate.
    apply Z.compare_eq in Ce. subst e.
    destruct (PosDef.Pos.compare_cont Eq m 4503599627370496) eqn:Cm;
      try discriminate.
    now rewrite (Pos.compare_eq m _ Cm).
Qed.

(** In binary64 the cap and the floor keep the score in [0,1], a NaN
    included, and the score is the floored product unless the product
    is above 1 or a NaN. *)
Lemma limited_score_binary64 (s : float) :
  let score := pymax (nofZ 0) (pymin (nofZ 1) s) in
  PrimFloat.leb (nofZ 0) score = true
  /\ PrimFloat.leb score (nofZ 1) = true
  /\ (score = pymax (nofZ 0) s \/ PrimFloat.leb s (nofZ 1) = false).
Proof.
  unfold pymax, pymin, ngtb. cbn [nltb FloatNumber].
  destruct (PrimFloat.ltb s (nofZ 1)) eqn:B1.
  - destruct (PrimFloat.ltb (nofZ 0) s) eqn:B2.
    + split; [now apply float_ltb_leb|]. split; [now apply float_ltb_leb|].
      now left.
    + split; [vm_compute; reflexivity|]. split; [vm_compute; reflexivity|].
      now left.
  - assert (O : PrimFloat.ltb (nofZ 0) (nofZ 1) = true)
      by (vm_compute; reflexivity).
    rewrite O.
    split; [vm_compute; reflexivity|]. split; [vm_compute; reflexivity|].
    destruct (PrimFloat.leb s (nofZ 1)) eqn:B3; [left|now right].
    rewrite (float_not_below_one s B1 B3), O. reflexivity.
Qed.

End Binary64Gate.

(** C4. The score of every result the gate returns is computed from the
    numbers of its errors, warnings and anomalies and from its completeness
    score: it starts at 1.0, is reduced by 0.3 per error, 0.1 per warning
    and 0.05 per anomaly, is multiplied by the completeness score, capped
    at 1 and floored at 0, with these operations in this order in any
    arithmetic.  In exact arithmetic the cap never binds and the score is
    max(0, (1 - 0.3 errors - 0.1 warnings - 0.05 anomalies) * completeness).
    In binary64 the score lies in [0,1], and it is the floored product
    unless the product is above 1 or a NaN. *)
Theorem validation_score_formula :
  (forall (T : Type) (N : Number T) (L : PyLib T)
          (v : @Validator T) (dp : @RLHFDataPoint T),
      let r := snd (validate_rlhf_data_point v dp) in
      exists c,
        qm_completeness (quality_metrics r) = Some c
        /\ c = _check_data_completeness v dp
        /\ validation_score r
           = pymax (nofZ 0)
               (pymin (nofZ 1)
                  (penalised_score (List.length (errors r))
                     (List.length (warnings r)) (List.length (anomalies r))
                     (completeness_score c))))
  /\ (forall (sq : Q -> Q) (L : PyLib Q)
             (v : @Validator Q) (dp : @RLHFDataPoint Q),
      let r := snd (validate_rlhf_data_point (N:=QNumber sq) v dp) in
      exists c,
        qm_completeness (quality_metrics r) = Some c
        /\ (0 <= completeness_score c <= 1)%Q
        /\ (validation_score r
            == Qmax 0 ((1 - (3 # 10) * count_Q (errors r)
                          - (1 # 10) * count_Q (warnings r)
                          - (5 # 100) * count_Q (anomalies r))
                       * completeness_score c))%Q
        /\ (validation_score r
            == spec_validation_score (N:=QNumber sq)
                 (List.length (errors r)) (List.length (warnings r))
                 (List.length (anomalies r)) (completeness_score c))%Q)
  /\ (forall (L : PyLib float)
             (v : @Validator float) (dp : @RLHFDataPoint float),
      let r := snd (validate_rlhf_data_point (N:=FloatNumber) v dp) in
      let s := penalised_score (N:=FloatNumber)
                 (List.length (errors r)) (List.length (warnings r))
                 (List.length (anomalies r))
                 (completeness_score
                    (_check_data_completeness (N:=FloatNumber) v dp)) in
      PrimFloat.leb 0 (validation_score r) = true
      /\ PrimFloat.leb (validation_score r) 1 = true
      /\ (validation_score r
          = spec_validation_score (N:=FloatNumber)
              (List.length (errors r)) (List.length (warnings r))
              (List.length (anomalies r))
              (completeness_score
                 (_check_data_completeness (N:=FloatNumber) v dp))
          \/ PrimFloat.leb s 1 = false)).
Proof.
  split; [|split].
  - intros T N L v dp r. exists (_check_data_completeness v dp).
    split; [reflexivity|]. split; reflexivity.
  - intros sq L v dp r.
    destruct (validation_score_rational sq v dp) as [c [H1 [H2 H3]]].
    exists c. split; [exact H1|]. split; [exact H2|]. split; [exact H3|].
    fold r in H3. rewrite H3.
    unfold spec_validation_score, penalised_score, pymax, ngtb.
    set (p := nmul _ (completeness_score c)).
    set (q := ((1 - (3 # 10) * count_Q (errors r)
                  - (1 # 10) * count_Q (warnings r)
                  - (5 # 100) * count_Q (anomalies r))
               * completeness_score c)%Q).
    assert (E : (p == q)%Q).
    { unfold p, q, count_Q. cbn [nsub nmul nofZ QNumber].
      rewrite !lit_Q. unfold inject_Z. ring. }
    destruct (nltb (nofZ 0%Z) p) eqn:B.
    + apply nltb_Q in B. cbn [nofZ QNumber] in B. unfold inject_Z in B.
      rewrite Q.max_r by (rewrite <- E; lra). symmetry. exact E.
    + apply nltb_Q_false in B. cbn [nofZ QNumber] in *. unfold inject_Z in *.
      rewrite Q.max_l by (rewrite <- E; lra). reflexivity.
  - intros L v dp r s.
    exact (limited_score_binary64 s).
Qed.

(** The same operations in binary64: with three errors and one warning the
    subtractions leave a rounding residue above 0 where exact arithmetic
    gives 0, and the cap and the floor leave it as it is. *)
Remark validation_score_binary64_residue :
  let s := spec_validation_score (N:=FloatNumber) 3 1 0 1%float in
  PrimFloat.ltb 0 s = true /\ PrimFloat.ltb s 0x1p-50%float = true
  /\ (spec_validation_score (N:=QN) 3 1 0 1 == 0)%Q.
Proof. vm_compute. repeat split; reflexivity. Qed.

Lemma no_anomalies_below_history_threshold_witness :
  anomalies (snd (validate_rlhf_data_point (N:=QN) (L:=QLib)
                    one_record_validator outlier_point)) = [].
Proof.
  apply (no_anomalies_below_history_threshold (N:=QN) (L:=QLib)
           one_record_validator outlier_point).
  simpl. lia.
Defined.

(** ** Episodes *)

Section EpisodeFacts.
Context {T : Type} {N : Number T} {L : PyLib T}.

Lemma update_average_statistics_episode (c : Collector) :
  current_episode (_update_average_statistics c) = current_episode c
  /\ validation_history (_update_average_statistics c) = validation_history c
  /\ total_data_points (collection_stats (_update_average_statistics c))
     = total_data_points (collection_stats c)
  /\ valid_data_points (collection_stats (_update_average_statistics c))
     = valid_data_points (collection_stats c)
  /\ invalid_data_points (collection_stats (_update_average_statistics c))
     = invalid_data_points (collection_stats c).
Proof. unfold _update_average_statistics. repeat split. Qed.

(** What a call that returns a data point does to the collector. *)
Lemma collect_returns_point (c c' : Collector) (w : World) (action : dict T)
    (execute : bool) (dp : RLHFDataPoint) :
  collect_rlhf_data_point c w action execute = (c', Some dp) ->
  exists dp0,
    build_data_point c w action execute = Some (Some dp0)
    /\ let r := snd (validate_rlhf_data_point (data_quality_validator c) dp0) in
       dp = with_validation dp0 r
       /\ current_episode c'
          = match current_episode c with
            | Some e => Some (append_point e dp)
            | None => None
            end
       /\ validation_history c' = validation_history c ++ [r]
       /\ total_data_points (collection_stats c')
          = total_data_points (collection_stats c) + 1
       /\ valid_data_points (collection_stats c')
          = (if is_valid r then valid_data_points (collection_stats c) + 1
             else valid_data_points (collection_stats c))
       /\ invalid_data_points (collection_stats c')
          = (if is_valid r then invalid_data_points (collection_stats c)
             else invalid_data_points (collection_stats c) + 1).
Proof.
  unfold collect_rlhf_data_point. intros H.
  destruct (build_data_point c w action execute) as [[dp0|]|] eqn:B;
    try discriminate H.
  exists dp0. split; [reflexivity|].
  destruct (validate_rlhf_data_point (data_quality_validator c) dp0)
    as [validator r] eqn:V.
  cbn [snd]. inversion H; subst. clear H.
  repeat split.
Qed.

(** What a call that returns no data point does to the open episode. *)
Lemma collect_returns_none (c c' : Collector) (w : World) (action : dict T)
    (execute : bool) :
  collect_rlhf_data_point c w action execute = (c', None) ->
  current_episode c' = current_episode c.
Proof.
  unfold collect_rlhf_data_point. intros H.
  destruct (build_data_point c w action execute) as [[dp0|]|] eqn:B.
  - destruct (validate_rlhf_data_point (data_quality_validator c) dp0).
    discriminate H.
  - inversion H; subst. reflexivity.
  - inversion H; subst. reflexivity.
Qed.

Lemma collect_all_episode (calls : list Call) :
  forall (c c2 : Collector) (e : Episode) (rs : list (option RLHFDataPoint)),
  current_episode c = Some e ->
  collect_all c calls = (c2, rs) ->
  exists e2,
    current_episode c2 = Some e2
    /\ data_points e2 = data_points e ++ collected rs
    /\ total_reward e2
       = fold_left nadd (map (@reward T) (collected rs)) (total_reward e).
Proof.
  induction calls as [|k calls IH]; intros c c2 e rs He H.
  - inversion H; subst. exists e. cbn [collected map fold_left].
    rewrite app_nil_r. auto.
  - cbn [collect_all] in H.
    destruct (collect_rlhf_data_point c (call_world k) (call_action k)
                (call_execute k)) as [c1 r] eqn:S.
    destruct (collect_all c1 calls) as [c2' rs'] eqn:R.
    inversion H; subst. clear H.
    destruct r as [dp|].
    + destruct (collect_returns_point _ _ _ _ _ _ S) as [dp0 [_ [_ [Hep _]]]].
      rewrite He in Hep.
      destruct (IH _ _ _ _ Hep R) as [e2 [H1 [H2 H3]]].
      exists e2. split; [exact H1|]. cbn [collected map fold_left].
      rewrite H2, H3. cbn [append_point data_points total_reward].
      rewrite <- app_assoc. auto.
    + pose proof (collect_returns_none _ _ _ _ _ S) as Hep. rewrite He in Hep.
      destruct (IH _ _ _ _ Hep R) as [e2 [H1 [H2 H3]]].
      exists e2. auto.
Qed.

(** C2. An open episode that goes through a sequence of calls of
    [collect_rlhf_data_point] and is then ended holds, after the points it
    had, exactly the data points the calls returned, in order, and its total
    reward is the rewards of those points added in sequence to the total it
    had.  For an episode that was empty with total 0.0 (as [start_episode]
    makes it) that is one point per successful call and the sum of their
    rewards. *)
Theorem episode_points_and_total_reward (c c2 : Collector) (e : Episode)
    (calls : list Call) (rs : list (option RLHFDataPoint)) (w : World)
    (success : bool) :
  current_episode c = Some e ->
  collect_all c calls = (c2, rs) ->
  exists ep,
    snd (end_episode c2 w success) = Some ep
    /\ data_points ep = data_points e ++ collected rs
    /\ total_reward ep
       = fold_left nadd (map (@reward T) (collected rs)) (total_reward e)
    /\ (data_points e = [] -> total_reward e = nofZ 0 ->
        data_points ep = collected rs
        /\ List.length (data_points ep) = List.length (collected rs)
        /\ total_reward ep = nsum (map (@reward T) (data_points ep))).
Proof.
  intros He H.
  destruct (collect_all_episode calls _ _ _ _ He H) as [e2 [H1 [H2 H3]]].
  unfold end_episode. rewrite H1. cbn [snd].
  eexists. split; [reflexivity|]. cbn [data_points total_reward].
  split; [exact H2|]. split; [exact H3|].
  intros Hnil Hzero. rewrite Hnil in H2. cbn [app] in H2.
  rewrite H2. split; [reflexivity|]. split; [reflexivity|].
  rewrite H3, Hzero. reflexivity.
Qed.

Lemma start_episode_opens_empty (c c1 : Collector) (w : World) (ty id : string)
    (params : dict T) :
  start_episode c w ty params = Some (c1, id) ->
  exists e, current_episode c1 = Some e /\ data_points e = []
            /\ total_reward e = nofZ 0 /\ episodes c1 = episodes c.
Proof.
  unfold start_episode. intros H. step H. inversion H; subst.
  eexists. repeat split.
Qed.

End EpisodeFacts.

Lemma episode_points_and_total_reward_witness :
  exists ep,
    snd (end_episode (fst demo_run) (demo_world 90) true) = Some ep
    /\ data_points ep = data_points demo_episode ++ collected (snd demo_run)
    /\ List.length (collected (snd demo_run)) = 3%nat.
Proof.
  destruct (episode_points_and_total_reward (N:=QN) (L:=QLib)
              (demo_open []) (fst demo_run) demo_episode demo_calls
              (snd demo_run) (demo_world 90) true)
    as [ep [H1 [H2 _]]].
  - reflexivity.
  - vm_compute. reflexivity.
  - exists ep. split; [exact H1|]. split; [exact H2|].
    vm_compute. reflexivity.
Defined.

Section KeepFacts.
Context {T : Type} {N : Number T} {L : PyLib T}.




(** C7 (amended). The collector has one slot for the open episode.
    [start_episode] does not look at it: when the constellation manager
    answers, the call returns an episode id whether or not an episode is
    open, the slot then holds a new empty episode, and an episode that was
    open is neither ended nor added to the completed episodes. *)
Theorem start_episode_replaces_open_episode (c : Collector) (w : World)
    (scenario_type : string) (scenario_params : dict T) (ci : value T) :
  get_constellation_info w = Some ci ->
  exists c' id e,
    start_episode c w scenario_type scenario_params = Some (c', id)
    /\ id = ("episode_" ++ now_strftime w ++ "_" ++ scenario_type)%string
    /\ current_episode c' = Some e
    /\ episode_id e = id
    /\ data_points e = [] /\ total_reward e = nofZ 0
    /\ episodes c' = episodes c
    /\ collection_stats c' = collection_stats c.
Proof.
  intros H. unfold start_episode. rewrite H. cbn [bind].
  eexists. eexists. eexists. split; [reflexivity|]. repeat split.
Qed.

End KeepFacts.



Lemma start_episode_replaces_open_episode_witness :
  exists c' id,
    start_episode (N:=QN) (demo_open []) (demo_world 30) "t2" [] = Some (c', id).
Proof.
  destruct (start_episode_replaces_open_episode (N:=QN) (demo_open [])
              (demo_world 30) "t2" [] (VDict []) eq_refl)
    as [c' [id [e [H _]]]].
  exists c', id. exact H.
Defined.

(** An episode is open, [start_episode] is called again: no error reaches
    the caller, and the open episode is gone. *)
Lemma second_start_episode_is_not_an_error :
  current_episode (demo_open []) <> None
  /\ start_episode (N:=QN) (demo_open []) (demo_world 30) "t2" [] <> None
  /\ (forall c' id,
        start_episode (N:=QN) (demo_open []) (demo_world 30) "t2" []
        = Some (c', id) ->
        episodes c' = []
        /\ current_episode c' <> current_episode (demo_open [])).
Proof.
  split; [vm_compute; discriminate|]. split; [vm_compute; discriminate|].
  intros c' id H. vm_compute in H. inversion H; subst.
  split; [reflexivity|]. vm_compute. discriminate.
Qed.

(** ** Evaluation scenarios and the expert policy *)

Module ScenarioFacts.
Import ScenarioGenerator.

Section Facts.
Variable Sampled : Type.
Variable draw : Z -> string -> string -> Sampled.

Lemma full_room (n : Z) (st : gen_state Sampled) :
  full n st = true <-> room n st = O.
Proof.
  unfold full, room. rewrite Z.leb_le. lia.
Qed.

Lemma kinds_length (st : gen_state Sampled) :
  List.length (kinds st) = List.length (fst st).
Proof. unfold kinds. apply length_map. Qed.

Lemma repeat_loop_kinds (k : nat) (n : Z) (t d : string) :
  forall st,
    kinds (repeat_loop draw k n t d st)
    = kinds st ++ firstn (room n st) (repeat (d, t) k).
Proof.
  induction k as [|k IH]; intros st; cbn [repeat_loop repeat].
  - rewrite firstn_nil. now rewrite app_nil_r.
  - destruct (full n st) eqn:F.
    + apply full_room in F. rewrite F. cbn [firstn]. now rewrite app_nil_r.
    + assert (R : room n st <> O) by (rewrite <- full_room; congruence).
      rewrite IH. unfold kinds at 1. cbn [fst]. rewrite map_app. cbn [map].
      fold (kinds st).
      destruct (room n st) as [|m] eqn:Rm; [congruence|].
      cbn [firstn]. rewrite <- app_assoc. cbn [app].
      replace (room n (fst st ++ [_generate_single_scenario draw (snd st)
                 "eval_scenario_" t d], snd st + 1)) with m.
      * reflexivity.
      * unfold room in *. cbn [fst]. rewrite length_app. cbn [List.length]. lia.
Qed.

Lemma room_after (n : Z) (st st' : gen_state Sampled) (items : list (string * string)%type) :
  kinds st' = kinds st ++ firstn (room n st) items ->
  room n st' = (room n st - List.length items)%nat.
Proof.
  intros H. apply (f_equal (@List.length (string * string)%type)) in H.
  rewrite length_app, length_firstn, !kinds_length in H.
  unfold room in *. lia.
Qed.

Lemma firstn_app_room (m : nat) (a b : list (string * string)%type) :
  firstn m (a ++ b) = firstn m a ++ firstn (m - List.length a) b.
Proof. apply firstn_app. Qed.

Lemma types_loop_kinds (types : list string) (per : nat) (n : Z) (d : string) :
  forall st,
    kinds (types_loop draw types per n d st)
    = kinds st
      ++ firstn (room n st) (flat_map (fun t => repeat (d, t) per) types).
Proof.
  induction types as [|t types IH]; intros st; cbn [types_loop flat_map].
  - rewrite firstn_nil. now rewrite app_nil_r.
  - pose proof (repeat_loop_kinds per n t d st) as K.
    pose proof (room_after n st _ _ K) as R.
    rewrite firstn_app_room, app_assoc, <- K.
    destruct (full n (repeat_loop draw per n t d st)) eqn:F.
    + apply full_room in F. rewrite <- R, F. cbn [firstn].
      now rewrite app_nil_r.
    + rewrite IH, R. reflexivity.
Qed.

Lemma difficulties_loop_kinds (levels : list string) (per : nat) (n : Z) :
  forall st,
    kinds (difficulties_loop draw levels per n st)
    = kinds st
      ++ firstn (room n st)
           (flat_map (fun d => flat_map (fun t => repeat (d, t) per)
                                        scenario_types) levels).
Proof.
  induction levels as [|d levels IH]; intros st;
    cbn [difficulties_loop flat_map].
  - rewrite firstn_nil. now rewrite app_nil_r.
  - pose proof (types_loop_kinds scenario_types per n d st) as K.
    pose proof (room_after n st _ _ K) as R.
    rewrite firstn_app_room, app_assoc, <- K.
    destruct (full n (types_loop draw scenario_types per n d st)) eqn:F.
    + apply full_room in F. rewrite <- R, F. cbn [firstn].
      now rewrite app_nil_r.
    + rewrite IH, R. reflexivity.
Qed.

Lemma generated_kinds (n : Z) :
  map kind_of_scenario (generate_evaluation_scenarios draw n)
  = firstn (Z.to_nat n) (plan (Z.to_nat (scenarios_per_combination n))).
Proof.
  unfold generate_evaluation_scenarios.
  pose proof (difficulties_loop_kinds difficulty_levels
                (Z.to_nat (scenarios_per_combination n)) n ([], 1)) as K.
  unfold kinds in K. cbn [fst map app] in K. rewrite K.
  unfold room. cbn [fst List.length]. now rewrite Nat.sub_0_r.
Qed.

Lemma plan_length (per : nat) : List.length (plan per) = (16 * per)%nat.
Proof.
  unfold plan, difficulty_levels, scenario_types. cbn [flat_map].
  rewrite !length_app, !repeat_length. cbn [List.length]. lia.
Qed.

Lemma plan_covers (per : nat) (d t : string) :
  per <> O -> In d difficulty_levels -> In t scenario_types ->
  In (d, t) (plan per).
Proof.
  intros Hper Hd Ht. unfold plan. apply in_flat_map. exists d. split; [exact Hd|].
  apply in_flat_map. exists t. split; [exact Ht|].
  destruct per; [congruence|]. now left.
Qed.

Lemma covers_In (l : list (ScenarioConfig Sampled)) (d t : string) :
  covers l d t = true <-> In (d, t) (map kind_of_scenario l).
Proof.
  unfold covers. rewrite existsb_exists, in_map_iff. split.
  - intros [s [Hs H]]. apply andb_true_iff in H. destruct H as [H1 H2].
    apply String.eqb_eq in H1, H2. exists s. unfold kind_of_scenario.
    split; [congruence|exact Hs].
  - intros [s [H Hs]]. exists s. split; [exact Hs|].
    unfold kind_of_scenario in H. inversion H; subst.
    now rewrite !String.eqb_refl.
Qed.

(** C8 (amended). The combinations come out in blocks, difficulty by
    difficulty and type by type, [max(1, n // 16)] scenarios each, until
    [n] scenarios exist.  With [n >= 16] every one of the 16 combinations
    is in the list and the list has [16 * (n // 16)] scenarios; with
    [0 <= n < 16] the list has the first [n] combinations, once each. *)
Theorem evaluation_scenarios_cover_in_blocks (n : Z) :
  map kind_of_scenario (generate_evaluation_scenarios draw n)
  = firstn (Z.to_nat n) (plan (Z.to_nat (scenarios_per_combination n)))
  /\ (16 <= n ->
      List.length (generate_evaluation_scenarios draw n)
      = Z.to_nat (16 * (n / 16))
      /\ forall d t, In d difficulty_levels -> In t scenario_types ->
           covers (generate_evaluation_scenarios draw n) d t = true)
  /\ (0 <= n < 16 ->
      map kind_of_scenario (generate_evaluation_scenarios draw n)
      = firstn (Z.to_nat n) (plan 1)).
Proof.
  split; [apply generated_kinds|]. split.
  - intros Hn.
    assert (Hper : scenarios_per_combination n = n / 16).
    { unfold scenarios_per_combination. cbn [difficulty_levels scenario_types
        List.length]. change (Z.of_nat 4 * Z.of_nat 4) with 16.
      assert (1 <= n / 16) by (apply Z.div_le_lower_bound; lia). lia. }
    assert (Hq : 1 <= n / 16) by (apply Z.div_le_lower_bound; lia).
    assert (Hm : 16 * (n / 16) <= n) by (apply Z.mul_div_le; lia).
    assert (Hall : map kind_of_scenario (generate_evaluation_scenarios draw n)
                   = plan (Z.to_nat (n / 16))).
    { rewrite generated_kinds, Hper. apply firstn_all2.
      rewrite plan_length. lia. }
    split.
    + rewrite <- (length_map kind_of_scenario), Hall, plan_length. lia.
    + intros d t Hd Ht. apply covers_In. rewrite Hall.
      apply plan_covers; [lia|exact Hd|exact Ht].
  - intros Hn. rewrite generated_kinds.
    assert (Hper : scenarios_per_combination n = 1).
    { unfold scenarios_per_combination. cbn [difficulty_levels scenario_types
        List.length]. change (Z.of_nat 4 * Z.of_nat 4) with 16.
      rewrite Z.div_small by lia. reflexivity. }
    now rewrite Hper.
Qed.

End Facts.

Lemma evaluation_scenarios_cover_in_blocks_witness :
  covers (generate_evaluation_scenarios (fun _ _ _ => tt) 20)
         "extreme" "evasive_targets" = true.
Proof.
  apply (proj2 (proj1 (proj2 (evaluation_scenarios_cover_in_blocks unit
                                (fun _ _ _ => tt) 20)) ltac:(lia))).
  - cbn. tauto.
  - cbn. tauto.
Defined.

(** One scenario is asked for: one combination comes out. *)
Lemma one_evaluation_scenario_covers_one_combination :
  (1 <= 1)%Z
  /\ covers (generate_evaluation_scenarios (fun _ _ _ => tt) 1)
            "extreme" "evasive_targets" = false
  /\ map (@kind_of_scenario unit)
         (generate_evaluation_scenarios (fun _ _ _ => tt) 1)
     = [("easy", "single_threat")].
Proof. split; [lia|]. split; vm_compute; reflexivity. Qed.

End ScenarioFacts.

Module PolicyFacts.
Import ExpertPolicy.

Section Facts.
Context {T : Type} {N : Number T}.

Lemma insert_sorted_last {A : Type} (ltb : A -> A -> bool) (x : A) (l : list A) :
  (forall y, In y l -> ltb x y = false) ->
  insert_sorted ltb x l = l ++ [x].
Proof.
  induction l as [|y l IH]; intros H; cbn [insert_sorted app].
  - reflexivity.
  - rewrite (H y (or_introl eq_refl)). f_equal. apply IH.
    intros z Hz. apply H. now right.
Qed.

Lemma sort_by_keeps_order {A : Type} (ltb : A -> A -> bool) (l : list A) :
  (forall x y, In x l -> In y l -> ltb x y = false) ->
  sort_by ltb l = l.
Proof.
  unfold sort_by. intros H.
  assert (G : forall l2 acc, (forall x y, In x (acc ++ l2) -> In y (acc ++ l2) ->
                                 ltb x y = false) ->
              fold_left (fun acc x => insert_sorted ltb x acc) l2 acc = acc ++ l2).
  { induction l2 as [|x l2 IH]; intros acc Hacc; cbn [fold_left].
    - now rewrite app_nil_r.
    - rewrite insert_sorted_last.
      + rewrite IH; rewrite <- app_assoc; [reflexivity|exact Hacc].
      + intros y Hy. apply Hacc; apply in_or_app; [right; now left|now left]. }
  apply (G l []). exact H.
Qed.

Lemma priorities_are_two (state : dict T) (items : list (value T)) :
  forall scores,
    mapM (fun missile => _get_missile_priority missile state) items = Some scores ->
    scores = repeat 2 (List.length items).
Proof.
  induction items as [|m items IH]; intros scores H; cbn [mapM] in H.
  - inversion H. reflexivity.
  - destruct (_get_missile_priority m state) as [p|] eqn:P; [|discriminate].
    destruct (mapM _ items) as [ps|] eqn:M; [|discriminate].
    inversion H; subst. cbn [List.length repeat].
    unfold _get_missile_priority in P. step P. inversion P; subst.
    f_equal. now apply IH.
Qed.

Lemma map_snd_combine_repeat {A B : Type} (a : A) (l : list B) :
  map snd (combine (repeat a (List.length l)) l) = l.
Proof. induction l; cbn; congruence. Qed.

Lemma In_combine_repeat {A B : Type} (a : A) (l : list B) (p : A * B) :
  In p (combine (repeat a (List.length l)) l) -> fst p = a.
Proof.
  induction l as [|b l IH]; cbn; [tauto|].
  intros [<-|H]; [reflexivity|auto].
Qed.

(** X26. The priority of a missile is 2 whatever its threat level is, and
    sorting by it leaves the missiles in the order they came in. *)
Theorem priority_is_constant (missiles : value T) (state : dict T) :
  (forall missile p, _get_missile_priority missile state = Some p -> p = 2)
  /\ (forall sorted, _sort_missiles_by_threat missiles state = Some sorted ->
        py_iter missiles = Some sorted).
Proof.
  split.
  - intros missile p H. unfold _get_missile_priority in H. step H.
    now inversion H.
  - intros sorted H. unfold _sort_missiles_by_threat in H. step H. step H.
    inversion H; subst. clear H.
    rewrite (priorities_are_two _ _ _ E0).
    rewrite sort_by_keeps_order.
    + now rewrite map_snd_combine_repeat.
    + intros x y Hx Hy. apply In_combine_repeat in Hx, Hy.
      rewrite Hx, Hy. reflexivity.
Qed.

End Facts.

(** C9, at a failing input: a low threat listed before a critical one
    stays before it and both get priority 2. *)
Lemma critical_threat_is_not_ranked_first :
  threat_level_of low_missile = Some (VInt 1)
  /\ threat_level_of critical_missile = Some (VInt 4)
  /\ _get_missile_priority low_missile [("missile_threat_levels", VList [VInt 1; VInt 4])] = Some 2
  /\ _get_missile_priority critical_missile [("missile_threat_levels", VList [VInt 1; VInt 4])] = Some 2
  /\ _sort_missiles_by_threat (VList [low_missile; critical_missile])
       [("missile_threat_levels", VList [VInt 1; VInt 4])]
     = Some [low_missile; critical_missile].
Proof. repeat split; vm_compute; reflexivity. Qed.

End PolicyFacts.

(** ** Shape of the visibility matrix and of the state *)

Section MatrixFacts.
Context {T : Type} {N : Number T}.

Lemma list_set_Forall {A : Type} (P : A -> Prop) (i : nat) (a : A) (l : list A) :
  P a -> Forall P l -> Forall P (list_set i a l).
Proof.
  intros Ha H. revert i. induction H as [|x l Hx Hl IH]; intros [|i];
    cbn [list_set]; constructor; auto.
Qed.

Lemma matrix_set_binary (rows cols i j : nat) (b : Z) (m : matrix) :
  b = 0 \/ b = 1 ->
  binary_matrix rows cols m -> binary_matrix rows cols (matrix_set i j b m).
Proof.
  intros Hb [Hlen Hrows]. split; [now rewrite matrix_set_length|].
  unfold matrix_set. destruct (nth_error m i) as [row|] eqn:E; [|exact Hrows].
  apply list_set_Forall; [|exact Hrows].
  apply nth_error_In in E. rewrite Forall_forall in Hrows.
  destruct (Hrows _ E) as [Hl Hr]. split.
  - now rewrite list_set_length.
  - now apply list_set_Forall.
Qed.

Lemma zero_matrix_binary (rows cols : nat) :
  binary_matrix rows cols (repeat (repeat 0 cols) rows).
Proof.
  split; [apply repeat_length|]. apply Forall_forall. intros row Hr.
  apply repeat_spec in Hr. subst. split; [apply repeat_length|].
  apply Forall_forall. intros z Hz. apply repeat_spec in Hz. now left.
Qed.

(** X1. The visibility matrix is empty when there are no satellites or no
    missiles; otherwise it has one row per satellite and one column per
    missile and holds only 0 and 1, whatever the visibility records say. *)
Theorem visibility_matrix_shape (vis : value T) (ns nm : Z) (m : matrix) :
  _create_visibility_matrix vis ns nm = Some m ->
  if (ns =? 0) || (nm =? 0) then m = []
  else binary_matrix (Z.to_nat ns) (Z.to_nat nm) m.
Proof.
  unfold _create_visibility_matrix. intros H.
  destruct ((ns =? 0) || (nm =? 0)).
  - now inversion H.
  - repeat step H.
    refine (foldM_invariant (binary_matrix (Z.to_nat ns) (Z.to_nat nm))
              _ _ _ _ _ _ H).
    + clear. intros s a s' Hs H. repeat step H.
      destruct p as [sat_id missile_id]. repeat step H.
      destruct b0.
      * destruct (index_of sat_id l0), (index_of missile_id l1);
          try (inversion H; subst; exact Hs).
        destruct ((Z.of_nat n <? ns) && (Z.of_nat n0 <? nm));
          inversion H; subst; [|exact Hs].
        apply matrix_set_binary; [|exact Hs].
        destruct (truthy v); auto.
      * inversion H; subst. exact Hs.
    + apply zero_matrix_binary.
Qed.

Lemma zsum_shift (l : list Z) (a : Z) : fold_left Z.add l a = a + zsum l.
Proof.
  unfold zsum. revert a. induction l as [|x l IH]; intros a; cbn [fold_left].
  - lia.
  - rewrite IH, (IH (0 + x)). lia.
Qed.

Lemma zsum_cons (x : Z) (l : list Z) : zsum (x :: l) = x + zsum l.
Proof. unfold zsum at 1. cbn [fold_left]. rewrite zsum_shift. lia. Qed.

Lemma binary_row_sum (cols : nat) (row : list Z) :
  binary_row cols row -> 0 <= zsum row <= Z.of_nat cols.
Proof.
  intros [Hl Hr]. subst cols. induction Hr as [|z row Hz Hr IH].
  - cbn. lia.
  - rewrite zsum_cons. cbn [List.length]. lia.
Qed.

Lemma binary_matrix_sum (rows cols : nat) (m : matrix) :
  binary_matrix rows cols m ->
  0 <= covered_pairs m <= Z.of_nat rows * Z.of_nat cols.
Proof.
  intros [Hl Hr]. subst rows. unfold covered_pairs.
  induction Hr as [|row m Hrow Hr IH].
  - cbn. lia.
  - cbn [map List.length]. rewrite zsum_cons.
    pose proof (binary_row_sum _ _ Hrow). lia.
Qed.

End MatrixFacts.

Section CoverageRatio.
Context {T : Type} {N : Number T} {L : PyLib T}.






End CoverageRatio.


Section RationalCoverage.
Variable sq : Q -> Q.
Local Hint Extern 0 (Number Q) => exact (QNumber sq) : typeclass_instances.

(** X2. In exact arithmetic the coverage ratio that
    [_extract_visibility_states] stores lies in [0,1]. *)
Theorem coverage_ratio_in_unit_interval (vis : value Q) (ns nm : Z)
    (st : dict Q) :
  0 <= ns -> 0 <= nm ->
  _extract_visibility_states vis ns nm = Some st ->
  exists x, lookup "coverage_ratio" st = Some (VFloat x) /\ (0 <= x <= 1)%Q.
Proof.
  intros Hns Hnm H. unfold _extract_visibility_states in H. step H.
  pose proof (visibility_matrix_shape _ _ _ _ E) as S.
  destruct m as [|row0 m].
  - inversion H; subst. eexists. split; [reflexivity|].
    cbn. unfold inject_Z. lra.
  - inversion H; subst. clear H. eexists. split; [reflexivity|].
    destruct ((ns =? 0) || (nm =? 0)) eqn:Z0; [discriminate S|].
    apply binary_matrix_sum in S.
    destruct (0 <? ns * nm) eqn:P.
    + cbn [ndiv nofZ QNumber]. apply Q_ratio_unit. lia.
    + cbn. unfold inject_Z. lra.
Qed.

End RationalCoverage.

Section CoverageCounts.
Context {T : Type} {N : Number T}.

Lemma zsum_map_add {A : Type} (f g : A -> Z) (l : list A) :
  zsum (map (fun a => f a + g a) l) = zsum (map f l) + zsum (map g l).
Proof.
  induction l as [|a l IH]; [reflexivity|].
  cbn [map]. rewrite !zsum_cons, IH. lia.
Qed.

Lemma zsum_map_zero {A : Type} (l : list A) : zsum (map (fun _ => 0) l) = 0.
Proof.
  induction l as [|a l IH]; [reflexivity|].
  cbn [map]. rewrite zsum_cons, IH. lia.
Qed.

Lemma map_nth_seq (row : list Z) :
  map (fun j => nth j row 0) (seq 0 (List.length row)) = row.
Proof.
  induction row as [|x row IH]; [reflexivity|].
  cbn [List.length seq map nth]. f_equal.
  rewrite <- seq_shift, map_map. exact IH.
Qed.

Lemma column_sums (cols : nat) (m : matrix) :
  Forall (fun row => List.length row = cols) m ->
  zsum (map (fun j => zsum (map (fun row => nth j row 0) m)) (seq 0 cols))
  = zsum (map zsum m).
Proof.
  induction 1 as [|row m Hrow Hm IH].
  - cbn [map]. rewrite zsum_map_zero. reflexivity.
  - cbn [map].
    rewrite (map_ext _ (fun j => nth j row 0
                                 + zsum (map (fun r => nth j r 0) m)))
      by (intros j; apply zsum_cons).
    rewrite zsum_map_add, IH, zsum_cons. f_equal.
    rewrite <- Hrow. now rewrite map_nth_seq.
Qed.

(** X3. The per-satellite and the per-missile coverage counts of the extracted
    state add up to the same number, the number of visible pairs in the
    matrix. *)
Theorem coverage_counts_agree (vis : value T) (ns nm : Z) (st : dict T) :
  _extract_visibility_states vis ns nm = Some st ->
  exists m per_satellite per_missile,
    lookup "visibility_matrix" st = Some (matrix_value m)
    /\ lookup "satellite_coverage_counts" st = Some (ints_value per_satellite)
    /\ lookup "missile_coverage_counts" st = Some (ints_value per_missile)
    /\ zsum per_satellite = covered_pairs m
    /\ zsum per_missile = covered_pairs m.
Proof.
  intros H. unfold _extract_visibility_states in H. step H.
  pose proof (visibility_matrix_shape _ _ _ _ E) as S.
  destruct m as [|row0 m].
  - inversion H; subst. exists [], [], []. repeat split.
  - destruct ((ns =? 0) || (nm =? 0)); [discriminate S|].
    destruct S as [_ S].
    inversion H; subst. clear H.
    eexists (row0 :: m), _, _.
    split; [reflexivity|]. split; [reflexivity|]. split; [reflexivity|].
    split; [reflexivity|].
    assert (R : Forall (fun row => List.length row = List.length row0)
                       (row0 :: m)).
    { inversion S as [|? ? [L0 _] _]; subst.
      eapply Forall_impl; [|exact S]. intros row [Lr _]. now rewrite Lr. }
    destruct (0 <? Z.of_nat (List.length row0)) eqn:P.
    + exact (column_sums (List.length row0) (row0 :: m) R).
    + apply Z.ltb_ge in P.
      assert (Z0 : Forall (fun row : list Z => row = []) (row0 :: m)).
      { eapply Forall_impl; [|exact R]. intros row Hr.
        destruct row; [reflexivity|]. cbn [List.length] in Hr. lia. }
      unfold covered_pairs. clear - Z0.
      induction Z0 as [|row rest -> _ IH]; [reflexivity|].
      cbn [map]. rewrite zsum_cons, <- IH. reflexivity.
Qed.

Lemma lower_ascii_idempotent (c : ascii) :
  lower_ascii (lower_ascii c) = lower_ascii c.
Proof. destruct c as [[] [] [] [] [] [] [] []]; reflexivity. Qed.

Lemma lower_idempotent (s : string) : lower (lower s) = lower s.
Proof.
  induction s as [|c s IH]; [reflexivity|].
  cbn [lower]. now rewrite lower_ascii_idempotent, IH.
Qed.

(** X4. The threat-level and flight-phase codes of a string are integers from
    0 to 4 and do not depend on the case of its letters; anything that is
    not a string raises. *)
Theorem codes_ignore_case (s : string) :
  (exists z, _encode_threat_level (VStr s) = Some (VInt (T:=T) z) /\ 0 <= z <= 4)
  /\ _encode_threat_level (VStr (lower s)) = _encode_threat_level (VStr (T:=T) s)
  /\ (exists z, _encode_flight_phase (VStr s) = Some (VInt (T:=T) z) /\ 0 <= z <= 4)
  /\ _encode_flight_phase (VStr (lower s)) = _encode_flight_phase (VStr (T:=T) s)
  /\ (forall v : value T, (forall s', v <> VStr s') ->
        _encode_threat_level v = None /\ _encode_flight_phase v = None).
Proof.
  unfold _encode_threat_level, _encode_flight_phase.
  rewrite lower_idempotent. cbn [ret].
  split; [|split; [reflexivity|split; [|split; [reflexivity|]]]].
  - eexists. split; [reflexivity|].
    repeat match goal with
           | |- context [if ?b then _ else _] => destruct b
           end; lia.
  - eexists. split; [reflexivity|].
    repeat match goal with
           | |- context [if ?b then _ else _] => destruct b
           end; lia.
  - intros v Hv. destruct v; try (split; reflexivity).
    exfalso. eapply Hv. reflexivity.
Qed.

End CoverageCounts.

Section AlignmentFacts.
Context {T : Type} {N : Number T}.
Variable state_space_config : dict T.

Lemma mapM_length {A B : Type} (f : A -> exc B) (l : list A) :
  forall r, mapM f l = Some r -> List.length r = List.length l.
Proof.
  induction l as [|a l IH]; intros r H; cbn [mapM] in H.
  - inversion H. reflexivity.
  - destruct (f a); [|discriminate]. cbn [bind] in H.
    destruct (mapM f l) as [r'|]; [|discriminate]. cbn [bind ret] in H.
    inversion H; subst. cbn [List.length]. f_equal. now apply IH.
Qed.

Lemma per_item_length (items : value T) (f : value T -> exc (value T))
    (l : list (value T)) (v : value T) :
  py_iter items = Some l -> per_item items f = Some v ->
  list_of_length (List.length l) v.
Proof.
  unfold per_item. intros Hl H. rewrite Hl in H. cbn [bind] in H.
  destruct (mapM f l) as [r|] eqn:M; [|discriminate]. cbn [bind ret] in H.
  inversion H; subst. exists r. split; [reflexivity|].
  eapply mapM_length. exact M.
Qed.

Lemma when_enabled_all (P : value T -> Prop) (group name key : string)
    (body : exc (value T)) (st st' : dict T) :
  (forall v, body = Some v -> P v) ->
  (forall k v, lookup k st = Some v -> P v) ->
  when_enabled state_space_config group name key body st = Some st' ->
  forall k v, lookup k st' = Some v -> P v.
Proof.
  unfold when_enabled. intros Hb Hst H k v Hk.
  destruct (enabled state_space_config group name) as [[|]|];
    cbn [bind] in H; try discriminate H.
  - destruct body as [b|]; [|discriminate H]. cbn [bind ret] in H.
    inversion H; subst. rewrite lookup_dict_set in Hk.
    destruct (String.eqb k key).
    + inversion Hk; subst. now apply Hb.
    + eauto.
  - inversion H; subst. eauto.
Qed.

Lemma empty_lists_all (d : dict T) :
  Forall (fun kv => snd kv = VList []) d ->
  forall k v, lookup k d = Some v -> list_of_length 0 v.
Proof.
  induction 1 as [|[k0 v0] d H0 Hd IH]; intros k v Hk; cbn [lookup] in Hk.
  - discriminate.
  - destruct (String.eqb k k0).
    + inversion Hk; subst. cbn [snd] in H0. exists []. now split.
    + eauto.
Qed.

Ltac chain H :=
  repeat match type of H with
         | bind (when_enabled _ _ _ _ _ ?st) _ = Some _ =>
             let E := fresh "E" in
             destruct (when_enabled _ _ _ _ _ st) eqn:E;
             [cbn [bind] in H|discriminate H]
         end.

(** X5. Every list of per-satellite features in the extracted satellite state
    has one entry per satellite of the snapshot, and every list of
    per-missile features one entry per missile, whatever features the
    configuration enables. *)
Theorem features_are_aligned (objects : value T) (items : list (value T))
    (st : dict T) :
  py_iter objects = Some items ->
  (_extract_satellite_states state_space_config objects = Some st ->
   forall k v, lookup k st = Some v -> list_of_length (List.length items) v)
  /\ (_extract_missile_states state_space_config objects = Some st ->
      forall k v, lookup k st = Some v -> list_of_length (List.length items) v).
Proof.
  intros Hit.
  assert (Z0 : truthy objects = false -> items = []).
  { destruct objects as [| b | z | x | s | l | d];
      cbn [py_iter truthy ret] in Hit |- *; try discriminate Hit;
      injection Hit as <-.
    - destruct s; [reflexivity|]. cbn. discriminate.
    - destruct l; [reflexivity|discriminate].
    - destruct d; [reflexivity|discriminate]. }
  split.
  - unfold _extract_satellite_states.
    destruct (truthy objects) eqn:Tr; cbn [negb].
    + intros H. chain H. inversion H; subst. clear H.
      repeat match goal with
             | W : when_enabled _ _ _ _ _ _ = Some ?s |- forall k v, lookup k ?s = Some v -> _ =>
                 refine (when_enabled_all _ _ _ _ _ _ _ _ _ W);
                 [intros ? B; exact (per_item_length _ _ _ _ Hit B)|]
             end.
      intros k v Hk. discriminate Hk.
    + intros H. inversion H; subst. rewrite (Z0 eq_refl).
      apply empty_lists_all. unfold _get_empty_satellite_state.
      repeat constructor.
  - unfold _extract_missile_states.
    destruct (truthy objects) eqn:Tr; cbn [negb].
    + intros H. chain H. inversion H; subst. clear H.
      repeat match goal with
             | W : when_enabled _ _ _ _ _ _ = Some ?s |- forall k v, lookup k ?s = Some v -> _ =>
                 refine (when_enabled_all _ _ _ _ _ _ _ _ _ W);
                 [intros ? B; exact (per_item_length _ _ _ _ Hit B)|]
             end.
      intros k v Hk. discriminate Hk.
    + intros H. inversion H; subst. rewrite (Z0 eq_refl).
      apply empty_lists_all. unfold _get_empty_missile_state.
      repeat constructor.
Qed.

Lemma when_enabled_other (group name key : string) (body : exc (value T))
    (st st' : dict T) (k : string) :
  String.eqb k key = false ->
  when_enabled state_space_config group name key body st = Some st' ->
  lookup k st' = lookup k st.
Proof.
  unfold when_enabled. intros Hk H.
  destruct (enabled state_space_config group name) as [[|]|];
    cbn [bind] in H; try discriminate H.
  - destruct body as [b|]; [|discriminate H]. cbn [bind ret] in H.
    inversion H; subst. rewrite lookup_dict_set. now rewrite Hk.
  - now inversion H.
Qed.

(** X6. The mission state counts what the snapshot lists: [active_satellites]
    and [active_missiles] are the lengths of the two lists, and
    [mission_progress] is the snapshot's simulation progress (0.0 when it
    has none). *)
Theorem mission_counts_match_snapshot (base_data : dict T)
    (satellites missiles : value T) (st : dict T) :
  _extract_mission_states state_space_config base_data satellites missiles
    = Some st ->
  exists n_sat n_mis,
    py_len satellites = Some n_sat
    /\ py_len missiles = Some n_mis
    /\ lookup "active_satellites" st = Some (VInt n_sat)
    /\ lookup "active_missiles" st = Some (VInt n_mis)
    /\ lookup "mission_progress" st
       = Some (get "simulation_progress" F0 base_data).
Proof.
  unfold _extract_mission_states. intros H.
  destruct (py_len satellites) as [n_sat|]; [|discriminate H].
  destruct (py_len missiles) as [n_mis|]; [|discriminate H].
  cbn [bind] in H. chain H. inversion H; subst. clear H.
  exists n_sat, n_mis. split; [reflexivity|]. split; [reflexivity|].
  repeat split;
    repeat match goal with
           | W : when_enabled _ _ _ _ _ _ = Some ?s |- lookup ?k ?s = _ =>
               let X := fresh "X" in
               pose proof (fun Hk => when_enabled_other _ _ _ _ _ _ k Hk W) as X;
               rewrite X by reflexivity; clear X
           end; reflexivity.
Qed.

End AlignmentFacts.

Section NextState.
Context {T : Type} {N : Number T}.

Lemma keys_dict_set_present (k : string) (v : value T) (d : dict T) :
  lookup k d <> None -> keys (dict_set k v d) = keys d.
Proof.
  unfold keys. induction d as [|[k0 v0] d IH]; cbn [lookup dict_set map fst].
  - congruence.
  - destruct (String.eqb k k0) eqn:E; cbn [map fst].
    + apply String.eqb_eq in E. now subst.
    + intros H. now rewrite IH.
Qed.

(** X7. [_predict_next_state] returns the state with the same keys in the
    same order; only [mission_progress] changes, by 0.01 added to its
    number, and a state without that key comes back as it is.  It fails
    exactly when [mission_progress] is there and is not a number. *)
Theorem predicted_state_moves_progress_only (st action : dict T) :
  match lookup "mission_progress" st with
  | None => _predict_next_state st action = Some st
  | Some p =>
      match as_num p with
      | None => _predict_next_state st action = None
      | Some x =>
          exists st',
            _predict_next_state st action = Some st'
            /\ keys st' = keys st
            /\ lookup "mission_progress" st'
               = Some (VFloat (nadd x (lit 1 100)))
            /\ forall k, k <> "mission_progress" ->
                 lookup k st' = lookup k st
      end
  end.
Proof.
  unfold _predict_next_state.
  destruct (lookup "mission_progress" st) as [p|] eqn:P; [|reflexivity].
  destruct (as_num p) as [x|] eqn:X; cbn [bind ret]; [|reflexivity].
  eexists. split; [reflexivity|]. split; [|split].
  - apply keys_dict_set_present. congruence.
  - rewrite lookup_dict_set. now rewrite String.eqb_refl.
  - intros k Hk. rewrite lookup_dict_set.
    destruct (String.eqb k "mission_progress") eqn:E; [|reflexivity].
    apply String.eqb_eq in E. contradiction.
Qed.

End NextState.

(** ** Bounds of the reward terms *)

Section RewardBounds.
Variable sq : Q -> Q.
Local Hint Extern 0 (Number Q) => exact (QNumber sq) : typeclass_instances.
Local Open Scope Q_scope.

Lemma ngtb_Q (a b : Q) : ngtb a b = true <-> b < a.
Proof. unfold ngtb. apply nltb_Q. Qed.

Lemma ngtb_Q_false (a b : Q) : ngtb a b = false <-> a <= b.
Proof. unfold ngtb. apply nltb_Q_false. Qed.

Lemma pymax_zero_nonneg (x : Q) : 0 <= pymax (nofZ 0%Z) x.
Proof.
  unfold pymax. destruct (ngtb x (nofZ 0%Z)) eqn:E.
  - apply ngtb_Q in E. cbn [nofZ QNumber] in E. unfold inject_Z in E. lra.
  - cbn. unfold inject_Z. lra.
Qed.

Lemma pymax_zero_le (x b : Q) : 0 <= b -> x <= b -> pymax (nofZ 0%Z) x <= b.
Proof.
  intros Hb Hx. unfold pymax. destruct (ngtb x (nofZ 0%Z)); [exact Hx|].
  cbn. unfold inject_Z. lra.
Qed.

Lemma pymin_one_le (x : Q) : pymin (nofZ 1%Z) x <= 1.
Proof.
  unfold pymin. destruct (nltb x (nofZ 1%Z)) eqn:E.
  - apply nltb_Q in E. cbn [nofZ QNumber] in E. unfold inject_Z in E. lra.
  - cbn. unfold inject_Z. lra.
Qed.

Lemma pymin_one_ge (x b : Q) : b <= 1 -> b <= x -> b <= pymin (nofZ 1%Z) x.
Proof.
  intros Hb Hx. unfold pymin. destruct (nltb x (nofZ 1%Z)); [exact Hx|].
  cbn. unfold inject_Z. lra.
Qed.

Lemma nofZ_Q_nonneg (z : Z) : (0 <= z)%Z -> 0 <= nofZ z.
Proof.
  intros H. cbn [nofZ QNumber]. change 0 with (inject_Z 0).
  now rewrite <- Zle_Qle.
Qed.

Lemma len_num_nonneg (v : value Q) (n : Q) : len_num v = Some n -> 0 <= n.
Proof.
  unfold len_num. intros H. step H. inversion H; subst.
  apply nofZ_Q_nonneg. eapply py_len_nonneg. exact E.
Qed.

(** X8. The communication and the computational efficiency lie in [0,1] in
    exact arithmetic, for every state and action. *)
Theorem efficiency_metrics_in_unit_interval (state action : dict Q) :
  0 <= _calculate_communication_efficiency_reward state action <= 1
  /\ 0 <= _calculate_computational_efficiency_reward state action <= 1.
Proof.
  split.
  - unfold _calculate_communication_efficiency_reward.
    match goal with |- context [try_except ?c ?h] => destruct c as [r|] eqn:H end;
      cbn [try_except]; [|cbn; unfold inject_Z; lra].
    repeat step H. inversion H; subst. clear H.
    repeat match goal with
           | L : len_num _ = Some _ |- _ => apply len_num_nonneg in L
           end.
    split; [apply pymax_zero_nonneg|]. apply pymax_zero_le; [lra|].
    cbn [nsub nadd nmul ndiv nofZ QNumber]. rewrite <- ?Qmake_Qdiv.
    unfold inject_Z.
    match goal with
    | |- _ - ?a / ?b <= _ =>
        assert (0 <= a / b) by (apply Qle_shift_div_l; [reflexivity|nra]); lra
    end.
  - unfold _calculate_computational_efficiency_reward.
    match goal with |- context [try_except ?c ?h] => destruct c as [r|] eqn:H end;
      cbn [try_except]; [|cbn; unfold inject_Z; lra].
    repeat step H. inversion H; subst. clear H.
    repeat match goal with
           | L : len_num _ = Some _ |- _ => apply len_num_nonneg in L
           end.
    match goal with
    | F : foldM _ _ _ = Some _ |- _ =>
        apply (foldM_invariant (fun c : Q => 0 <= c)) in F
    end.
    2:{ clear. intros s a s' Hs H. repeat step H. inversion H; subst. clear H.
        repeat match goal with
               | |- context [if ?b then _ else _] => destruct b
               end; cbn [nadd QNumber]; rewrite <- ?Qmake_Qdiv; lra. }
    2:{ cbn. unfold inject_Z. lra. }
    split; [apply pymax_zero_nonneg|]. apply pymax_zero_le; [lra|].
    cbn [nsub nadd nmul ndiv nofZ QNumber]. rewrite <- ?Qmake_Qdiv.
    unfold inject_Z.
    match goal with
    | |- _ - ?a / ?b <= _ =>
        assert (0 <= a / b) by (apply Qle_shift_div_l; [reflexivity|nra]); lra
    end.
Qed.

(** X9. The resource-waste penalty is never negative in exact arithmetic, and
    it is zero when no satellite allocates more than its whole power. *)
Theorem resource_waste_penalty_nonneg (state action : dict Q) :
  0 <= _calculate_resource_waste_penalty state action
  /\ (forall acts,
        py_values (get "satellite_actions" (VDict []) action) = Some acts ->
        (forall a, In a acts ->
           exists t, total_allocation a = Some t /\ t <= 1) ->
        _calculate_resource_waste_penalty state action == 0).
Proof.
  split.
  - unfold _calculate_resource_waste_penalty.
    match goal with |- context [try_except ?c ?h] => destruct c as [r|] eqn:H end;
      cbn [try_except]; [|cbn; unfold inject_Z; lra].
    step H.
    refine (foldM_invariant (fun c : Q => 0 <= c) _ _ _ _ _ _ H).
    + clear. intros s a s' Hs H.
      destruct (total_allocation a) as [t|]; [|discriminate H].
      cbn [bind ret] in H. inversion H; subst. clear H.
      match goal with
      | |- context [if ?b then _ else _] => destruct b eqn:G
      end; [|exact Hs].
      apply (nltb_Q sq (inject_Z 1) t) in G. rewrite <- Qmake_Qdiv.
      unfold inject_Z in *. nra.
    + cbn. unfold inject_Z. lra.
  - intros acts Hacts Hall. unfold _calculate_resource_waste_penalty.
    rewrite Hacts. cbn [bind].
    assert (G : forall (l : list (value Q)) (p : Q),
               (forall a, In a l ->
                  exists t, total_allocation a = Some t /\ t <= 1) ->
               foldM (fun penalty sat_action =>
                 bind (total_allocation sat_action) (fun t =>
                   ret (if ngtb t (nofZ 1%Z)
                        then nadd penalty (nmul (nsub t (nofZ 1%Z)) (lit 5 10))
                        else penalty))) l p = Some p).
    { clear. induction l as [|a l IH]; intros p Hl; cbn [foldM];
        [reflexivity|].
      destruct (Hl a (or_introl eq_refl)) as [t [Ht Hle]].
      rewrite Ht. cbn [bind ret].
      assert (F : ngtb t (nofZ 1%Z) = false).
      { apply ngtb_Q_false. cbn. unfold inject_Z. lra. }
      rewrite F. apply IH. intros b Hb. apply Hl. now right. }
    rewrite (G acts _ Hall). cbn. reflexivity.
Qed.

(** X10. With every reward flag off (as with an empty reward configuration) the
    three components are 0 and the total reward is minus the penalty. *)
Theorem reward_without_flags_is_minus_penalty
    (cfg state action base_data : dict Q) :
  (forall group name, enabled cfg group name = Some false) ->
  _calculate_tracking_performance_reward cfg state action base_data == 0
  /\ _calculate_resource_efficiency_reward cfg state action base_data == 0
  /\ _calculate_mission_completion_reward cfg state action base_data == 0
  /\ calculate_total_reward cfg state action base_data
     == - _calculate_penalty_terms state action base_data.
Proof.
  intros Hoff.
  assert (A : forall g n w r acc, add_if_enabled cfg g n w r acc = Some acc).
  { intros. unfold add_if_enabled. now rewrite Hoff. }
  assert (Ht : _calculate_tracking_performance_reward cfg state action base_data == 0).
  { unfold _calculate_tracking_performance_reward. repeat (rewrite A; cbn [bind]).
    vm_compute. reflexivity. }
  assert (He : _calculate_resource_efficiency_reward cfg state action base_data == 0).
  { unfold _calculate_resource_efficiency_reward. repeat (rewrite A; cbn [bind]).
    vm_compute. reflexivity. }
  assert (Hc : _calculate_mission_completion_reward cfg state action base_data == 0).
  { unfold _calculate_mission_completion_reward. repeat (rewrite A; cbn [bind]).
    vm_compute. reflexivity. }
  repeat split; try assumption.
  unfold calculate_total_reward. cbn [nadd nsub nmul QNumber].
  rewrite Ht, He, Hc. cbn [nofZ QNumber]. unfold inject_Z. ring.
Qed.

(** X11. The total of [get_reward_breakdown] is the reward
    [calculate_total_reward] returns, and the entries are the weighted
    components and the penalty. *)
Theorem reward_breakdown_total (cfg state action base_data : dict Q) :
  let b := get_reward_breakdown cfg state action base_data in
  b_total_reward b == calculate_total_reward cfg state action base_data
  /\ b_total_reward b
     == b_tracking_performance b + b_resource_efficiency b
        + b_mission_completion b - b_penalty b.
Proof.
  cbn zeta. unfold get_reward_breakdown, calculate_total_reward.
  cbn [b_total_reward b_tracking_performance b_resource_efficiency
       b_mission_completion b_penalty nadd nsub nmul nofZ QNumber].
  unfold inject_Z. split; ring.
Qed.

End RewardBounds.

(** ** Invariants of the gate *)

Section GateInvariants.
Context {T : Type} {N : Number T} {L : PyLib T}.

Lemma filter_nil_all {A : Type} (f : A -> bool) (l : list A) :
  filter (fun a => negb (f a)) l = [] -> forall a, In a l -> f a = true.
Proof.
  induction l as [|x l IH]; cbn [filter]; intros H a Ha; [destruct Ha|].
  destruct (f x) eqn:E; cbn [negb] in H; [|discriminate].
  destruct Ha as [<-|Ha]; auto.
Qed.

(** X12. A data point is complete only when none of the configured required
    fields is missing: every one of them is found in the data point and
    the list of missing fields is empty. *)
Theorem complete_point_has_every_required_field
    (v : Validator) (dp : RLHFDataPoint) (required : list (value T)) :
  py_iter (get "required_fields" (VList []) (completeness_checks v))
    = Some required ->
  is_complete (_check_data_completeness v dp) = true ->
  missing_fields (_check_data_completeness v dp) = []
  /\ forall f, In f required -> _check_field_exists dp f = true.
Proof.
  unfold _check_data_completeness. intros Hreq.
  rewrite Hreq. cbn [bind].
  match goal with |- context [try_except ?c ?h] => destruct c as [r|] eqn:H end;
    cbn [try_except]; [|cbn; discriminate].
  intros C. repeat step H.
  destruct (filter (fun f => negb (_check_field_exists dp f)) required) eqn:M.
  - inversion H; subst. cbn [missing_fields map]. split; [reflexivity|].
    now apply filter_nil_all.
  - revert E2. cbn [bind ret]. intros E2. inversion E2; subst.
    inversion H; subst. discriminate C.
Qed.

(** X13. The gate accepts a data point exactly when the data point is complete
    and its format check found nothing; an accepted data point carries no
    errors.  Physical, temporal and anomaly findings never reject one. *)
Theorem accepted_point_has_no_errors (v : Validator) (dp : RLHFDataPoint) :
  let r := snd (validate_rlhf_data_point v dp) in
  (is_valid r = true <->
     is_complete (_check_data_completeness v dp) = true
     /\ check_findings (_validate_data_format dp) = [])
  /\ (is_valid r = true -> errors r = []).
Proof.
  cbn zeta. unfold validate_rlhf_data_point.
  cbn [snd is_valid errors].
  assert (F : check_ok (_validate_data_format dp) = true
              <-> check_findings (_validate_data_format dp) = []).
  { unfold _validate_data_format. cbn [check_ok check_findings].
    destruct (_ ++ _); split; congruence. }
  split.
  - rewrite andb_true_iff, F. reflexivity.
  - rewrite andb_true_iff. intros [C K]. rewrite C, K. reflexivity.
Qed.

Lemma last_n_length {A : Type} (n : nat) (l : list A) :
  List.length (last_n n l) = Nat.min (List.length l) n.
Proof. unfold last_n. rewrite length_skipn. lia. Qed.

(** X14. Every validation appends one record of the data point to the history,
    whether the point was accepted or not; the history never holds more
    than [max_history_size] records once it is within the bound, and the
    records dropped are the oldest ones. *)
Theorem history_grows_to_its_cap (v : Validator) (dp : RLHFDataPoint) :
  let v' := fst (validate_rlhf_data_point v dp) in
  let r := snd (validate_rlhf_data_point v dp) in
  let record := {| h_timestamp := timestamp dp;
                   h_reward := reward dp;
                   h_state := state dp;
                   h_validation_score := validation_score r |} in
  List.length (historical_data v')
  = Nat.min (List.length (historical_data v) + 1) max_history_size
  /\ exists dropped kept,
       historical_data v = dropped ++ kept
       /\ historical_data v' = kept ++ [record].
Proof.
  cbn zeta. unfold validate_rlhf_data_point. cbn [fst snd].
  unfold _update_historical_data. cbn [historical_data with_stats validation_score].
  set (record := {| h_timestamp := _ |}).
  set (h := historical_data v).
  assert (M : (0 < max_history_size)%nat) by (unfold max_history_size; lia).
  destruct (max_history_size <? List.length (h ++ [record]))%nat eqn:B.
  - apply Nat.ltb_lt in B. rewrite length_app in B. cbn [List.length] in B.
    split.
    + rewrite last_n_length, length_app. cbn [List.length]. lia.
    + unfold last_n. rewrite length_app. cbn [List.length].
      exists (firstn (List.length h + 1 - max_history_size) h),
             (skipn (List.length h + 1 - max_history_size) h).
      split; [symmetry; apply firstn_skipn|].
      rewrite skipn_app.
      replace (List.length h + 1 - max_history_size - List.length h)%nat
        with 0%nat by lia.
      reflexivity.
  - apply Nat.ltb_ge in B. rewrite length_app in B. cbn [List.length] in B.
    split.
    + rewrite length_app. cbn [List.length]. lia.
    + exists [], h. split; reflexivity.
Qed.

(** X15. Every validation counts once: the total goes up by one, and so does
    exactly one of the passed and failed counters, by the verdict.  The
    anomaly counter goes up by one exactly when the result lists an
    anomaly. *)
Theorem validation_counters (v : Validator) (dp : RLHFDataPoint) :
  let s := validation_stats v in
  let s' := validation_stats (fst (validate_rlhf_data_point v dp)) in
  let r := snd (validate_rlhf_data_point v dp) in
  total_validations s' = total_validations s + 1
  /\ passed_validations s'
     = passed_validations s + (if is_valid r then 1 else 0)
  /\ failed_validations s'
     = failed_validations s + (if is_valid r then 0 else 1)
  /\ anomaly_detections s'
     = anomaly_detections s
       + (match anomalies r with [] => 0 | _ => 1 end).
Proof.
  cbn zeta. unfold validate_rlhf_data_point. cbn [fst snd].
  unfold _update_historical_data.
  cbn [validation_stats with_stats total_validations passed_validations
       failed_validations anomaly_detections is_valid anomalies].
  repeat split.
  - destruct (_ && _); lia.
  - destruct (_ && _); lia.
  - destruct (rule_on _ _); [|lia].
    destruct (fst (_detect_anomalies v dp)); lia.
Qed.

End GateInvariants.

Section RewardGate.
Context {T : Type} {N : Number T} {L : PyLib T}.

(** X16. The gate accepts no data point whose reward is not finite: such a
    point carries the error invalid_reward_value. *)
Theorem accepted_point_has_finite_reward
    (v : @Validator T) (dp : @RLHFDataPoint T) :
  let r := snd (validate_rlhf_data_point v dp) in
  (is_valid r = true -> nisfinite (reward dp) = true)
  /\ (nisfinite (reward dp) = false ->
      is_valid r = false /\ In (Plain "invalid_reward_value") (errors r)).
Proof.
  cbn zeta. unfold validate_rlhf_data_point. cbn [snd is_valid errors].
  assert (F : nisfinite (reward dp) = false ->
              check_ok (_validate_data_format dp) = false
              /\ In (Plain "invalid_reward_value")
                    (check_findings (_validate_data_format dp))).
  { intros Hf. unfold _validate_data_format.
    cbn [check_ok check_findings]. rewrite Hf.
    split.
    - destruct (_validate_state_format (state dp)); [|reflexivity].
      destruct (_validate_action_format (action dp)); reflexivity.
    - apply in_or_app. right. apply in_or_app. right. now left. }
  split.
  - intros Hv. destruct (nisfinite (reward dp)) eqn:Hf; [reflexivity|].
    destruct (F eq_refl) as [F1 _]. rewrite F1, andb_false_r in Hv.
    discriminate.
  - intros Hf. destruct (F Hf) as [F1 F2]. rewrite F1, andb_false_r.
    split; [reflexivity|]. apply in_or_app. right. exact F2.
Qed.

End RewardGate.

Section RationalGateBounds.
Variable sq : Q -> Q.
Variable L : PyLib Q.
Local Hint Extern 0 (Number Q) => exact (QNumber sq) : typeclass_instances.
Local Open Scope Q_scope.

(** X17. In exact arithmetic the validation score lies in [0,1]. *)
Theorem validation_score_in_unit_interval
    (v : Validator) (dp : RLHFDataPoint) :
  0 <= validation_score (snd (validate_rlhf_data_point v dp)) <= 1.
Proof.
  unfold validate_rlhf_data_point. cbn [snd validation_score].
  unfold _calculate_quality_score. split.
  - apply pymax_zero_nonneg.
  - apply pymax_zero_le; [lra|]. apply pymin_one_le.
Qed.

Lemma last_map_Some {A : Type} (h : list A) (a : A) :
  last (map Some (h ++ [a])) None = Some a.
Proof. rewrite map_app. cbn [map]. apply last_last. Qed.

Lemma seconds_gt (d k : Z) :
  ngtb (T:=Q) (total_seconds d 0) (nofZ k) = true <-> (k * 1000000 < d)%Z.
Proof.
  rewrite (ngtb_Q sq). unfold total_seconds.
  cbn [ndiv nofZ QNumber]. rewrite Z.sub_0_r. rewrite <- Qmake_Qdiv.
  unfold Qlt, inject_Z. cbn [Qnum Qden]. lia.
Qed.

Lemma seconds_lt (d k : Z) :
  nltb (T:=Q) (total_seconds d 0) (nofZ k) = true <-> (d < k * 1000000)%Z.
Proof.
  rewrite (nltb_Q sq). unfold total_seconds.
  cbn [ndiv nofZ QNumber]. rewrite Z.sub_0_r. rewrite <- Qmake_Qdiv.
  unfold Qlt, inject_Z. cbn [Qnum Qden]. lia.
Qed.

(** X18. The first data point passes the temporal check.  After that a data
    point passes it exactly when it comes at least one second and at most
    one hour after the last record of the history. *)
Theorem temporal_check_window (v : @Validator Q) (dp : @RLHFDataPoint Q) :
  (historical_data v = [] ->
   _check_temporal_consistency v dp
   = {| check_ok := true; check_findings := [] |})
  /\ (forall h rec, historical_data v = h ++ [rec] ->
      (check_ok (_check_temporal_consistency v dp) = true
       <-> (1000000 <= timestamp dp - h_timestamp rec <= 3600000000)%Z)).
Proof.
  unfold _check_temporal_consistency. split.
  - intros ->. reflexivity.
  - intros h rec ->. rewrite last_map_Some.
    assert (G : total_seconds (T:=Q) (timestamp dp) (h_timestamp rec)
                = total_seconds (timestamp dp - h_timestamp rec) 0).
    { unfold total_seconds. now rewrite Z.sub_0_r. }
    rewrite G. unfold max_time_gap, min_time_step.
    destruct (ngtb _ (nofZ 3600%Z)) eqn:B1.
    + apply seconds_gt in B1. cbn [check_ok]. split; [discriminate|lia].
    + destruct (nltb _ (nofZ 1%Z)) eqn:B2.
      * apply seconds_lt in B2. cbn [check_ok]. split; [discriminate|lia].
      * cbn [check_ok]. split; [intros _|reflexivity].
        assert (~ (3600 * 1000000 < timestamp dp - h_timestamp rec)%Z)
          by (rewrite <- seconds_gt; congruence).
        assert (~ (timestamp dp - h_timestamp rec < 1 * 1000000)%Z)
          by (rewrite <- seconds_lt; congruence).
        lia.
Qed.

End RationalGateBounds.

(** ** Invariants of the collector *)

Section CollectorInvariants.
Context {T : Type} {N : Number T} {L : PyLib T}.

Lemma collect_histories (c c' : Collector) (w : World) (act : dict T)
    (execute : bool) (r : option RLHFDataPoint) :
  collect_rlhf_data_point c w act execute = (c', r) ->
  state_history c' = state_history c ++ map (@state T) (collected [r])
  /\ action_history c' = action_history c ++ map (@action T) (collected [r])
  /\ reward_history c' = reward_history c ++ map (@reward T) (collected [r])
  /\ validation_history c'
     = validation_history c
       ++ collected (map (@info_validation_result T) (collected [r]))
  /\ episodes c' = episodes c.
Proof.
  unfold collect_rlhf_data_point. intros H.
  destruct (build_data_point c w act execute) as [[dp0|]|] eqn:B.
  - destruct (validate_rlhf_data_point (data_quality_validator c) dp0)
      as [validator res] eqn:V.
    inversion H; subst. clear H.
    assert (A : action dp0 = act).
    { unfold build_data_point in B. repeat step B.
      destruct o as [[|kv base]|]; try discriminate B.
      repeat step B. inversion B; subst. reflexivity. }
    cbn [collected map with_validation state action reward
         info_validation_result].
    unfold _update_average_statistics, set_stats.
    cbn [state_history action_history reward_history validation_history
         episodes].
    rewrite A. repeat split.
  - inversion H; subst. cbn [collected map]. now rewrite !app_nil_r.
  - inversion H; subst. cbn [collected map]. unfold count_invalid, set_stats.
    cbn [state_history action_history reward_history validation_history
         episodes].
    now rewrite !app_nil_r.
Qed.

(** X19. Over any sequence of calls the four histories grow by exactly the
    states, actions, rewards and validation results of the data points
    that were returned, in call order; calls that return nothing leave
    them alone, and no call touches the list of finished episodes. *)
Theorem histories_follow_returned_points (calls : list Call) :
  forall (c c2 : Collector) (rs : list (option RLHFDataPoint)),
  collect_all c calls = (c2, rs) ->
  state_history c2 = state_history c ++ map (@state T) (collected rs)
  /\ action_history c2
     = action_history c ++ map (@action T) (collected rs)
  /\ reward_history c2 = reward_history c ++ map (@reward T) (collected rs)
  /\ validation_history c2
     = validation_history c
       ++ collected (map (@info_validation_result T) (collected rs))
  /\ episodes c2 = episodes c.
Proof.
  induction calls as [|k calls IH]; intros c c2 rs H.
  - inversion H; subst. cbn [collected map]. now rewrite !app_nil_r.
  - cbn [collect_all] in H.
    destruct (collect_rlhf_data_point c (call_world k) (call_action k)
                (call_execute k)) as [c1 r] eqn:S.
    destruct (collect_all c1 calls) as [c2' rs'] eqn:R.
    inversion H; subst. clear H.
    destruct (collect_histories _ _ _ _ _ _ S) as [S1 [S2 [S3 [S4 S5]]]].
    destruct (IH _ _ _ R) as [H1 [H2 [H3 [H4 H5]]]].
    rewrite H1, H2, H3, H4, H5, S1, S2, S3, S4, S5.
    destruct r as [dp|]; cbn [collected map app];
      rewrite <- ?app_assoc; cbn [app]; rewrite ?app_nil_r; repeat split.
    destruct (info_validation_result dp); reflexivity.
Qed.

Lemma collect_counters (c c' : Collector) (w : World) (action : dict T)
    (execute : bool) (r : option RLHFDataPoint) :
  collect_rlhf_data_point c w action execute = (c', r) ->
  let n := Z.of_nat (List.length (collected [r])) in
  let nv := Z.of_nat (List.length (filter point_is_valid (collected [r]))) in
  total_data_points (collection_stats c')
  = total_data_points (collection_stats c) + n
  /\ valid_data_points (collection_stats c')
     = valid_data_points (collection_stats c) + nv
  /\ invalid_data_points (collection_stats c') - (n - nv)
     - invalid_data_points (collection_stats c)
     = match r with
       | Some _ => 0
       | None => match build_data_point c w action execute with
                 | Some _ => 0
                 | None => 1
                 end
       end.
Proof.
  unfold collect_rlhf_data_point. intros H.
  destruct (build_data_point c w action execute) as [[dp0|]|] eqn:B.
  - destruct (validate_rlhf_data_point (data_quality_validator c) dp0)
      as [validator res] eqn:V.
    inversion H; subst. clear H.
    cbn [collected filter point_is_valid with_validation
         info_validation_result].
    unfold _update_average_statistics, set_stats.
    cbn [collection_stats total_data_points valid_data_points
         invalid_data_points].
    destruct (is_valid res); cbn [List.length]; lia.
  - inversion H; subst. cbn [collected filter List.length]. lia.
  - inversion H; subst. cbn [collected filter List.length].
    unfold count_invalid, set_stats.
    cbn [collection_stats total_data_points valid_data_points
         invalid_data_points]. lia.
Qed.

(** X20. Over any sequence of calls [total_data_points] goes up by the number
    of data points returned and [valid_data_points] by the number of
    those that were accepted; [invalid_data_points] goes up by at least
    the number of rejected ones (a call that raised counts as invalid
    without counting in the total). *)
Theorem counters_follow_returned_points (calls : list Call) :
  forall (c c2 : Collector) (rs : list (option RLHFDataPoint)),
  collect_all c calls = (c2, rs) ->
  let n := Z.of_nat (List.length (collected rs)) in
  let nv := Z.of_nat (List.length (filter point_is_valid (collected rs))) in
  total_data_points (collection_stats c2)
  = total_data_points (collection_stats c) + n
  /\ valid_data_points (collection_stats c2)
     = valid_data_points (collection_stats c) + nv
  /\ invalid_data_points (collection_stats c) + (n - nv)
     <= invalid_data_points (collection_stats c2)
  /\ List.length rs = List.length calls.
Proof.
  induction calls as [|k calls IH]; intros c c2 rs H.
  - inversion H; subst. cbn [collected filter List.length]. lia.
  - cbn [collect_all] in H.
    destruct (collect_rlhf_data_point c (call_world k) (call_action k)
                (call_execute k)) as [c1 r] eqn:S.
    destruct (collect_all c1 calls) as [c2' rs'] eqn:R.
    inversion H; subst. clear H.
    pose proof (collect_counters _ _ _ _ _ _ S) as [S1 [S2 S3]].
    pose proof (IH _ _ _ R) as [H1 [H2 [H3 H4]]].
    cbn zeta in *.
    destruct r as [dp|]; cbn [collected filter List.length] in *.
    + destruct (point_is_valid dp); cbn [List.length] in *; lia.
    + destruct (build_data_point c (call_world k) (call_action k)
                  (call_execute k)); lia.
Qed.

(** X21. A snapshot that is [None] or the empty dict ends the call at once:
    nothing is returned and the collector is as it was, counters
    included.  A snapshot that raises is counted as an invalid data point
    (and in no other counter) although no data point exists; nothing else
    changes. *)
Theorem failed_snapshot_returns_nothing (c : @Collector T) (w : @World T)
    (action : dict T) (execute : bool) :
  (collect_data_at_time w = Some None
   \/ collect_data_at_time w = Some (Some []) ->
   collect_rlhf_data_point c w action execute = (c, None))
  /\ (collect_data_at_time w = None ->
      collect_rlhf_data_point c w action execute = (count_invalid c, None)).
Proof.
  unfold collect_rlhf_data_point, build_data_point. split.
  - intros [-> | ->]; reflexivity.
  - intros ->. reflexivity.
Qed.

(** X22. [end_episode] closes the open episode: the episode comes back with
    the data points and total reward it had, the given success flag and
    the current time as its end; it is the last of the finished episodes
    and no episode is open any more.  With no open episode, as after
    that, [end_episode] returns nothing and changes nothing. *)
Theorem end_episode_closes_the_episode (c : @Collector T) (w w' : @World T)
    (ok ok' : bool) (e : @Episode T) :
  current_episode c = Some e ->
  exists done_episode,
    snd (end_episode c w ok) = Some done_episode
    /\ data_points done_episode = data_points e
    /\ total_reward done_episode = total_reward e
    /\ success done_episode = ok
    /\ end_time done_episode = Some (current_simulation_time w)
    /\ episodes (fst (end_episode c w ok)) = episodes c ++ [done_episode]
    /\ current_episode (fst (end_episode c w ok)) = None
    /\ end_episode (fst (end_episode c w ok)) w' ok'
       = (fst (end_episode c w ok), None).
Proof.
  intros He. unfold end_episode. rewrite He.
  cbn [fst snd current_episode]. eexists. split; [reflexivity|].
  cbn [data_points total_reward success end_time episodes]. repeat split.
Qed.

End CollectorInvariants.

Section RationalStatistics.
Variable sq : Q -> Q.
Variable L : PyLib Q.
Local Hint Extern 0 (Number Q) => exact (QNumber sq) : typeclass_instances.
Local Open Scope Q_scope.

Lemma zsum_flags_bounds {A : Type} (f : A -> bool) (l : list A) :
  (0 <= zsum (map (fun a => if f a then 1 else 0) l) <= Z.of_nat (List.length l))%Z.
Proof.
  induction l as [|a l IH].
  - cbn. lia.
  - cbn [map List.length]. unfold zsum in *. cbn [fold_left].
    rewrite zsum_shift. unfold zsum. destruct (f a); lia.
Qed.

(** X23. In exact arithmetic the rates of [get_statistics] are proportions:
    whatever calls a collector has served since its counters were at
    zero, [data_quality_rate] lies in [0,1], and so does
    [episode_success_rate]. *)
Theorem statistics_rates_in_unit_interval (calls : list Call)
    (c c2 : @Collector Q) (rs : list (option RLHFDataPoint)) :
  total_data_points (collection_stats c) = 0%Z ->
  valid_data_points (collection_stats c) = 0%Z ->
  collect_all c calls = (c2, rs) ->
  0 <= bs_data_quality_rate (get_statistics c2) <= 1
  /\ 0 <= bs_episode_success_rate (get_statistics c2) <= 1.
Proof.
  intros Ht Hv H.
  destruct (counters_follow_returned_points calls c c2 rs H) as [H1 [H2 _]].
  rewrite Ht in H1. rewrite Hv in H2.
  unfold get_statistics.
  cbn [bs_data_quality_rate bs_episode_success_rate]. split.
  - cbn [ndiv nofZ QNumber]. apply Q_ratio_unit.
    rewrite H1, H2.
    pose proof (filter_length_le point_is_valid (collected rs)). lia.
  - destruct (episodes c2) as [|e es] eqn:E.
    + cbn. unfold inject_Z. lra.
    + cbn [ndiv nofZ QNumber]. apply Q_ratio_unit.
      apply (zsum_flags_bounds (@success Q) (e :: es)).
Qed.

End RationalStatistics.

(** ** Numbering and objectives of the scenarios *)

Module ScenarioNumbering.
Import ScenarioGenerator.
Section Numbering.
Variable Sampled : Type.
Variable draw : Z -> string -> string -> Sampled.


Lemma repeat_loop_numbered (k : nat) (n : Z) (t d : string) :
  forall st, numbered st -> numbered (repeat_loop draw k n t d st).
Proof.
  induction k as [|k IH]; intros st H; cbn [repeat_loop]; [exact H|].
  destruct (full n st); [exact H|]. apply IH.
  destruct H as [H1 [H2 H3]]. unfold numbered. cbn [fst snd].
  rewrite length_app. cbn [List.length]. split; [lia|]. split.
  - rewrite map_app, H2, seq_app, map_app. cbn [map seq]. f_equal.
    unfold _generate_single_scenario. cbn [scenario_id].
    rewrite H1. do 3 f_equal. lia.
  - apply Forall_app. split; [exact H3|]. constructor; [reflexivity|constructor].
Qed.

Lemma types_loop_numbered (types : list string) (per : nat) (n : Z)
    (d : string) :
  forall st, numbered st -> numbered (types_loop draw types per n d st).
Proof.
  induction types as [|t types IH]; intros st H; cbn [types_loop]; [exact H|].
  pose proof (repeat_loop_numbered per n t d st H) as H'.
  destruct (full n (repeat_loop draw per n t d st)); auto.
Qed.

Lemma difficulties_loop_numbered (levels : list string) (per : nat) (n : Z) :
  forall st, numbered st -> numbered (difficulties_loop draw levels per n st).
Proof.
  induction levels as [|d levels IH]; intros st H; cbn [difficulties_loop];
    [exact H|].
  pose proof (types_loop_numbered scenario_types per n d st H) as H'.
  destruct (full n (types_loop draw scenario_types per n d st)); auto.
Qed.

(** X24. The evaluation scenarios are never more than were asked for (none for
    a request of zero or less), their ids are eval_scenario_0001,
    eval_scenario_0002, ... in the order of the list, and each has the
    objectives of its own type and difficulty. *)
Theorem evaluation_scenarios_are_numbered (n : Z) :
  let l := generate_evaluation_scenarios draw n in
  (List.length l <= Z.to_nat n)%nat
  /\ map (@scenario_id Sampled) l
     = map (fun i => ("eval_scenario_" ++ format_04d (Z.of_nat i))%string)
           (seq 1 (List.length l))
  /\ forall s, In s l ->
       mission_objectives s
       = _generate_mission_objectives (scenario_type s) (difficulty_level s).
Proof.
  cbn zeta. split.
  - rewrite <- (length_map (@kind_of_scenario Sampled)).
    rewrite ScenarioFacts.generated_kinds, length_firstn. lia.
  - unfold generate_evaluation_scenarios.
    destruct (difficulties_loop_numbered difficulty_levels
                (Z.to_nat (scenarios_per_combination n)) n ([], 1))
      as [_ [H2 H3]].
    { unfold numbered. cbn [fst snd List.length map seq]. repeat split.
      constructor. }
    split; [exact H2|]. now apply Forall_forall.
Qed.

End Numbering.

(** X25. The objectives always start with the three base objectives, name no
    objective twice, and include the three hard-mode constraints exactly
    for the difficulties hard and extreme. *)
Theorem mission_objectives_shape (scenario_type difficulty_level : string) :
  let l := _generate_mission_objectives scenario_type difficulty_level in
  firstn 3 l = ["track_all_threats"; "maintain_coverage";
                "minimize_resource_usage"]
  /\ NoDup l
  /\ (In "minimize_false_alarms" l
      <-> difficulty_level = "hard" \/ difficulty_level = "extreme")
  /\ (3 <= List.length l <= 8)%nat.
Proof.
  cbn zeta. unfold _generate_mission_objectives.
  destruct (String.eqb difficulty_level "hard") eqn:D1;
    destruct (String.eqb difficulty_level "extreme") eqn:D2;
    destruct (String.eqb scenario_type "single_threat");
    destruct (String.eqb scenario_type "multiple_threats");
    destruct (String.eqb scenario_type "saturation_attack");
    cbn [orb app firstn List.length];
    (split; [reflexivity|]);
    (split; [apply NoDup_by_computation; reflexivity|]);
    (split; [|lia]);
    (split;
     [ intros H;
       try (apply String.eqb_eq in D1; now left);
       try (apply String.eqb_eq in D2; now right);
       cbn [In] in H;
       repeat (destruct H as [H|H]; [discriminate H|]); destruct H
     | intros H;
       try (cbn [In]; repeat (first [left; reflexivity | right]); fail);
       apply String.eqb_neq in D1; apply String.eqb_neq in D2;
       destruct H; contradiction ]).
Qed.

End ScenarioNumbering.

(** ** Confidence and coverage of the expert policy *)

Module ConfidenceFacts.
Import ExpertPolicy.
Section Facts.
Variable sq : Q -> Q.
Local Hint Extern 0 (Number Q) => exact (QNumber sq) : typeclass_instances.
Local Open Scope Q_scope.

(** X27. In exact arithmetic the confidence of an action lies between 0.4 and
    1, for every action, state and snapshot. *)
Theorem action_confidence_bounds (action state base_data : dict Q) :
  2 # 5 <= _calculate_action_confidence action state base_data <= 1.
Proof.
  unfold _calculate_action_confidence.
  match goal with |- context [try_except ?c ?h] => destruct c as [r|] eqn:H end;
    cbn [try_except]; [|rewrite lit_Q; lra].
  destruct (py_get "target_assignments" (VList [])
              (get "mission_actions" (VDict []) action)) as [assignments|];
    [|discriminate H].
  destruct (py_len (get "missiles" (VList []) base_data)) as [total|];
    [|discriminate H].
  cbn [bind] in H.
  match type of H with
  | bind ?c _ = _ => destruct c as [c1|] eqn:C1; [|discriminate H]
  end.
  cbn [bind] in H.
  match type of H with
  | bind ?c _ = _ => destruct c as [c2|] eqn:C2; [|discriminate H]
  end.
  cbn [bind ret] in H. injection H as H. rewrite <- H. clear H.
  assert (B1 : 1 # 2 <= c1 <= 1).
  { clear C2. destruct (0 <? total)%Z eqn:P.
    - destruct (py_len assignments) as [n|] eqn:Ln; [|discriminate C1].
      cbn [bind ret] in C1. injection C1 as C1. rewrite <- C1. clear C1.
      apply py_len_nonneg in Ln. apply Z.ltb_lt in P.
      assert (R0 : 0 <= inject_Z n / inject_Z total).
      { apply Qle_shift_div_l.
        - change 0 with (inject_Z 0). rewrite <- Zlt_Qlt. lia.
        - rewrite Qmult_0_l. change 0 with (inject_Z 0).
          rewrite <- Zle_Qle. lia. }
      cbn [nmul nadd ndiv nofZ QNumber].
      set (q := inject_Z n / inject_Z total) in *.
      assert (X : 1 # 2 <= q + lit 5 10) by (rewrite lit_Q; lra).
      pose proof (pymin_one_le sq (q + lit 5 10)) as U.
      pose proof (pymin_one_ge sq (q + lit 5 10) (1 # 2)) as V.
      cbn [nofZ QNumber] in U, V.
      assert (1 # 2 <= pymin (inject_Z 1) (q + lit 5 10))
        by (apply V; [lra|exact X]).
      unfold lit in *. cbn [ndiv nofZ QNumber] in *.
      set (m := pymin _ _) in *. clearbody m q. unfold inject_Z. lra.
    - injection C1 as C1. rewrite <- C1. cbn. unfold inject_Z. lra. }
  assert (B2 : 2 # 5 <= c2 <= 1).
  { clear C1. destruct (truthy (get "satellite_actions" (VDict []) action)).
    - destruct (py_values (get "satellite_actions" (VDict []) action))
        as [acts|]; [|discriminate C2].
      cbn [bind] in C2.
      destruct (mapM total_allocation acts) as [[|p ps]|];
        [| |discriminate C2]; cbn [bind ret] in C2.
      + injection C2 as C2. rewrite <- C2. lra.
      + destruct (nleb (lit 5 10) (np_mean (p :: ps))
                  && nleb (np_mean (p :: ps)) (nofZ 1%Z))%bool;
          injection C2 as C2; rewrite <- C2; unfold lit;
          cbn [nmul ndiv nofZ QNumber]; rewrite <- ?Qmake_Qdiv;
          unfold inject_Z; lra.
    - injection C2 as C2. rewrite <- C2. lra. }
  split.
  - apply pymin_one_ge; lra.
  - apply pymin_one_le.
Qed.

End Facts.
End ConfidenceFacts.

Module CoverageFacts.
Import ExpertPolicy.
Section Facts.
Context {T : Type} {N : Number T}.

Lemma filterM_sub {A : Type} (f : A -> exc bool) (l : list A) :
  forall r, filterM f l = Some r ->
  forall a, In a r -> In a l /\ f a = Some true.
Proof.
  induction l as [|x l IH]; intros r H a Ha; cbn [filterM] in H.
  - inversion H; subst. destruct Ha.
  - destruct (f x) as [b|] eqn:F; [|discriminate H]. cbn [bind] in H.
    destruct (filterM f l) as [r'|]; [|discriminate H]. cbn [bind ret] in H.
    inversion H; subst. clear H. destruct b.
    + destruct Ha as [<-|Ha].
      * split; [now left|exact F].
      * destruct (IH _ eq_refl _ Ha). split; [now right|assumption].
    + destruct (IH _ eq_refl _ Ha). split; [now right|assumption].
Qed.

Lemma id_put_In {A : Type} (k : value T) (a : A) (d : iddict A) :
  forall e, In e (id_put k a d) ->
  In e d \/ (snd e = a /\ (fst e = k \/ py_eq k (fst e) = true)).
Proof.
  induction d as [|[k' a'] d IH]; intros e He; cbn [id_put] in He.
  - destruct He as [<-|[]]. right. cbn. auto.
  - destruct (py_eq k k') eqn:E.
    + destruct He as [<-|He].
      * right. cbn. auto.
      * left. now right.
    + destruct He as [<-|He].
      * left. now left.
      * destruct (IH _ He) as [H|H]; [left; now right|now right].
Qed.

Lemma id_put_length {A : Type} (k : value T) (a : A) (d : iddict A) :
  (List.length (id_put k a d) <= S (List.length d))%nat.
Proof.
  induction d as [|[k' a'] d IH]; cbn [id_put List.length]; [lia|].
  destruct (py_eq k k'); cbn [List.length]; lia.
Qed.

Lemma id_put_pairs (R : value T -> value T -> Prop) (k a : value T)
    (d : iddict (value T)) :
  (forall x y, R x y -> R y x) ->
  ForallOrdPairs (fun e1 e2 => R (snd e1) (snd e2)) d ->
  Forall (fun e => R a (snd e)) d ->
  ForallOrdPairs (fun e1 e2 => R (snd e1) (snd e2)) (id_put k a d).
Proof.
  intros Sym. induction d as [|[k' a'] d IH]; intros HP HF; cbn [id_put].
  - constructor; constructor.
  - inversion HP as [|? ? Hhd Htl]; subst.
    inversion HF as [|? ? Fhd Ftl]; subst. cbn [snd] in *.
    destruct (py_eq k k').
    + constructor; [|exact Htl]. cbn [snd]. exact Ftl.
    + constructor; [|now apply IH].
      apply Forall_forall. intros e He. cbn [snd].
      destruct (id_put_In _ _ _ _ He) as [H|[H _]].
      * rewrite Forall_forall in Hhd. now apply Hhd.
      * rewrite H. now apply Sym.
Qed.

Lemma not_covered_apart (m : value T) (covered : pyset T) :
  bind (set_mem m covered) (fun b => ret (negb b)) = Some true ->
  set_add m covered = Some (covered ++ [m])
  /\ forall u, In u covered -> apart m u.
Proof.
  unfold set_mem, set_add. destruct (hashable m); [|discriminate].
  cbn [bind ret]. intros H.
  destruct (existsb (py_eq m) covered) eqn:E; [discriminate H|].
  split; [reflexivity|]. intros u Hu. left.
  destruct (py_eq m u) eqn:P; [|reflexivity].
  assert (existsb (py_eq m) covered = true)
    by (apply existsb_exists; eauto).
  congruence.
Qed.

Lemma apart_sym (a b : value T) : apart a b -> apart b a.
Proof. unfold apart. tauto. Qed.


Lemma coverage_step (visibility_map : iddict (list (value T)))
    (acc acc' : iddict (value T) * pyset T) (sat : value T) :
  coverage_invariant visibility_map acc ->
  (let '(assignments, covered_missiles) := acc in
   bind (py_get "satellite_id" (VStr "") sat) (fun sat_id =>
   bind (id_get sat_id [] visibility_map) (fun visible_missiles =>
   bind (filterM (fun m => bind (set_mem m covered_missiles)
                                (fun b => ret (negb b))) visible_missiles)
        (fun uncovered_visible =>
   match uncovered_visible with
   | [] => ret (assignments, covered_missiles)
   | target_missile :: _ =>
       bind (id_set sat_id target_missile assignments) (fun assignments =>
       bind (set_add target_missile covered_missiles) (fun covered_missiles =>
       ret (assignments, covered_missiles)))
   end)))) = Some acc' ->
  coverage_invariant visibility_map acc'
  /\ (List.length (fst acc') <= S (List.length (fst acc)))%nat.
Proof.
  destruct acc as [a covered]. intros [I1 [I2 I3]] H. cbn [fst snd] in *.
  destruct (py_get "satellite_id" (VStr "") sat) as [sat_id|];
    [|discriminate H]. cbn [bind] in H.
  unfold id_get in H. destruct (hashable sat_id) eqn:Hh; [|discriminate H].
  cbn [bind ret] in H.
  destruct (filterM _ _) as [unc|] eqn:F; [|discriminate H].
  cbn [bind] in H. destruct unc as [|t unc].
  - inversion H; subst. cbn [fst snd]. split; [|lia].
    split; [exact I1|]. split; assumption.
  - unfold id_set in H. rewrite Hh in H. cbn [bind ret] in H.
    destruct (filterM_sub _ _ _ F t (or_introl eq_refl)) as [Hvis Hnew].
    destruct (not_covered_apart _ _ Hnew) as [Hadd Hap].
    rewrite Hadd in H. cbn [bind ret] in H. inversion H; subst. clear H.
    cbn [fst snd]. split; [|apply id_put_length].
    split; [|split].
    + apply id_put_pairs; [apply apart_sym|exact I1|].
      eapply Forall_impl; [|exact I2]. intros e He. now apply Hap.
    + apply Forall_forall. intros e He.
      destruct (id_put_In _ _ _ _ He) as [H|[H _]].
      * rewrite Forall_forall in I2. apply in_or_app. left. now apply I2.
      * rewrite H. apply in_or_app. right. now left.
    + apply Forall_forall. intros e He.
      destruct (id_put_In _ _ _ _ He) as [H|[H K]].
      * rewrite Forall_forall in I3. now apply I3.
      * destruct (id_find sat_id visibility_map) as [vis|] eqn:Fd;
          [|destruct Hvis].
        exists sat_id, vis. rewrite H. repeat split; try assumption.
        destruct K as [K|K]; [now left|now right].
Qed.

Lemma coverage_loop (visibility_map : iddict (list (value T)))
    (sats : list (value T)) :
  forall acc acc',
  coverage_invariant visibility_map acc ->
  foldM (fun (acc : iddict (value T) * pyset T) sat =>
    let '(assignments, covered_missiles) := acc in
    bind (py_get "satellite_id" (VStr "") sat) (fun sat_id =>
    bind (id_get sat_id [] visibility_map) (fun visible_missiles =>
    bind (filterM (fun m => bind (set_mem m covered_missiles)
                                 (fun b => ret (negb b))) visible_missiles)
         (fun uncovered_visible =>
    match uncovered_visible with
    | [] => ret (assignments, covered_missiles)
    | target_missile :: _ =>
        bind (id_set sat_id target_missile assignments) (fun assignments =>
        bind (set_add target_missile covered_missiles) (fun covered_missiles =>
        ret (assignments, covered_missiles)))
    end)))) sats acc = Some acc' ->
  coverage_invariant visibility_map acc'
  /\ (List.length (fst acc') <= List.length (fst acc) + List.length sats)%nat.
Proof.
  induction sats as [|sat sats IH]; intros acc acc' I H; cbn [foldM] in H.
  - inversion H; subst. split; [exact I|lia].
  - match type of H with
    | match ?c with _ => _ end = _ =>
        destruct c as [acc1|] eqn:S1; [|discriminate H]
    end.
    destruct (coverage_step _ _ _ _ I S1) as [I1 L1].
    destruct (IH _ _ I1 H) as [I2 L2]. split; [exact I2|].
    cbn [List.length]. lia.
Qed.

(** X28. The assignments of [_find_minimal_coverage] give no missile to two
    satellites, take every target from the missiles the visibility map
    lists for the satellite, and are at most one per satellite of the
    snapshot. *)
Theorem minimal_coverage_is_sound (satellites missiles : value T)
    (visibility_map : iddict (list (value T)))
    (sats : list (value T)) (assignments : iddict (value T)) :
  py_iter satellites = Some sats ->
  _find_minimal_coverage satellites missiles visibility_map
    = Some assignments ->
  ForallOrdPairs (fun e1 e2 => apart (snd e1) (snd e2)) assignments
  /\ (forall sat_id target, In (sat_id, target) assignments ->
        exists s visible,
          (s = sat_id \/ py_eq s sat_id = true)
          /\ id_find s visibility_map = Some visible
          /\ In target visible)
  /\ (List.length assignments <= List.length sats)%nat.
Proof.
  intros Hs H. unfold _find_minimal_coverage in H. rewrite Hs in H.
  cbn [bind] in H.
  match type of H with
  | bind ?c _ = _ => destruct c as [r|] eqn:F; [|discriminate H]
  end.
  cbn [bind ret] in H. inversion H; subst. clear H.
  destruct (coverage_loop visibility_map sats ([], []) r) as [[I1 [_ I3]] Ln].
  - repeat split; constructor.
  - exact F.
  - split; [exact I1|]. split; [|exact Ln].
    intros sat_id target Hin. rewrite Forall_forall in I3.
    exact (I3 _ Hin).
Qed.

Lemma foldM_invariant_In {A S : Type} (P : S -> Prop) (f : S -> A -> exc S)
    (items : list A) :
  (forall s a s', In a items -> P s -> f s a = Some s' -> P s') ->
  forall s s', P s -> foldM f items s = Some s' -> P s'.
Proof.
  induction items as [|a l IH]; cbn [foldM]; intros Hf s s' Hs H.
  - inversion H; subst. exact Hs.
  - destruct (f s a) as [s1|] eqn:E; [|discriminate].
    refine (IH _ s1 s' _ H).
    + intros s0 a0 s0' Hin. apply Hf. now right.
    + eapply Hf; [now left|exact Hs|exact E].
Qed.

Lemma id_put_origin {A : Type} (k : value T) (a : A) (d : iddict A) :
  forall e, In e (id_put k a d) ->
  In e d
  \/ (snd e = a
      /\ ((fst e = k /\ id_find k d = None)
          \/ (py_eq k (fst e) = true
              /\ exists old, id_find k d = Some old /\ In (fst e, old) d))).
Proof.
  induction d as [|[k' a'] d IH]; intros e He; cbn [id_put id_find] in *.
  - destruct He as [<-|[]]. right. cbn. auto.
  - destruct (py_eq k k') eqn:E.
    + destruct He as [<-|He].
      * right. cbn [fst snd]. split; [reflexivity|]. right.
        split; [exact E|]. exists a'. split; [reflexivity|now left].
      * left. now right.
    + destruct He as [<-|He].
      * left. now left.
      * destruct (IH _ He) as [H|[H1 [H2|[H2 [old [H3 H4]]]]]].
        -- left. now right.
        -- right. auto.
        -- right. split; [exact H1|]. right. split; [exact H2|].
           exists old. split; [exact H3|now right].
Qed.

(** X29. The visibility map lists a missile under a satellite only when some
    visibility record of the snapshot with a true [has_visibility] names
    that missile and a satellite id equal to the key. *)
Theorem visibility_map_lists_visible_pairs (visibility_data : value T)
    (items : list (value T)) (visibility_map : iddict (list (value T))) :
  py_iter visibility_data = Some items ->
  _build_visibility_map visibility_data = Some visibility_map ->
  forall key listed missile_id,
    In (key, listed) visibility_map -> In missile_id listed ->
    exists vis h sat_id,
      In vis items
      /\ py_get "has_visibility" (VBool false) vis = Some h
      /\ truthy h = true
      /\ py_get "satellite_id" (VStr "") vis = Some sat_id
      /\ py_get "missile_id" (VStr "") vis = Some missile_id
      /\ (sat_id = key \/ py_eq sat_id key = true).
Proof.
  intros Hit H. unfold _build_visibility_map in H. rewrite Hit in H.
  cbn [bind] in H.
  refine (foldM_invariant_In
            (fun vm : iddict (list (value T)) =>
               forall key listed missile_id,
                 In (key, listed) vm -> In missile_id listed ->
                 exists vis h sat_id,
                   In vis items
                   /\ py_get "has_visibility" (VBool false) vis = Some h
                   /\ truthy h = true
                   /\ py_get "satellite_id" (VStr "") vis = Some sat_id
                   /\ py_get "missile_id" (VStr "") vis = Some missile_id
                   /\ (sat_id = key \/ py_eq sat_id key = true))
            _ items _ [] visibility_map _ H).
  - clear H. intros vm vis vm' Hin IH Hstep key listed m Hk Hm.
    destruct (py_get "has_visibility" (VBool false) vis) as [h|] eqn:Hh;
      [|discriminate Hstep].
    cbn [bind] in Hstep. destruct (truthy h) eqn:Ht.
    + destruct (py_get "satellite_id" (VStr "") vis) as [sat_id|] eqn:Hs;
        [|discriminate Hstep].
      destruct (py_get "missile_id" (VStr "") vis) as [mid|] eqn:Hm';
        [|discriminate Hstep].
      cbn [bind] in Hstep. unfold id_get, id_set in Hstep.
      destruct (hashable sat_id); [|discriminate Hstep].
      cbn [bind ret] in Hstep. inversion Hstep; subst. clear Hstep.
      destruct (id_put_origin _ _ _ _ Hk) as [Old|[Hv Hkey]].
      * eauto.
      * cbn [fst snd] in Hv, Hkey. subst listed.
        apply in_app_or in Hm. destruct Hm as [Hm|[<-|[]]].
        -- destruct Hkey as [[_ Hnone]|[_ [old [Hold Hin']]]].
           ++ rewrite Hnone in Hm. destruct Hm.
           ++ rewrite Hold in Hm. eauto.
        -- exists vis, h, sat_id. repeat split; try assumption.
           destruct Hkey as [[-> _]|[Hp _]]; [now left|now right].
    + inversion Hstep; subst. eauto.
  - intros key listed m [].
Qed.

End Facts.
End CoverageFacts.

(** ** The properties at the example inputs *)

Lemma visibility_matrix_shape_witness : binary_matrix 1 1 [[1]].
Proof.
  exact (visibility_matrix_shape (N:=QN) one_visibility_record 1 1 [[1]]
           eq_refl).
Defined.

Lemma coverage_ratio_in_unit_interval_witness :
  exists st,
    _extract_visibility_states (N:=QN) one_visibility_record 1 1 = Some st
    /\ exists x, lookup "coverage_ratio" st = Some (VFloat x)
                 /\ (0 <= x <= 1)%Q.
Proof.
  eexists. split; [reflexivity|].
  apply (coverage_ratio_in_unit_interval Qsqrt_6 one_visibility_record 1 1);
    [lia|lia|reflexivity].
Defined.

Lemma coverage_counts_agree_witness :
  exists st,
    _extract_visibility_states (N:=QN) one_visibility_record 1 1 = Some st
    /\ exists m per_satellite per_missile,
         lookup "visibility_matrix" st = Some (matrix_value m)
         /\ lookup "satellite_coverage_counts" st = Some (ints_value per_satellite)
         /\ lookup "missile_coverage_counts" st = Some (ints_value per_missile)
         /\ zsum per_satellite = covered_pairs m
         /\ zsum per_missile = covered_pairs m.
Proof.
  eexists. split; [reflexivity|].
  apply (coverage_counts_agree (N:=QN) one_visibility_record 1 1).
  reflexivity.
Defined.

Lemma codes_ignore_case_witness :
  _encode_threat_level (T:=Q) VNone = None
  /\ _encode_flight_phase (T:=Q) VNone = None.
Proof.
  apply (proj2 (proj2 (proj2 (proj2 (codes_ignore_case (T:=Q) "HIGH")))) VNone).
  intros s'. discriminate.
Defined.

Lemma features_are_aligned_witness :
  list_of_length 1 (VList [VList [@F0 Q QN; @F0 Q QN; @F0 Q QN]]).
Proof.
  apply (proj1 (features_are_aligned (N:=QN) positions_only one_satellite
                  [VDict [("satellite_id", VStr "Satellite01")]]
                  [("satellite_positions", VList [VList [F0; F0; F0]])]
                  eq_refl)
               eq_refl "satellite_positions").
  reflexivity.
Defined.

Lemma mission_counts_match_snapshot_witness :
  exists st,
    _extract_mission_states (N:=QN) [] one_satellite_one_missile
      one_satellite one_satellite = Some st
    /\ exists n_sat n_mis,
         py_len one_satellite = Some n_sat
         /\ py_len one_satellite = Some n_mis
         /\ lookup "active_satellites" st = Some (VInt n_sat)
         /\ lookup "active_missiles" st = Some (VInt n_mis)
         /\ lookup "mission_progress" st
            = Some (get "simulation_progress" (F0 (N:=QN))
                      one_satellite_one_missile).
Proof.
  eexists. split; [reflexivity|].
  apply (mission_counts_match_snapshot (N:=QN) []). reflexivity.
Defined.

Lemma predicted_state_moves_progress_only_witness :
  exists st',
    _predict_next_state (N:=QN) state_in_progress [] = Some st'
    /\ lookup "active_missiles" st' = Some (VInt 1).
Proof.
  pose proof (predicted_state_moves_progress_only (N:=QN) state_in_progress [])
    as H.
  cbn [lookup state_in_progress String.eqb Ascii.eqb Bool.eqb as_num ret] in H.
  destruct H as [st' [E [_ [_ O]]]]. exists st'. split; [exact E|].
  rewrite O; [reflexivity|discriminate].
Defined.

Lemma resource_waste_penalty_nonneg_witness :
  (_calculate_resource_waste_penalty (N:=QN) [] whole_power_action == 0)%Q.
Proof.
  apply (proj2 (resource_waste_penalty_nonneg Qsqrt_6 [] whole_power_action)
           [whole_power_satellite]).
  - reflexivity.
  - intros a [<-|[]]. eexists. split; [reflexivity|].
    vm_compute. discriminate.
Defined.

Lemma reward_without_flags_is_minus_penalty_witness :
  (calculate_total_reward (N:=QN) [] [] [] []
   == - _calculate_penalty_terms (N:=QN) [] [] [])%Q.
Proof.
  apply (reward_without_flags_is_minus_penalty Qsqrt_6 [] [] [] []).
  intros group name. reflexivity.
Defined.

Lemma complete_point_has_every_required_field_witness :
  _check_field_exists (L:=QLib) outlier_point (VStr "state") = true.
Proof.
  apply (proj2 (complete_point_has_every_required_field (N:=QN) (L:=QLib)
                  (demo_validator ["state"]) outlier_point [VStr "state"]
                  eq_refl eq_refl)).
  now left.
Defined.

Lemma accepted_point_has_no_errors_witness :
  errors (snd (validate_rlhf_data_point (N:=QN) (L:=QLib)
                 (demo_validator []) outlier_point)) = [].
Proof.
  apply (proj2 (accepted_point_has_no_errors (N:=QN) (L:=QLib)
                  (demo_validator []) outlier_point)).
  vm_compute. reflexivity.
Defined.

Lemma accepted_point_has_finite_reward_witness :
  nisfinite (Number:=QN) (reward outlier_point) = true.
Proof.
  apply (proj1 (accepted_point_has_finite_reward (N:=QN) (L:=QLib)
                  (demo_validator []) outlier_point)).
  vm_compute. reflexivity.
Defined.

Lemma temporal_check_window_witness :
  check_ok (_check_temporal_consistency (N:=QN) one_record_validator
              outlier_point) = true.
Proof.
  apply (proj2 (temporal_check_window Qsqrt_6 one_record_validator outlier_point)
           []
           {| h_timestamp := 0; h_reward := 0%Q; h_state := [];
              h_validation_score := 1%Q |}
           eq_refl).
  cbn [timestamp outlier_point h_timestamp]. lia.
Defined.

Lemma histories_follow_returned_points_witness :
  reward_history (fst demo_run)
  = reward_history (demo_open []) ++ map (@reward Q) (collected (snd demo_run)).
Proof.
  refine (proj1 (proj2 (proj2
            (histories_follow_returned_points (N:=QN) (L:=QLib) demo_calls
               (demo_open []) (fst demo_run) (snd demo_run) _)))).
  vm_compute. reflexivity.
Defined.

Lemma counters_follow_returned_points_witness :
  total_data_points (collection_stats (fst demo_run))
  = total_data_points (collection_stats (demo_open []))
    + Z.of_nat (List.length (collected (snd demo_run))).
Proof.
  refine (proj1 (counters_follow_returned_points (N:=QN) (L:=QLib) demo_calls
                   (demo_open []) (fst demo_run) (snd demo_run) _)).
  vm_compute. reflexivity.
Defined.

Lemma failed_snapshot_returns_nothing_witness :
  collect_rlhf_data_point (N:=QN) (L:=QLib) (demo_open []) blind_world [] false
  = (demo_open [], None).
Proof.
  apply (proj1 (failed_snapshot_returns_nothing (N:=QN) (L:=QLib)
                  (demo_open []) blind_world [] false)).
  left. reflexivity.
Defined.

Lemma end_episode_closes_the_episode_witness :
  exists done_episode,
    snd (end_episode (demo_open []) (demo_world 90) true) = Some done_episode
    /\ data_points done_episode = data_points demo_episode
    /\ total_reward done_episode = total_reward demo_episode
    /\ success done_episode = true
    /\ end_time done_episode = Some (current_simulation_time (demo_world 90))
    /\ episodes (fst (end_episode (demo_open []) (demo_world 90) true))
       = episodes (demo_open []) ++ [done_episode]
    /\ current_episode (fst (end_episode (demo_open []) (demo_world 90) true))
       = None
    /\ end_episode (fst (end_episode (demo_open []) (demo_world 90) true))
         (demo_world 120) false
       = (fst (end_episode (demo_open []) (demo_world 90) true), None).
Proof.
  apply (end_episode_closes_the_episode (demo_open []) (demo_world 90)
           (demo_world 120) true false demo_episode).
  reflexivity.
Defined.

Lemma statistics_rates_in_unit_interval_witness :
  (0 <= bs_data_quality_rate (get_statistics (N:=QN) (fst demo_run)) <= 1)%Q
  /\ (0 <= bs_episode_success_rate (get_statistics (N:=QN) (fst demo_run)) <= 1)%Q.
Proof.
  refine (statistics_rates_in_unit_interval Qsqrt_6 QLib demo_calls
            (demo_open []) (fst demo_run) (snd demo_run) eq_refl eq_refl _).
  vm_compute. reflexivity.
Defined.

Lemma evaluation_scenarios_are_numbered_witness :
  ScenarioGenerator.mission_objectives
    (ScenarioGenerator._generate_single_scenario (fun _ _ _ => tt) 1
       "eval_scenario_" "single_threat" "easy")
  = ScenarioGenerator._generate_mission_objectives "single_threat" "easy".
Proof.
  apply (proj2 (proj2 (ScenarioNumbering.evaluation_scenarios_are_numbered
                         unit (fun _ _ _ => tt) 2))).
  left. reflexivity.
Defined.

Lemma mission_objectives_shape_witness :
  In "minimize_false_alarms"
     (ScenarioGenerator._generate_mission_objectives "single_threat" "hard").
Proof.
  apply (proj2 (proj1 (proj2 (proj2
           (ScenarioNumbering.mission_objectives_shape "single_threat" "hard"))))).
  left. reflexivity.
Defined.

Lemma priority_is_constant_witness :
  py_iter (VList [low_missile; critical_missile])
  = Some [low_missile; critical_missile].
Proof.
  apply (proj2 (PolicyFacts.priority_is_constant (T:=Q)
                  (VList [low_missile; critical_missile])
                  [("missile_threat_levels", VList [VInt 1; VInt 4])])).
  reflexivity.
Defined.

Lemma minimal_coverage_is_sound_witness :
  (List.length [(VStr (T:=Q) "Satellite01", VStr (T:=Q) "Missile01")]
   <= List.length [VDict (T:=Q) [("satellite_id", VStr "Satellite01")]])%nat.
Proof.
  apply (proj2 (proj2 (CoverageFacts.minimal_coverage_is_sound (N:=QN)
           one_satellite (VList [])
           [(VStr "Satellite01", [VStr "Missile01"])]
           [VDict [("satellite_id", VStr "Satellite01")]]
           [(VStr "Satellite01", VStr "Missile01")]
           eq_refl eq_refl))).
Defined.

Lemma visibility_map_lists_visible_pairs_witness :
  exists vis h sat_id,
    In vis [VDict [("satellite_id", VStr (T:=Q) "Satellite01");
                   ("missile_id", VStr "Missile01");
                   ("has_visibility", VBool true)]]
    /\ py_get "has_visibility" (VBool false) vis = Some h
    /\ truthy (N:=QN) h = true
    /\ py_get "satellite_id" (VStr "") vis = Some sat_id
    /\ py_get "missile_id" (VStr "") vis = Some (VStr "Missile01")
    /\ (sat_id = VStr "Satellite01"
        \/ py_eq (N:=QN) sat_id (VStr "Satellite01") = true).
Proof.
  apply (CoverageFacts.visibility_map_lists_visible_pairs (N:=QN)
           one_visibility_record _
           [(VStr "Satellite01", [VStr "Missile01"])]
           eq_refl eq_refl (VStr "Satellite01") [VStr "Missile01"]).
  - left. reflexivity.
  - left. reflexivity.
Defined.
